(** * Redis Cluster demonstration scripts: model and verified properties

    The scripts under [src/] talk to a Redis Cluster through a client object
    [rc].  The client and the cluster behind it are not part of the
    repository; they are modelled here as an in-memory store with the
    documented semantics of the commands the scripts issue.  Every function
    of the repository that a statement below is about is translated from
    its Python text, in a state-and-exception monad over that store. *)

From Stdlib Require Import ZArith String Ascii List Bool Lia.
From Stdlib Require Import DecimalString DecimalZ DecimalPos.
From Stdlib Require PrimFloat.
From stdpp Require Import gmap strings list.

Local Open Scope string_scope.
Local Open Scope Z_scope.

(** ** Python values used by the scripts *)

Module Py.

(** [str(n)] and the [{n}] field of an f-string for an [int]: the
    canonical decimal rendering. *)
Definition str_int (z : Z) : string := NilZero.string_of_int (Z.to_int z).

Fixpoint string_forallb (p : ascii -> bool) (s : string) : bool :=
  match s with
  | EmptyString => true
  | String a r => p a && string_forallb p r
  end.

Definition is_digit (a : ascii) : bool :=
  let n := nat_of_ascii a in (48 <=? n)%nat && (n <=? 57)%nat.

(** The white space [int] drops around an ASCII text: tab, line feed,
    vertical tab, form feed, carriage return and space. *)
Definition is_space (a : ascii) : bool :=
  let n := nat_of_ascii a in
  ((9 <=? n)%nat && (n <=? 13)%nat) || (n =? 32)%nat.

(** [lstrip], [rstrip] and [strip] are the stripping [int] does before it
    reads the sign and the digits. *)
Fixpoint lstrip (s : string) : string :=
  match s with
  | EmptyString => EmptyString
  | String a r => if is_space a then lstrip r else s
  end.

Fixpoint rstrip (s : string) : string :=
  match s with
  | EmptyString => EmptyString
  | String a r =>
      match rstrip r with
      | EmptyString => if is_space a then EmptyString else String a EmptyString
      | r' => String a r'
      end
  end.

Definition strip (s : string) : string := rstrip (lstrip s).

(** Digit groups may be separated by single underscores: an underscore
    is legal only between two digits. *)
Fixpoint underscores_ok (after_digit : bool) (s : string) : bool :=
  match s with
  | EmptyString => after_digit
  | String a r =>
      if Ascii.eqb a "_" then after_digit && underscores_ok false r
      else underscores_ok true r
  end.

Fixpoint remove_underscores (s : string) : string :=
  match s with
  | EmptyString => EmptyString
  | String a r =>
      if Ascii.eqb a "_" then remove_underscores r
      else String a (remove_underscores r)
  end.

Definition int_digits (s : string) : option Z :=
  if underscores_ok false s
  then option_map Z.of_uint (NilZero.uint_of_string (remove_underscores s))
  else None.

(** [int(s)] for a [str] of ASCII text, base ten: surrounding white space
    is dropped, one sign is allowed, then digits.  [None] stands for
    [ValueError].  Text outside ASCII is answered [None]. *)
Definition int (s : string) : option Z :=
  match strip s with
  | EmptyString => None
  | String a r =>
      if Ascii.eqb a "+" then int_digits r
      else if Ascii.eqb a "-" then option_map Z.opp (int_digits r)
      else int_digits (String a r)
  end.

(** [sys.int_info.default_max_str_digits]: [str] of an integer of more
    digits, and [int] of a text of more digits, raise [ValueError].
    [str_int] and [int] are used for texts within the limit. *)
Definition int_max_str_digits : nat := 4300.

(** A character that neither [strip] nor the underscore rule touches. *)
Definition plain (a : ascii) : bool :=
  negb (is_space a) && negb (Ascii.eqb a "_").

(** Truth value of a [str]: only the empty string is false. *)
Definition truthy (s : string) : bool :=
  match s with EmptyString => false | _ => true end.

(** [s * n] for a one-character separator line such as ["=" * 60]. *)
Fixpoint repeat_str (s : string) (n : nat) : string :=
  match n with
  | O => EmptyString
  | S k => s ++ repeat_str s k
  end.

End Py.

(** ** Static slot-to-master table *)

(** [verify_hash_tags.get_master_for_slot] *)
Definition get_master_for_slot (slot : Z) : string * string :=
  if slot <=? 5460 then ("Master 1 (redis-node-1)", "172.28.0.2")
  else if slot <=? 10922 then ("Master 2 (redis-node-2)", "172.28.0.3")
  else ("Master 3 (redis-node-3)", "172.28.0.4").

(** The same table as [cluster_distribution_demo.demo_distribution] and
    [category_products_demo.main] write it in line. *)
Definition master_for_slot_inline (slot : Z) : string :=
  if slot <=? 5460 then "Master 1 (redis-node-1)"
  else if slot <=? 10922 then "Master 2 (redis-node-2)"
  else "Master 3 (redis-node-3)".

(** The slots [lo..hi], in order. *)
Definition slot_range (lo hi : Z) : list Z :=
  map Z.of_nat (seq (Z.to_nat lo) (Z.to_nat (hi - lo + 1))).

(** The slots of the 16384-slot space, in order. *)
Definition all_slots : list Z := slot_range 0 16383.

(** The slots the table gives to a master label. *)
Definition slots_of_master (label : string) : list Z :=
  List.filter (fun s => String.eqb (fst (get_master_for_slot s)) label) all_slots.

(** ** The store behind the client

    What a key holds.  Hash fields, list elements and plain values are
    strings, as the client is opened with [decode_responses=True].  A
    sorted set is its members with their scores, which are doubles, in
    rank order: lowest score first, and by member among equal scores. *)
Inductive rvalue : Type :=
| RString (s : string)
| RHash (h : gmap string string)
| RList (l : list string)
| RZSet (z : list (string * PrimFloat.float)).

(** One entry of the reply of [rc.cluster_nodes()]: the keys of the
    per-node dictionary that [get_node_for_key] reads.  A key that is
    missing and a key bound to [None] are both [None] ([dict.get]);
    a missing ['slots'] is the empty list. *)
Record node_info : Type := NodeInfo {
  ni_master : option string;
  ni_slots : list (Z * Z);
  ni_host : option string;
  ni_port : option Z
}.

(** Exceptions the scripts can meet; all of them derive from [Exception]. *)
Inductive exn : Type :=
| ConnectionError (msg : string)
| ResponseError (msg : string)
| DataError (msg : string)
| ValueError (msg : string).

(** [str(e)] *)
Definition exn_str (e : exn) : string :=
  match e with
  | ConnectionError m | ResponseError m | DataError m | ValueError m => m
  end.

(** Commands a script sends through the client, as they go on the wire. *)
Inductive command : Type :=
| CONNECT
| SET_NX_EX (key value : string) (ex : Z)
| DEL (key : string)
| EXPIRE (key : string) (seconds : Z)
| INCR (key : string)
| HSET (key : string) (mapping : gmap string string)
| HGET (key field : string)
| HGETALL (key : string)
| HINCRBY (key field : string) (amount : Z)
| LPUSH (key value : string)
| LTRIM (key : string) (start stop : Z)
| SCAN (pattern : string)
| CLUSTER_KEYSLOT (key : string)
| CLUSTER_NODES
| CLUSTER_INFO
| CLOSE
| GET (key : string)
| SET (key value : string)
| SETEX (key : string) (seconds : Z) (value : string)
| INCRBY (key : string) (amount : Z)
| HDEL (key field : string)
| RPUSH (key value : string)
| LRANGE (key : string) (start stop : Z)
| ZADD (key : string) (score : PrimFloat.float) (member : string)
| ZREMRANGEBYRANK (key : string) (start stop : Z).

(** The world a script runs in: the keys of the cluster and their
    time-to-live, the topology it reports, the commands sent so far
    (oldest first), the lines printed so far, and whether opening the
    client fails.  Time does not pass inside a call: a time-to-live is
    recorded, never counted down. *)
Record cluster : Type := Cluster {
  db : gmap string rvalue;
  ttl : gmap string Z;
  topology : list (string * node_info);
  info : gmap string string;
  wire : list command;
  console : list string;
  startup_failure : option exn
}.

Definition with_db (d : gmap string rvalue) (w : cluster) : cluster :=
  Cluster d (ttl w) (topology w) (info w) (wire w) (console w) (startup_failure w).

Definition with_ttl (t : gmap string Z) (w : cluster) : cluster :=
  Cluster (db w) t (topology w) (info w) (wire w) (console w) (startup_failure w).

Definition sent (c : command) (w : cluster) : cluster :=
  Cluster (db w) (ttl w) (topology w) (info w) (wire w ++ [c]) (console w)
    (startup_failure w).

Definition printed (line : string) (w : cluster) : cluster :=
  Cluster (db w) (ttl w) (topology w) (info w) (wire w) (console w ++ [line])
    (startup_failure w).

(** ** Statements: state and exceptions *)

Inductive outcome (A : Type) : Type :=
| Return (a : A)
| Raise (e : exn).
Arguments Return {A} a.
Arguments Raise {A} e.

Definition M (A : Type) : Type := cluster -> outcome A * cluster.

Definition ret {A} (a : A) : M A := fun w => (Return a, w).

Definition raise {A} (e : exn) : M A := fun w => (Raise e, w).

Definition bind {A B} (m : M A) (k : A -> M B) : M B := fun w =>
  match m w with
  | (Return a, w') => k a w'
  | (Raise e, w') => (Raise e, w')
  end.

Declare Scope py_scope.
Delimit Scope py_scope with py.
Notation "x <- c1 ;; c2" := (bind c1 (fun x => c2))
  (at level 100, c1 at next level, right associativity) : py_scope.
Notation "c1 ;; c2" := (bind c1 (fun _ => c2))
  (at level 100, right associativity) : py_scope.
Local Open Scope py_scope.

(** [try: body finally: cleanup]: the clean-up runs whatever the body
    did; the outcome is the body's unless the clean-up itself raises. *)
Definition try_finally {A} (body : M A) (cleanup : M unit) : M A := fun w =>
  let '(r, w1) := body w in
  match cleanup w1 with
  | (Return _, w2) => (r, w2)
  | (Raise e, w2) => (Raise e, w2)
  end.

(** [try: body except Exception as e: handler(e)] *)
Definition try_except {A} (body : M A) (handler : exn -> M A) : M A := fun w =>
  match body w with
  | (Return a, w1) => (Return a, w1)
  | (Raise e, w1) => handler e w1
  end.

(** [print(line)] *)
Definition print (line : string) : M unit := fun w => (Return tt, printed line w).

(** [for x in xs: body x] *)
Fixpoint for_each {A} (xs : list A) (body : A -> M unit) : M unit :=
  match xs with
  | [] => ret tt
  | x :: rest => body x ;; for_each rest body
  end.

(** ** Key hash slots

    [rc.cluster_keyslot(key)] is answered by the cluster.  The rule is the
    one the scripts print ("slot = CRC16(key) % 16384") together with the
    hash-tag rule of Redis Cluster. *)

(** CRC16 in its XMODEM form: polynomial 0x1021, initial value 0, one
    byte at a time, most significant bit first. *)

Definition crc16_shift (crc : Z) : Z :=
  if Z.testbit crc 15
  then Z.land (Z.lxor (Z.shiftl crc 1) 0x1021) 0xFFFF
  else Z.land (Z.shiftl crc 1) 0xFFFF.

Definition crc16_byte (crc : Z) (b : ascii) : Z :=
  Nat.iter 8 crc16_shift (Z.lxor crc (Z.shiftl (Z.of_nat (nat_of_ascii b)) 8)).

Fixpoint crc16_from (crc : Z) (buf : string) : Z :=
  match buf with
  | EmptyString => crc
  | String b rest => crc16_from (crc16_byte crc b) rest
  end.

Definition crc16 (buf : string) : Z := crc16_from 0 buf.

(** Index of the first [c] in [key] at or after [from]; the length of
    [key] when there is none. *)
Fixpoint scan_for (c : ascii) (from : nat) (key : string) : nat :=
  match key with
  | EmptyString => O
  | String a rest =>
      match from with
      | O => if Ascii.eqb a c then O else S (scan_for c O rest)
      | S f => S (scan_for c f rest)
      end
  end.

(** Modelled from the spec: the key-to-slot computation of the cluster
    client, which the repository calls and does not contain.  A slot is
    an integer of [0..16383] computed from the key alone, and the
    contents of a hash tag alone determine it: the CRC16 of the key, or
    of the text between the first "{" and the first "}" after it when
    that text is not empty, modulo 16384. *)
Definition keyHashSlot (key : string) : Z :=
  let keylen := String.length key in
  let s := scan_for "{" 0 key in
  if (s =? keylen)%nat then Z.land (crc16 key) 0x3FFF
  else
    let e := scan_for "}" (S s) key in
    if (e =? keylen)%nat || (e =? S s)%nat then Z.land (crc16 key) 0x3FFF
    else Z.land (crc16 (substring (S s) (e - s - 1) key)) 0x3FFF.

(** The hash tag of a key in the words of the specification: "a substring
    delimited by braces whose contents alone determine the slot".  It is
    the text between the first "{" and the first "}" that follows it, and
    a key whose braces enclose nothing has no tag. *)
Fixpoint after_open_brace (key : string) : option string :=
  match key with
  | EmptyString => None
  | String a rest => if Ascii.eqb a "{" then Some rest else after_open_brace rest
  end.

Fixpoint before_close_brace (s : string) : option string :=
  match s with
  | EmptyString => None
  | String a rest =>
      if Ascii.eqb a "}" then Some EmptyString
      else option_map (String a) (before_close_brace rest)
  end.

Definition hash_tag (key : string) : option string :=
  match after_open_brace key with
  | None => None
  | Some rest =>
      match before_close_brace rest with
      | None | Some EmptyString => None
      | Some tag => Some tag
      end
  end.

(** ** Integers in the store *)

Definition in_int64 (z : Z) : bool :=
  (- 2 ^ 63 <=? z) && (z <? 2 ^ 63).

(** The store reads a stored string as an integer only when it is the
    canonical rendering of a signed 64-bit value: no "+", no leading
    zeros, no spaces, no "-0". *)
Definition string2ll (s : string) : option Z :=
  match NilZero.int_of_string s with
  | None => None
  | Some d =>
      let z := Z.of_int d in
      if String.eqb (Py.str_int z) s && in_int64 z then Some z else None
  end.

Definition wrongtype : exn :=
  ResponseError "WRONGTYPE Operation against a key holding the wrong kind of value".

Definition not_an_integer : exn :=
  ResponseError "value is not an integer or out of range".

Definition would_overflow : exn :=
  ResponseError "increment or decrement would overflow".

Definition hash_not_an_integer : exn :=
  ResponseError "hash value is not an integer".

(** LTRIM keeps the elements with index in [start..stop]; a negative
    index counts from the end. *)
Definition ltrim_list (l : list string) (start stop : Z) : list string :=
  let llen := Z.of_nat (length l) in
  let start := if start <? 0 then llen + start else start in
  let stop := if stop <? 0 then llen + stop else stop in
  let start := if start <? 0 then 0 else start in
  if (stop <? start) || (llen <=? start) then []
  else
    let stop := if llen <=? stop then llen - 1 else stop in
    take (Z.to_nat (stop - start + 1)) (drop (Z.to_nat start) l).

(** ** Sorted sets *)

(** Whether a member with this score ranks before the entry [e]. *)
Definition zset_before (member : string) (score : PrimFloat.float)
    (e : string * PrimFloat.float) : bool :=
  PrimFloat.ltb score (snd e)
  || (PrimFloat.eqb score (snd e) && String.ltb member (fst e)).

(** A new member takes its place in the rank order. *)
Fixpoint zset_insert (member : string) (score : PrimFloat.float)
    (z : list (string * PrimFloat.float)) : list (string * PrimFloat.float) :=
  match z with
  | [] => [(member, score)]
  | e :: rest =>
      if zset_before member score e then (member, score) :: e :: rest
      else e :: zset_insert member score rest
  end.

(** ZREMRANGEBYRANK removes the members with rank in [start..stop]; a
    negative rank counts from the end.  The value is what stays. *)
Definition zset_remove_ranks (z : list (string * PrimFloat.float)) (start stop : Z)
  : list (string * PrimFloat.float) :=
  let llen := Z.of_nat (length z) in
  let start := if start <? 0 then llen + start else start in
  let stop := if stop <? 0 then llen + stop else stop in
  let start := if start <? 0 then 0 else start in
  if (stop <? start) || (llen <=? start) then z
  else
    let stop := if llen <=? stop then llen - 1 else stop in
    (take (Z.to_nat start) z ++ drop (Z.to_nat (stop + 1)) z)%list.

(** ** The client object [rc] *)

Module rc.

(** [rc.set(key, value, nx=True, ex=seconds)]: [True] when the key was
    free and is now set, [None] (here [false]) when it was taken. *)
Definition set_nx_ex (key value : string) (ex : Z) : M bool := fun w =>
  let w := sent (SET_NX_EX key value ex) w in
  match db w !! key with
  | Some _ => (Return false, w)
  | None =>
      (Return true,
       with_ttl (<[key := ex]> (ttl w)) (with_db (<[key := RString value]> (db w)) w))
  end.

(** [rc.delete(key)]: the number of keys removed. *)
Definition delete (key : string) : M Z := fun w =>
  let w := sent (DEL key) w in
  match db w !! key with
  | None => (Return 0, w)
  | Some _ =>
      (Return 1, with_ttl (base.delete key (ttl w)) (with_db (base.delete key (db w)) w))
  end.

(** [rc.expire(key, seconds)]: a time-to-live that is not positive
    removes the key at once. *)
Definition expire (key : string) (seconds : Z) : M bool := fun w =>
  let w := sent (EXPIRE key seconds) w in
  match db w !! key with
  | None => (Return false, w)
  | Some _ =>
      if seconds <=? 0
      then (Return true,
            with_ttl (base.delete key (ttl w)) (with_db (base.delete key (db w)) w))
      else (Return true, with_ttl (<[key := seconds]> (ttl w)) w)
  end.

(** [rc.incr(key)] *)
Definition incr (key : string) : M Z := fun w =>
  let w := sent (INCR key) w in
  match db w !! key with
  | None => (Return 1, with_db (<[key := RString "1"]> (db w)) w)
  | Some (RString s) =>
      match string2ll s with
      | None => (Raise not_an_integer, w)
      | Some n =>
          if in_int64 (n + 1)
          then (Return (n + 1),
                with_db (<[key := RString (Py.str_int (n + 1))]> (db w)) w)
          else (Raise would_overflow, w)
      end
  | Some _ => (Raise wrongtype, w)
  end.

(** Modelled from the spec: [rc.hset(key, mapping=mapping)], the
    hash-field set of the external client on a grouped record, which the
    repository calls and does not contain.  The fields of [mapping] are
    written over the hash at [key]; the fields it does not name stay.
    The client refuses an empty mapping before sending anything. *)
Definition hset (key : string) (mapping : gmap string string) : M unit := fun w =>
  if decide (mapping = ∅)
  then (Raise (DataError "'hset' with no key value pairs"), w)
  else
    let w := sent (HSET key mapping) w in
    match db w !! key with
    | None => (Return tt, with_db (<[key := RHash mapping]> (db w)) w)
    | Some (RHash h) => (Return tt, with_db (<[key := RHash (mapping ∪ h)]> (db w)) w)
    | Some _ => (Raise wrongtype, w)
    end.

(** [rc.hget(key, field)] *)
Definition hget (key field : string) : M (option string) := fun w =>
  let w := sent (HGET key field) w in
  match db w !! key with
  | None => (Return None, w)
  | Some (RHash h) => (Return (h !! field), w)
  | Some _ => (Raise wrongtype, w)
  end.

(** Modelled from the spec: [rc.hgetall(key)], the read of a whole
    grouped record by the external client.  The value is a [dict], empty
    when the key does not exist. *)
Definition hgetall (key : string) : M (gmap string string) := fun w =>
  let w := sent (HGETALL key) w in
  match db w !! key with
  | None => (Return ∅, w)
  | Some (RHash h) => (Return h, w)
  | Some _ => (Raise wrongtype, w)
  end.

(** [rc.hincrby(key, field, amount)] *)
Definition hincrby (key field : string) (amount : Z) : M Z := fun w =>
  let w := sent (HINCRBY key field amount) w in
  if negb (in_int64 amount) then (Raise not_an_integer, w)
  else
    let store h old :=
      if in_int64 (old + amount)
      then (Return (old + amount),
            with_db (<[key := RHash (<[field := Py.str_int (old + amount)]> h)]> (db w)) w)
      else (Raise would_overflow, w) in
    match db w !! key with
    | None => store ∅ 0
    | Some (RHash h) =>
        match h !! field with
        | None => store h 0
        | Some s =>
            match string2ll s with
            | None => (Raise hash_not_an_integer, w)
            | Some old => store h old
            end
        end
    | Some _ => (Raise wrongtype, w)
    end.

(** [rc.lpush(key, value)]: the new length of the list. *)
Definition lpush (key value : string) : M Z := fun w =>
  let w := sent (LPUSH key value) w in
  match db w !! key with
  | None => (Return 1, with_db (<[key := RList [value]]> (db w)) w)
  | Some (RList l) =>
      (Return (Z.of_nat (length (value :: l))),
       with_db (<[key := RList (value :: l)]> (db w)) w)
  | Some _ => (Raise wrongtype, w)
  end.

(** [rc.ltrim(key, start, stop)]: a list trimmed to nothing is removed. *)
Definition ltrim (key : string) (start stop : Z) : M bool := fun w =>
  let w := sent (LTRIM key start stop) w in
  match db w !! key with
  | None => (Return true, w)
  | Some (RList l) =>
      match ltrim_list l start stop with
      | [] => (Return true,
               with_ttl (base.delete key (ttl w)) (with_db (base.delete key (db w)) w))
      | l' => (Return true, with_db (<[key := RList l']> (db w)) w)
      end
  | Some _ => (Raise wrongtype, w)
  end.

(** [rc.scan_iter("*", count=n)]: every key of every node, taken as one
    snapshot; the order is the store's own. *)
Definition scan_iter_all : M (list string) := fun w =>
  let w := sent (SCAN "*") w in
  (Return (map fst (map_to_list (db w))), w).

(** Modelled from the spec: [rc.cluster_keyslot(key)], the key-to-slot
    computation of the external client; it reads and changes no key. *)
Definition cluster_keyslot (key : string) : M Z := fun w =>
  (Return (keyHashSlot key), sent (CLUSTER_KEYSLOT key) w).

(** [rc.cluster_nodes()]: the per-node dictionaries, in the order the
    reply dictionary iterates. *)
Definition cluster_nodes : M (list (string * node_info)) := fun w =>
  (Return (topology w), sent CLUSTER_NODES w).

(** [rc.cluster_info()] *)
Definition cluster_info : M (gmap string string) := fun w =>
  (Return (info w), sent CLUSTER_INFO w).

(** [rc.close()] *)
Definition close : M unit := fun w => (Return tt, sent CLOSE w).

(** [rc.get(key)]: [None] when the key does not exist. *)
Definition get (key : string) : M (option string) := fun w =>
  let w := sent (GET key) w in
  match db w !! key with
  | None => (Return None, w)
  | Some (RString s) => (Return (Some s), w)
  | Some _ => (Raise wrongtype, w)
  end.

(** [rc.set(key, value)]: the key holds the string whatever it held, and
    has no time-to-live any more. *)
Definition set (key value : string) : M bool := fun w =>
  let w := sent (SET key value) w in
  (Return true,
   with_ttl (base.delete key (ttl w)) (with_db (<[key := RString value]> (db w)) w)).

(** [rc.setex(key, seconds, value)]: the time-to-live must be positive. *)
Definition setex (key : string) (seconds : Z) (value : string) : M bool := fun w =>
  let w := sent (SETEX key seconds value) w in
  if seconds <=? 0
  then (Raise (ResponseError "invalid expire time in 'setex' command"), w)
  else (Return true,
        with_ttl (<[key := seconds]> (ttl w)) (with_db (<[key := RString value]> (db w)) w)).

(** [rc.incrby(key, amount)] *)
Definition incrby (key : string) (amount : Z) : M Z := fun w =>
  let w := sent (INCRBY key amount) w in
  if negb (in_int64 amount) then (Raise not_an_integer, w)
  else
    let store old :=
      if in_int64 (old + amount)
      then (Return (old + amount),
            with_db (<[key := RString (Py.str_int (old + amount))]> (db w)) w)
      else (Raise would_overflow, w) in
    match db w !! key with
    | None => store 0
    | Some (RString s) =>
        match string2ll s with
        | None => (Raise not_an_integer, w)
        | Some old => store old
        end
    | Some _ => (Raise wrongtype, w)
    end.

(** [rc.hdel(key, field)]: the number of fields removed; a hash left
    without fields is removed. *)
Definition hdel (key field : string) : M Z := fun w =>
  let w := sent (HDEL key field) w in
  match db w !! key with
  | None => (Return 0, w)
  | Some (RHash h) =>
      match h !! field with
      | None => (Return 0, w)
      | Some _ =>
          if decide (base.delete field h = ∅)
          then (Return 1,
                with_ttl (base.delete key (ttl w)) (with_db (base.delete key (db w)) w))
          else (Return 1, with_db (<[key := RHash (base.delete field h)]> (db w)) w)
      end
  | Some _ => (Raise wrongtype, w)
  end.

(** [rc.rpush(key, value)]: the new length of the list. *)
Definition rpush (key value : string) : M Z := fun w =>
  let w := sent (RPUSH key value) w in
  match db w !! key with
  | None => (Return 1, with_db (<[key := RList [value]]> (db w)) w)
  | Some (RList l) =>
      (Return (Z.of_nat (length (l ++ [value]))),
       with_db (<[key := RList (l ++ [value])]> (db w)) w)
  | Some _ => (Raise wrongtype, w)
  end.

(** [rc.lrange(key, start, stop)]: the elements LTRIM would keep for the
    same bounds; nothing for an absent key. *)
Definition lrange (key : string) (start stop : Z) : M (list string) := fun w =>
  let w := sent (LRANGE key start stop) w in
  match db w !! key with
  | None => (Return [], w)
  | Some (RList l) => (Return (ltrim_list l start stop), w)
  | Some _ => (Raise wrongtype, w)
  end.

(** [rc.zadd(key, {member: score})]: the number of members that are
    new; a member already there is given the new score and the place
    that goes with it.  The store takes no score that is not a number. *)
Definition zadd (key member : string) (score : PrimFloat.float) : M Z := fun w =>
  let w := sent (ZADD key score member) w in
  if PrimFloat.is_nan score
  then (Raise (ResponseError "value is not a valid float"), w)
  else
    match db w !! key with
    | None => (Return 1, with_db (<[key := RZSet [(member, score)]]> (db w)) w)
    | Some (RZSet z) =>
        let others := List.filter (fun e => negb (String.eqb (fst e) member)) z in
        (Return (if existsb (fun e => String.eqb (fst e) member) z then 0 else 1),
         with_db (<[key := RZSet (zset_insert member score others)]> (db w)) w)
    | Some _ => (Raise wrongtype, w)
    end.

(** [rc.zremrangebyrank(key, start, stop)]: the number of members
    removed; a sorted set left without members is removed. *)
Definition zremrangebyrank (key : string) (start stop : Z) : M Z := fun w =>
  let w := sent (ZREMRANGEBYRANK key start stop) w in
  match db w !! key with
  | None => (Return 0, w)
  | Some (RZSet z) =>
      let removed := Z.of_nat (length z - length (zset_remove_ranks z start stop)) in
      match zset_remove_ranks z start stop with
      | [] => (Return removed,
               with_ttl (base.delete key (ttl w)) (with_db (base.delete key (db w)) w))
      | z' => (Return removed, with_db (<[key := RZSet z']> (db w)) w)
      end
  | Some _ => (Raise wrongtype, w)
  end.

End rc.

(** [RedisCluster(startup_nodes=..., password=..., decode_responses=True)]:
    opening the client either succeeds or raises. *)
Definition RedisCluster : M unit := fun w =>
  let w := sent CONNECT w in
  match startup_failure w with
  | Some e => (Raise e, w)
  | None => (Return tt, w)
  end.

(** ** Small pieces of Python the scripts lean on *)

(** The newline of an escape such as ["\n..."]. *)
Definition nl : string := String (ascii_of_nat 10) EmptyString.

(** [str(b)] for a [bool]. *)
Definition str_bool (b : bool) : string := if b then "True" else "False".

(** A [dict] with string keys that is iterated: insertion order is kept,
    an assignment to a present key keeps its place. *)
Fixpoint dict_set {V} (k : string) (v : V) (d : list (string * V)) : list (string * V) :=
  match d with
  | [] => [(k, v)]
  | (k', v') :: rest =>
      if String.eqb k k' then (k, v) :: rest else (k', v') :: dict_set k v rest
  end.

(** [d.get(k, dflt)] *)
Fixpoint dict_get {V} (k : string) (dflt : V) (d : list (string * V)) : V :=
  match d with
  | [] => dflt
  | (k', v') :: rest => if String.eqb k k' then v' else dict_get k dflt rest
  end.

(** [for x in xs: ...] with local variables [s] that the body updates. *)
Fixpoint for_fold {A S} (xs : list A) (s : S) (body : A -> S -> M S) : M S :=
  match xs with
  | [] => ret s
  | x :: rest => s' <- body x s ;; for_fold rest s' body
  end.

(** ** [cluster_distribution_demo.py] *)

(** The loop of [get_node_for_key] over [nodes.items()]: [Some] is the
    [return] inside the loop, [None] is the loop running to its end. *)
Fixpoint get_node_for_key_loop (nodes : list (string * node_info)) (slot : Z)
  : option (option string * option Z * Z) :=
  match nodes with
  | [] => None
  | (node_id, node_info) :: rest =>
      match ni_master node_info with
      | None =>
          match ni_slots node_info with
          | (start, stop) :: _ =>
              if (start <=? slot) && (slot <=? stop)
              then Some (ni_host node_info, ni_port node_info, slot)
              else get_node_for_key_loop rest slot
          | [] => get_node_for_key_loop rest slot
          end
      | Some _ => get_node_for_key_loop rest slot
      end
  end.

Definition get_node_for_key (key : string) : M (option string * option Z * Z) :=
  slot <- rc.cluster_keyslot key ;;
  nodes <- rc.cluster_nodes ;;
  match get_node_for_key_loop nodes slot with
  | Some found => ret found
  | None => ret (None, None, slot)
  end.

(** A node entry cut down to the first range of its slot list. *)
Definition keep_first_range (entry : string * node_info) : string * node_info :=
  let '(node_id, ni) := entry in
  (node_id, NodeInfo (ni_master ni) (take 1 (ni_slots ni)) (ni_host ni) (ni_port ni)).

(** The consistency test of [demo_distribution] (lines 201-210), for any
    [test_key]: the three slots and the value of
    [slot1 == slot2 == slot3]. *)
Definition consistency_test (test_key : string) : M (Z * Z * Z * bool) :=
  slot1 <- rc.cluster_keyslot test_key ;;
  slot2 <- rc.cluster_keyslot test_key ;;
  slot3 <- rc.cluster_keyslot test_key ;;
  print ("    Key: " ++ test_key) ;;
  print ("    Slot (call 1): " ++ Py.str_int slot1) ;;
  print ("    Slot (call 2): " ++ Py.str_int slot2) ;;
  print ("    Slot (call 3): " ++ Py.str_int slot3) ;;
  let always_same := (slot1 =? slot2) && (slot2 =? slot3) in
  print ("    ✅ Always same: " ++ str_bool always_same) ;;
  ret (slot1, slot2, slot3, always_same).

(** [n] further computations of the slot of one key. *)
Fixpoint keyslot_times (n : nat) (key : string) : M (list Z) :=
  match n with
  | O => ret []
  | S k =>
      slot <- rc.cluster_keyslot key ;;
      slots <- keyslot_times k key ;;
      ret (slot :: slots)
  end.

(** ** Keys that carry a hash tag ([verify_hash_tags.py],
    [category_products_demo.py]) *)

(** [f"{{category:{category}}}"] *)
Definition category_key (category : string) : string :=
  "{category:" ++ category ++ "}".

(** [f"{{category:{category}}}:products"] *)
Definition products_key (category : string) : string :=
  "{category:" ++ category ++ "}:products".

(** [f"{{category:{category_name}}}:product:{product['id']}"] *)
Definition product_key (category product_id : string) : string :=
  "{category:" ++ category ++ "}:product:" ++ product_id.

(** The body of the category loop of [verify_hash_tags.main] up to the
    same-slot check (lines 55-82); the value is [same_slot]. *)
Definition verify_category (category : string) : M bool :=
  print (nl ++ "📁 Category: " ++ category) ;;
  print (Py.repeat_str "-" 80) ;;
  let category_key := category_key category in
  let products_key := products_key category in
  category_slot <- rc.cluster_keyslot category_key ;;
  products_slot <- rc.cluster_keyslot products_key ;;
  let '(category_master, category_ip) := get_master_for_slot category_slot in
  let '(products_master, products_ip) := get_master_for_slot products_slot in
  print ("  Category key: " ++ category_key) ;;
  print ("    Slot: " ++ Py.str_int category_slot) ;;
  print ("    Master: " ++ category_master) ;;
  print ("    IP: " ++ category_ip) ;;
  print (nl ++ "  Products list: " ++ products_key) ;;
  print ("    Slot: " ++ Py.str_int products_slot) ;;
  print ("    Master: " ++ products_master) ;;
  print ("    IP: " ++ products_ip) ;;
  let same_slot := category_slot =? products_slot in
  print (nl ++ "  ✅ Same slot: " ++ str_bool same_slot) ;;
  ret same_slot.

(** The slot check of the verification loop of
    [category_products_demo.main] (lines 133-152) for one category and
    the identifiers of its products; the value is [all_same]. *)
Definition verify_all_same (category_name : string) (product_ids : list string) : M bool :=
  let category_key := category_key category_name in
  let products_key := products_key category_name in
  category_slot <- rc.cluster_keyslot category_key ;;
  products_slot <- rc.cluster_keyslot products_key ;;
  let product_keys := map (product_key category_name) product_ids in
  all_slots <- for_fold product_keys [category_slot; products_slot]
                 (fun pk all_slots =>
                    slot <- rc.cluster_keyslot pk ;; ret (all_slots ++ [slot])%list) ;;
  let all_same := (size (list_to_set all_slots : gset Z) =? 1)%nat in
  ret all_same.

(** ** [clear_redis.py] *)

(** [clear_all_keys], whole. *)
Definition clear_all_keys : M unit :=
  print (Py.repeat_str "=" 60) ;;
  print "🗑️  Clearing All Keys from Redis Cluster" ;;
  print (Py.repeat_str "=" 60) ;;
  print (nl ++ "📡 Connecting to Redis Cluster...") ;;
  connected <- try_except
                 (RedisCluster ;; print "✅ Connected successfully!" ;; ret true)
                 (fun e => print ("❌ Connection failed: " ++ exn_str e) ;; ret false) ;;
  if negb connected then ret tt
  else
    print (nl ++ "📊 Counting keys before deletion...") ;;
    keys <- rc.scan_iter_all ;;
    counted <- for_fold keys (0, [])
                 (fun key '(total_keys, keys_by_node) =>
                    slot <- rc.cluster_keyslot key ;;
                    let node :=
                      if slot <=? 5460 then "Master 1"
                      else if slot <=? 10922 then "Master 2"
                      else "Master 3" in
                    ret (total_keys + 1,
                         dict_set node (dict_get node 0 keys_by_node + 1) keys_by_node)) ;;
    let '(total_keys, keys_by_node) := counted in
    print ("  Total keys found: " ++ Py.str_int total_keys) ;;
    for_each keys_by_node
      (fun '(node, count) =>
         print ("    " ++ node ++ ": " ++ Py.str_int count ++ " keys")) ;;
    if total_keys =? 0 then
      print (nl ++ "✅ No keys to delete. Cluster is already empty!") ;;
      rc.close
    else
      print (nl ++ "🗑️  Deleting " ++ Py.str_int total_keys ++ " keys...") ;;
      keys <- rc.scan_iter_all ;;
      deleted_count <- for_fold keys 0
                         (fun key deleted_count =>
                            try_except
                              (rc.delete key ;;
                               let deleted_count := deleted_count + 1 in
                               (if deleted_count mod 100 =? 0
                                then print ("  Deleted " ++ Py.str_int deleted_count
                                            ++ " keys...")
                                else ret tt) ;;
                               ret deleted_count)
                              (fun e =>
                                 print ("  ⚠️  Error deleting " ++ key ++ ": "
                                        ++ exn_str e) ;;
                                 ret deleted_count)) ;;
      print (nl ++ "✅ Deleted " ++ Py.str_int deleted_count ++ " keys") ;;
      print (nl ++ "🔍 Verifying deletion...") ;;
      remaining_keys <- rc.scan_iter_all ;;
      (if (length remaining_keys =? 0)%nat
       then print "  ✅ All keys successfully deleted!"
       else
         print ("  ⚠️  Warning: " ++ Py.str_int (Z.of_nat (length remaining_keys))
                ++ " keys still remain") ;;
         print "  Remaining keys:" ;;
         for_each (take 10 remaining_keys) (fun key => print ("    • " ++ key)) ;;
         if (10 <? length remaining_keys)%nat
         then print ("    ... and "
                     ++ Py.str_int (Z.of_nat (length remaining_keys) - 10) ++ " more")
         else ret tt) ;;
      print (nl ++ "📊 Cluster Info:") ;;
      print (Py.repeat_str "-" 40) ;;
      info <- rc.cluster_info ;;
      print ("  State: " ++ default "unknown" (info !! "cluster_state")) ;;
      print ("  Slots assigned: " ++ default "0" (info !! "cluster_slots_assigned")) ;;
      print ("  Known nodes: " ++ default "0" (info !! "cluster_known_nodes")) ;;
      print (nl ++ Py.repeat_str "=" 60) ;;
      print "✅ Cluster cleared! Ready for fresh demo run." ;;
      print (Py.repeat_str "=" 60) ;;
      rc.close.

(** The world after a script whose only command was the attempt to open
    the client and which printed [lines]. *)
Definition after_failed_start (w : cluster) (lines : list string) : cluster :=
  Cluster (db w) (ttl w) (topology w) (info w) (wire w ++ [CONNECT])
    (console w ++ lines) (startup_failure w).

(** ** Scripts whose entry function opens the client the same way

    Each [main] below is the text of the script up to the end of its
    connection block; the statements that follow the block run only
    when the client is open and are the argument [rest]. *)

(** [verify_hash_tags.main], lines 27-43. *)
Definition verify_hash_tags_main (rest : M unit) : M unit :=
  print (Py.repeat_str "=" 80) ;;
  print "🔍 VERIFYING HASH TAGS - Where Each Category is Stored" ;;
  print (Py.repeat_str "=" 80) ;;
  print (nl ++ "📡 Connecting to Redis Cluster...") ;;
  connected <- try_except
                 (RedisCluster ;; print "✅ Connected successfully!" ;; ret true)
                 (fun e => print ("❌ Connection failed: " ++ exn_str e) ;; ret false) ;;
  if negb connected then ret tt else rest.

(** [category_products_demo.main], lines 19-35. *)
Definition category_products_demo_main (rest : M unit) : M unit :=
  print (Py.repeat_str "=" 70) ;;
  print "🛍️  CATEGORY & PRODUCTS DEMO - Using Hash Tags {{}}" ;;
  print (Py.repeat_str "=" 70) ;;
  print (nl ++ "📡 Connecting to Redis Cluster...") ;;
  connected <- try_except
                 (RedisCluster ;; print "✅ Connected successfully!" ;; ret true)
                 (fun e => print ("❌ Connection failed: " ++ exn_str e) ;; ret false) ;;
  if negb connected then ret tt else rest.

(** [demo.main], lines 25-41. *)
Definition demo_main (rest : M unit) : M unit :=
  print (Py.repeat_str "=" 60) ;;
  print "🚀 Redis Cluster Demo" ;;
  print (Py.repeat_str "=" 60) ;;
  print (nl ++ "📡 Connecting to Redis Cluster...") ;;
  connected <- try_except
                 (RedisCluster ;; print "✅ Connected successfully!" ;; ret true)
                 (fun e => print ("❌ Connection failed: " ++ exn_str e) ;; ret false) ;;
  if negb connected then ret tt else rest.

(** ** [demo.py] and [real_world_example.py] *)

Section Store.

(** What the scripts take from the interpreter and its clock and only
    pass on: floating-point numbers, their [str], the readings of the
    clock during the call, [json.dumps] and the [str] of a [dict]. *)
Variable float : Type.
Variable str_float : float -> string.
Variable time_time : float.
Variable datetime_now_isoformat : string.

(** The values the scripts put in the dictionaries they serialise. *)
Inductive pyval : Type :=
| PStr (s : string)
| PBool (b : bool)
| PNone
| PFloat (x : float).

(** [json.dumps] of a dictionary, given as its items in order. *)
Variable json_dumps : list (string * pyval) -> string.
Variable str_dict : gmap string string -> string.

(** [x] or [None] for an optional string argument. *)
Definition pyval_of_option (o : option string) : pyval :=
  match o with
  | Some s => PStr s
  | None => PNone
  end.

(** Demo 3 of [demo.main] (lines 71-81); the value is [product]. *)
Definition demo_hash_operations : M (gmap string string) :=
  print (nl ++ "🔹 Demo 3: Hash Operations") ;;
  print (Py.repeat_str "-" 40) ;;
  rc.hset "product:1001"
    (list_to_map [("name", "Redis Cluster Guide"); ("price", "29.99");
                  ("category", "Books"); ("stock", "150")]) ;;
  print "  HSET product:1001 with 4 fields" ;;
  product <- rc.hgetall "product:1001" ;;
  print ("  HGETALL product:1001 = " ++ str_dict product) ;;
  ret product.

(** *** class [EcommerceRedis] *)

(** The [mapping] of [add_product]. *)
Definition product_mapping (name : string) (price : float) (stock : Z)
    (category : string) : gmap string string :=
  list_to_map [("name", name); ("price", str_float price);
               ("stock", Py.str_int stock); ("category", category);
               ("views", "0"); ("created_at", datetime_now_isoformat)].

Definition add_product (product_id name : string) (price : float) (stock : Z)
    (category : string) : M unit :=
  rc.hset ("product:" ++ product_id) (product_mapping name price stock category) ;;
  print ("✅ Added product " ++ product_id ++ ": " ++ name).

Definition get_product (product_id : string) : M (gmap string string) :=
  rc.hgetall ("product:" ++ product_id).

(** [rc.hset(cart_key, product_id, str(quantity))] is [rc.hset] with the
    mapping of that one field. *)
Definition add_to_cart (user_id product_id : string) (quantity : Z) : M unit :=
  let cart_key := "cart:" ++ user_id in
  rc.hset cart_key {[product_id := Py.str_int quantity]} ;;
  rc.expire cart_key (7 * 24 * 3600) ;;
  print ("✅ Added " ++ Py.str_int quantity ++ "x product " ++ product_id
         ++ " to cart for user " ++ user_id).

Definition get_cart (user_id : string) : M (gmap string string) :=
  rc.hgetall ("cart:" ++ user_id).

Definition check_rate_limit (ip_address : string) (max_requests window : Z)
  : M (bool * string) :=
  let key := "rate_limit:" ++ ip_address in
  current <- rc.incr key ;;
  (if current =? 1 then rc.expire key window ;; ret tt else ret tt) ;;
  if max_requests <? current
  then ret (false, "Rate limit exceeded: " ++ Py.str_int current ++ "/"
                   ++ Py.str_int max_requests)
  else ret (true, "OK: " ++ Py.str_int current ++ "/" ++ Py.str_int max_requests).

Definition track_product_view (user_id product_id : string) : M unit :=
  rc.lpush ("views:" ++ user_id) product_id ;;
  rc.ltrim ("views:" ++ user_id) 0 49 ;;
  ret tt.

Definition check_stock (product_id : string) : M Z :=
  stock <- rc.hget ("product:" ++ product_id) "stock" ;;
  match stock with
  | Some s =>
      if Py.truthy s
      then match Py.int s with
           | Some n => ret n
           | None => raise (ValueError ("invalid literal for int() with base 10: " ++ s))
           end
      else ret 0
  | None => ret 0
  end.

Definition reserve_stock (product_id : string) (quantity : Z) : M bool :=
  let lock_key := "lock:stock:" ++ product_id in
  acquired <- rc.set_nx_ex lock_key "locked" 5 ;;
  if acquired then
    try_finally
      (current_stock <- check_stock product_id ;;
       if quantity <=? current_stock then
         rc.hincrby ("product:" ++ product_id) "stock" (- quantity) ;;
         ret true
       else ret false)
      (rc.delete lock_key ;; ret tt)
  else ret false.

Definition add_notification (user_id notification_type message : string) : M unit :=
  let notification :=
    json_dumps [("type", PStr notification_type); ("message", PStr message);
                ("timestamp", PStr datetime_now_isoformat);
                ("read", PBool false)] in
  rc.lpush ("notifications:" ++ user_id) notification ;;
  rc.ltrim ("notifications:" ++ user_id) 0 99 ;;
  ret tt.

Definition track_event (event_type : string) (user_id product_id : option string)
  : M unit :=
  let event :=
    [("type", PStr event_type); ("user_id", pyval_of_option user_id);
     ("product_id", pyval_of_option product_id);
     ("timestamp", PFloat time_time)] in
  rc.lpush "analytics:events" (json_dumps event) ;;
  rc.ltrim "analytics:events" 0 9999 ;;
  ret tt.

(** The length of the list at [key]; 0 when the key is absent or holds
    something else. *)
Definition list_length (w : cluster) (key : string) : nat :=
  match db w !! key with
  | Some (RList l) => length l
  | _ => O
  end.

(** The ["stock"] field of a product as text, when there is one. *)
Definition stock_field (w : cluster) (product_id : string) : option string :=
  match db w !! ("product:" ++ product_id) with
  | Some (RHash h) => h !! "stock"
  | _ => None
  end.

(** The counter of an address as the store reads it: 0 for an absent
    key, [None] when the key holds no integer. *)
Definition counter_value (w : cluster) (ip_address : string) : option Z :=
  match db w !! ("rate_limit:" ++ ip_address) with
  | None => Some 0
  | Some (RString s) => string2ll s
  | Some _ => None
  end.

(** The hash a key stands for when a hash command reads it: the empty
    hash for an absent key, nothing for a key of another type. *)
Definition hash_at (w : cluster) (key : string) : option (gmap string string) :=
  match db w !! key with
  | None => Some ∅
  | Some (RHash h) => Some h
  | Some _ => None
  end.

(** The list a key stands for when a list command reads it: the empty
    list for an absent key, nothing for a key of another type. *)
Definition list_at (w : cluster) (key : string) : option (list string) :=
  match db w !! key with
  | None => Some []
  | Some (RList l) => Some l
  | Some _ => None
  end.

End Store.

Arguments PStr {float} s.
Arguments PBool {float} b.
Arguments PNone {float}.
Arguments PFloat {float} x.

(** ** More of [real_world_example.py] and [demo.py] *)

(** [n] calls of one statement in a row, as [for _ in range(n)] makes
    them; the value is the list of what the calls returned. *)
Fixpoint call_times {A} (n : nat) (call : M A) : M (list A) :=
  match n with
  | O => ret []
  | S k =>
      first <- call ;;
      others <- call_times k call ;;
      ret (first :: others)
  end.

Definition increment_product_views (product_id : string) : M unit :=
  rc.hincrby ("product:" ++ product_id) "views" 1 ;;
  ret tt.

Definition remove_from_cart (user_id product_id : string) : M unit :=
  rc.hdel ("cart:" ++ user_id) product_id ;;
  ret tt.

Definition extend_session (session_id : string) (seconds : Z) : M unit :=
  rc.expire ("session:" ++ session_id) seconds ;;
  ret tt.

Definition get_recently_viewed (user_id : string) (count : Z) : M (list string) :=
  rc.lrange ("views:" ++ user_id) 0 (count - 1).

Definition increment_stat (date stat_name : string) (value : Z) : M unit :=
  rc.incrby ("stats:" ++ date ++ ":" ++ stat_name) value ;;
  ret tt.

(** The value of [get_daily_stats]: its three entries. *)
Record daily_stats (float : Type) : Type := DailyStats {
  page_views : Z;
  orders : Z;
  revenue : float
}.
Arguments DailyStats {float} page_views orders revenue.
Arguments page_views {float} d.
Arguments orders {float} d.
Arguments revenue {float} d.

Section Sessions.

(** As before, what only passes through: floating-point numbers and the
    clock, [int(x)] and [float(s)] for them, [json.dumps] and
    [json.loads] with the values the latter builds, [str] of a list. *)
Variable float : Type.
Variable time_time : float.
Variable int_of_float : float -> Z.
Variable float_of_int : Z -> float.
Variable float_of_str : string -> option float.
Variable datetime_now_isoformat : string.
Variable json : Type.
Variable json_dumps : list (string * pyval float) -> string.
Variable json_loads : string -> option json.
Variable str_list : list string -> string.

Definition create_session (user_id email role : string) : M string :=
  let session_id := "sess_" ++ user_id ++ "_" ++ Py.str_int (int_of_float time_time) in
  let session_data :=
    json_dumps [("user_id", PStr user_id); ("email", PStr email);
                ("role", PStr role); ("login_time", PStr datetime_now_isoformat)] in
  rc.setex ("session:" ++ session_id) 3600 session_data ;;
  print ("✅ Created session " ++ session_id ++ " for user " ++ user_id) ;;
  ret session_id.

(** [json.loads(s)]; a text that is not JSON raises (a [ValueError]). *)
Definition loads (s : string) : M json :=
  match json_loads s with
  | Some value => ret value
  | None => raise (ValueError "Expecting value")
  end.

Definition get_session (session_id : string) : M (option json) :=
  session <- rc.get ("session:" ++ session_id) ;;
  match session with
  | Some s => if Py.truthy s then value <- loads s ;; ret (Some value) else ret None
  | None => ret None
  end.

Definition get_notifications (user_id : string) (count : Z) : M (list json) :=
  notifications <- rc.lrange ("notifications:" ++ user_id) 0 (count - 1) ;;
  for_fold notifications []
    (fun n parsed => value <- loads n ;; ret (parsed ++ [value])%list).

(** [int(x or 0)] for the reply [x] of [rc.get]. *)
Definition int_or_0 (x : option string) : M Z :=
  match x with
  | Some s =>
      if Py.truthy s
      then match Py.int s with
           | Some n => ret n
           | None => raise (ValueError ("invalid literal for int() with base 10: " ++ s))
           end
      else ret 0
  | None => ret 0
  end.

(** [float(x or 0)] for the reply [x] of [rc.get]. *)
Definition float_or_0 (x : option string) : M float :=
  match x with
  | Some s =>
      if Py.truthy s
      then match float_of_str s with
           | Some f => ret f
           | None => raise (ValueError ("could not convert string to float: " ++ s))
           end
      else ret (float_of_int 0)
  | None => ret (float_of_int 0)
  end.

Definition get_daily_stats (date : string) : M (daily_stats float) :=
  let key := "stats:" ++ date in
  page_views <- (x <- rc.get (key ++ ":page_views") ;; int_or_0 x) ;;
  orders <- (x <- rc.get (key ++ ":orders") ;; int_or_0 x) ;;
  revenue <- (x <- rc.get (key ++ ":revenue") ;; float_or_0 x) ;;
  ret (DailyStats page_views orders revenue).

(** Demo 4 of [demo.main] (lines 83-92); the value is [all_tasks]. *)
Definition demo_list_operations : M (list string) :=
  print (nl ++ "🔹 Demo 4: List Operations") ;;
  print (Py.repeat_str "-" 40) ;;
  rc.delete "tasks:queue" ;;
  let tasks := ["send_email"; "process_payment"; "update_inventory"; "notify_user"] in
  for_each tasks (fun task => rc.rpush "tasks:queue" task ;; ret tt) ;;
  print ("  RPUSH tasks:queue with " ++ Py.str_int (Z.of_nat (length tasks)) ++ " items") ;;
  all_tasks <- rc.lrange "tasks:queue" 0 (-1) ;;
  print ("  LRANGE tasks:queue = " ++ str_list all_tasks) ;;
  ret all_tasks.

(** Demo 8 of [demo.main] (lines 131-138); the value is [views]. *)
Definition demo_counter : M (option string) :=
  print (nl ++ "🔹 Demo 8: Atomic Counter") ;;
  print (Py.repeat_str "-" 40) ;;
  rc.set "page:views:home" (Py.str_int 0) ;;
  call_times 5 (rc.incr "page:views:home") ;;
  views <- rc.get "page:views:home" ;;
  print ("  INCR page:views:home x5 = " ++ default "None" views) ;;
  ret views.

End Sessions.

Section Trending.

(** The clock again, and the double the store reads from the score the
    client sends for a [float]. *)
Variable float : Type.
Variable time_time : float.
Variable double : float -> PrimFloat.float.

Definition add_to_trending (product_id : string) : M unit :=
  rc.zadd "trending:products" product_id (double time_time) ;;
  rc.zremrangebyrank "trending:products" 0 (-101) ;;
  ret tt.

End Trending.

(** The number of members of the sorted set at [key]; 0 when the key is
    absent or holds something else. *)
Definition zset_length (w : cluster) (key : string) : nat :=
  match db w !! key with
  | Some (RZSet z) => length z
  | _ => O
  end.

(** The sorted set a key stands for when a sorted-set command reads it:
    the empty one for an absent key, nothing for a key of another type. *)
Definition zset_at (w : cluster) (key : string)
  : option (list (string * PrimFloat.float)) :=
  match db w !! key with
  | None => Some []
  | Some (RZSet z) => Some z
  | Some _ => None
  end.

(** The integer a string key stands for when INCR or INCRBY reads it: 0
    for an absent key, nothing for a key that holds no integer. *)
Definition integer_at (w : cluster) (key : string) : option Z :=
  match db w !! key with
  | None => Some 0
  | Some (RString s) => string2ll s
  | Some _ => None
  end.

(** [[call(x) for x in xs]]: the calls are made in order and their
    values collected. *)
Fixpoint call_each {A B} (xs : list A) (call : A -> M B) : M (list B) :=
  match xs with
  | [] => ret []
  | x :: rest =>
      first <- call x ;;
      others <- call_each rest call ;;
      ret (first :: others)
  end.

(** The units handed out by a run of reservations: the quantities of
    the calls that answered [True], added up. *)
Fixpoint granted (quantities : list Z) (answers : list bool) : Z :=
  match quantities, answers with
  | q :: qs, a :: ans => (if a then q else 0) + granted qs ans
  | _, _ => 0
  end.

(** ** The grouping of [cluster_distribution_demo.py] *)







(** * Properties *)

(** ** Decimal text *)

Module PyFacts.

Lemma digit_plain a : Py.is_digit a = true -> Py.plain a = true.
Proof.
  destruct a as [[] [] [] [] [] [] [] []]; vm_compute; congruence.
Qed.

Lemma uint_text_digits d :
  Py.string_forallb Py.is_digit (NilEmpty.string_of_uint d) = true.
Proof. induction d; simpl; auto. Qed.

Lemma forallb_weaken (p q : ascii -> bool) s :
  (forall a, p a = true -> q a = true) ->
  Py.string_forallb p s = true -> Py.string_forallb q s = true.
Proof.
  intros Hpq. induction s as [|a r IH]; simpl; [done|].
  rewrite !andb_true_iff. intros [Ha Hr]. split; auto.
Qed.

Lemma lstrip_plain s : Py.string_forallb Py.plain s = true -> Py.lstrip s = s.
Proof.
  destruct s as [|a r]; simpl; [done|].
  unfold Py.plain. rewrite !andb_true_iff, !negb_true_iff.
  intros [[-> _] _]. reflexivity.
Qed.

Lemma rstrip_plain s : Py.string_forallb Py.plain s = true -> Py.rstrip s = s.
Proof.
  induction s as [|a r IH]; simpl; [done|].
  unfold Py.plain at 1. rewrite !andb_true_iff, !negb_true_iff.
  intros [[Ha _] Hr]. rewrite (IH Hr).
  destruct r; [by rewrite Ha | done].
Qed.

Lemma strip_plain s : Py.string_forallb Py.plain s = true -> Py.strip s = s.
Proof.
  intros H. unfold Py.strip. rewrite (lstrip_plain _ H). by apply rstrip_plain.
Qed.

Lemma underscores_ok_plain s :
  Py.string_forallb Py.plain s = true -> Py.underscores_ok true s = true.
Proof.
  induction s as [|a r IH]; simpl; [done|].
  unfold Py.plain at 1. rewrite !andb_true_iff, !negb_true_iff.
  intros [[_ ->] Hr]. auto.
Qed.

Lemma remove_underscores_plain s :
  Py.string_forallb Py.plain s = true -> Py.remove_underscores s = s.
Proof.
  induction s as [|a r IH]; simpl; [done|].
  unfold Py.plain at 1. rewrite !andb_true_iff, !negb_true_iff.
  intros [[_ ->] Hr]. by rewrite IH.
Qed.

Lemma uint_text_plain d :
  Py.string_forallb Py.plain (NilEmpty.string_of_uint d) = true.
Proof. eapply forallb_weaken; [apply digit_plain | apply uint_text_digits]. Qed.

Lemma uint_text_nonnil d : d <> Decimal.Nil ->
  exists a r, NilEmpty.string_of_uint d = String a r /\ Py.is_digit a = true.
Proof. destruct d; [done|..]; intros _; simpl; eauto. Qed.

Lemma digit_not_sign a :
  Py.is_digit a = true -> Ascii.eqb a "+" = false /\ Ascii.eqb a "-" = false.
Proof.
  destruct a as [[] [] [] [] [] [] [] []]; vm_compute; auto; congruence.
Qed.

Lemma nilzero_text d : d <> Decimal.Nil ->
  NilZero.string_of_uint d = NilEmpty.string_of_uint d.
Proof. by destruct d. Qed.

Lemma int_digits_uint d : d <> Decimal.Nil ->
  Py.int_digits (NilEmpty.string_of_uint d) = Some (Z.of_uint d).
Proof.
  intros Hd. unfold Py.int_digits.
  pose proof (uint_text_plain d) as Hp.
  rewrite (remove_underscores_plain _ Hp).
  destruct (uint_text_nonnil d Hd) as (a & r & Heq & Ha).
  assert (Py.underscores_ok false (NilEmpty.string_of_uint d) = true) as ->.
  { rewrite Heq in Hp |- *. simpl in Hp |- *.
    apply andb_true_iff in Hp as [Hpa Hr].
    unfold Py.plain in Hpa. apply andb_true_iff in Hpa as [_ Hu].
    apply negb_true_iff in Hu. rewrite Hu. by apply underscores_ok_plain. }
  rewrite <- (nilzero_text d Hd), (NilZero.usu d Hd). reflexivity.
Qed.

(** [int(str(n)) == n] *)
Lemma int_str_int z : Py.int (Py.str_int z) = Some z.
Proof.
  unfold Py.str_int. destruct z as [|p|p]; [reflexivity|..]; simpl Z.to_int.
  - pose proof (Unsigned.to_uint_nonnil p) as Hd.
    simpl NilZero.string_of_int. rewrite (nilzero_text _ Hd).
    unfold Py.int. rewrite (strip_plain _ (uint_text_plain _)).
    destruct (uint_text_nonnil _ Hd) as (a & r & Heq & Ha).
    destruct (digit_not_sign a Ha) as [Hplus Hminus].
    rewrite Heq, Hplus, Hminus, <- Heq, (int_digits_uint _ Hd).
    unfold Z.of_uint. by rewrite Unsigned.of_to.
  - pose proof (Unsigned.to_uint_nonnil p) as Hd.
    simpl NilZero.string_of_int. rewrite (nilzero_text _ Hd).
    unfold Py.int. rewrite strip_plain.
    + change (Ascii.eqb "-" "+") with false. change (Ascii.eqb "-" "-") with true.
      cbv iota. rewrite (int_digits_uint _ Hd).
      unfold Z.of_uint. by rewrite Unsigned.of_to.
    + simpl. apply uint_text_plain.
Qed.

Lemma to_int_proper z : Z.to_int z <> Decimal.Pos Decimal.Nil /\ Z.to_int z <> Decimal.Neg Decimal.Nil.
Proof.
  destruct z as [|p|p]; simpl; split; try discriminate;
    intros [= H]; by apply (Unsigned.to_uint_nonnil p).
Qed.

(** The store reads back what [str(n)] writes, for [n] of 64 bits. *)
Lemma string2ll_str_int z : in_int64 z = true -> string2ll (Py.str_int z) = Some z.
Proof.
  intros Hz. unfold string2ll, Py.str_int.
  destruct (to_int_proper z) as [H1 H2].
  rewrite (NilZero.isi _ H1 H2), DecimalZ.of_to, String.eqb_refl, Hz. reflexivity.
Qed.

(** The store reads nothing but canonical text. *)
Lemma string2ll_canonical s z :
  string2ll s = Some z -> s = Py.str_int z /\ in_int64 z = true.
Proof.
  unfold string2ll. destruct (NilZero.int_of_string s) as [d|]; [|done].
  destruct (String.eqb_spec (Py.str_int (Z.of_int d)) s) as [He|]; [|done].
  destruct (in_int64 (Z.of_int d)) eqn:Hr; [|done].
  simpl. intros [= <-]. auto.
Qed.

(** Whatever the store reads as an integer, [int] reads as the same. *)
Lemma string2ll_int s z : string2ll s = Some z -> Py.int s = Some z.
Proof. intros [-> _]%string2ll_canonical. apply int_str_int. Qed.

Lemma str_int_truthy z : Py.truthy (Py.str_int z) = true.
Proof.
  unfold Py.str_int. destruct z as [|p|p]; [done| |done].
  simpl. pose proof (Unsigned.to_uint_nonnil p) as Hd.
  rewrite (nilzero_text _ Hd).
  by destruct (uint_text_nonnil _ Hd) as (a & r & -> & _).
Qed.

End PyFacts.

(** ** The static table *)

(** C1.  For every slot [s] of [0..16383], [get_master_for_slot s] is
    defined (the function is total: it has a value and raises nothing)
    and is the Master 1 / redis-node-1 label for [s] in [0..5460], the
    Master 2 / redis-node-2 label for [s] in [5461..10922] and the
    Master 3 / redis-node-3 label for [s] in [10923..16383]; the table
    written in line in [demo_distribution] gives the same labels. *)
Theorem get_master_for_slot_ranges (s : Z) :
  0 <= s <= 16383 ->
  (exists label ip, get_master_for_slot s = (label, ip)
                    /\ master_for_slot_inline s = label)
  /\ (s <= 5460 ->
      get_master_for_slot s = ("Master 1 (redis-node-1)", "172.28.0.2"))
  /\ (5461 <= s <= 10922 ->
      get_master_for_slot s = ("Master 2 (redis-node-2)", "172.28.0.3"))
  /\ (10923 <= s ->
      get_master_for_slot s = ("Master 3 (redis-node-3)", "172.28.0.4")).
Proof.
  intros Hs. unfold get_master_for_slot, master_for_slot_inline.
  repeat split.
  - destruct (Z.leb_spec s 5460); [eauto|].
    destruct (Z.leb_spec s 10922); eauto.
  - intros H. destruct (Z.leb_spec s 5460); [done | lia].
  - intros H. destruct (Z.leb_spec s 5460); [lia|].
    destruct (Z.leb_spec s 10922); [done | lia].
  - intros H. destruct (Z.leb_spec s 5460); [lia|].
    destruct (Z.leb_spec s 10922); [lia | done].
Qed.

Lemma get_master_for_slot_ranges_witness :
  0 <= 5461 <= 16383
  /\ get_master_for_slot 5461 = ("Master 2 (redis-node-2)", "172.28.0.3").
Proof.
  split; [lia|].
  apply (get_master_for_slot_ranges 5461); lia.
Defined.

(** *** Counting the slots of each master *)

Lemma slot_range_length lo hi : length (slot_range lo hi) = Z.to_nat (hi - lo + 1).
Proof. unfold slot_range. by rewrite length_map, length_seq. Qed.

Lemma slot_range_In lo hi s : 0 <= lo -> In s (slot_range lo hi) <-> lo <= s <= hi.
Proof.
  intros Hlo. unfold slot_range. rewrite in_map_iff. split.
  - intros (n & <- & Hn%in_seq). lia.
  - intros Hs. exists (Z.to_nat s). split; [lia|]. apply in_seq. lia.
Qed.

Lemma slot_range_split a b c :
  0 <= a -> a <= b + 1 -> b <= c ->
  slot_range a c = (slot_range a b ++ slot_range (b + 1) c)%list.
Proof.
  intros Ha Hab Hbc. unfold slot_range. rewrite <- map_app. f_equal.
  replace (Z.to_nat (c - a + 1))
    with (Z.to_nat (b - a + 1) + Z.to_nat (c - (b + 1) + 1))%nat by lia.
  rewrite seq_app. do 2 f_equal. lia.
Qed.

Lemma filter_all {A} (p : A -> bool) l :
  (forall x, In x l -> p x = true) -> List.filter p l = l.
Proof.
  induction l as [|x l IH]; simpl; [done|]. intros H.
  rewrite (H x) by auto. f_equal. apply IH. auto.
Qed.

Lemma filter_none {A} (p : A -> bool) l :
  (forall x, In x l -> p x = false) -> List.filter p l = [].
Proof.
  induction l as [|x l IH]; simpl; [done|]. intros H.
  rewrite (H x) by auto. apply IH. auto.
Qed.

Lemma all_slots_split :
  all_slots
  = (slot_range 0 5460 ++ slot_range 5461 10922 ++ slot_range 10923 16383)%list.
Proof.
  unfold all_slots.
  rewrite (slot_range_split 0 5460 16383) by lia.
  change (5460 + 1) with 5461.
  rewrite (slot_range_split 5461 10922 16383) by lia.
  change (10922 + 1) with 10923. reflexivity.
Qed.

Lemma master_1_slots s : s <= 5460 ->
  get_master_for_slot s = ("Master 1 (redis-node-1)", "172.28.0.2").
Proof. intros H. unfold get_master_for_slot. by destruct (Z.leb_spec s 5460); [|lia]. Qed.

Lemma master_2_slots s : 5461 <= s <= 10922 ->
  get_master_for_slot s = ("Master 2 (redis-node-2)", "172.28.0.3").
Proof.
  intros H. unfold get_master_for_slot.
  destruct (Z.leb_spec s 5460); [lia|]. by destruct (Z.leb_spec s 10922); [|lia].
Qed.

Lemma master_3_slots s : 10923 <= s ->
  get_master_for_slot s = ("Master 3 (redis-node-3)", "172.28.0.4").
Proof.
  intros H. unfold get_master_for_slot.
  destruct (Z.leb_spec s 5460); [lia|]. by destruct (Z.leb_spec s 10922); [lia|].
Qed.

Ltac slots_of_master_tac :=
  unfold slots_of_master; rewrite all_slots_split, !List.filter_app;
  repeat match goal with
  | |- context [List.filter ?p (slot_range ?lo ?hi)] =>
      first
        [ rewrite (filter_all p (slot_range lo hi))
            by (intros x Hx%slot_range_In; [|lia];
                first [ rewrite master_1_slots by lia
                      | rewrite master_2_slots by lia
                      | rewrite master_3_slots by lia ]; reflexivity)
        | rewrite (filter_none p (slot_range lo hi))
            by (intros x Hx%slot_range_In; [|lia];
                first [ rewrite master_1_slots by lia
                      | rewrite master_2_slots by lia
                      | rewrite master_3_slots by lia ]; reflexivity) ]
  end;
  rewrite ?app_nil_r; reflexivity.

Lemma slots_of_master_1 :
  slots_of_master "Master 1 (redis-node-1)" = slot_range 0 5460.
Proof. slots_of_master_tac. Qed.

Lemma slots_of_master_2 :
  slots_of_master "Master 2 (redis-node-2)" = slot_range 5461 10922.
Proof. slots_of_master_tac. Qed.

Lemma slots_of_master_3 :
  slots_of_master "Master 3 (redis-node-3)" = slot_range 10923 16383.
Proof. slots_of_master_tac. Qed.

(** C3, as stated: the three ranges of the table hold the same number of
    slots.  They do not: the middle one has one slot more. *)
Lemma partitions_not_equal :
  ~ (length (slots_of_master "Master 1 (redis-node-1)")
       = length (slots_of_master "Master 2 (redis-node-2)")
     /\ length (slots_of_master "Master 2 (redis-node-2)")
       = length (slots_of_master "Master 3 (redis-node-3)")).
Proof.
  rewrite slots_of_master_1, slots_of_master_2, slots_of_master_3.
  rewrite !slot_range_length. lia.
Qed.

(** C3, amended.  The table splits the 16384 slots into three contiguous
    ranges, [0..5460], [5461..10922] and [10923..16383], of 5461, 5462
    and 5461 slots: every slot has one owner, and the sizes differ by at
    most one. *)
Theorem partitions_sizes :
  slots_of_master "Master 1 (redis-node-1)" = slot_range 0 5460
  /\ slots_of_master "Master 2 (redis-node-2)" = slot_range 5461 10922
  /\ slots_of_master "Master 3 (redis-node-3)" = slot_range 10923 16383
  /\ Z.of_nat (length (slots_of_master "Master 1 (redis-node-1)")) = 5461
  /\ Z.of_nat (length (slots_of_master "Master 2 (redis-node-2)")) = 5462
  /\ Z.of_nat (length (slots_of_master "Master 3 (redis-node-3)")) = 5461
  /\ Z.of_nat (length all_slots) = 5461 + 5462 + 5461
  /\ all_slots
     = (slots_of_master "Master 1 (redis-node-1)"
        ++ slots_of_master "Master 2 (redis-node-2)"
        ++ slots_of_master "Master 3 (redis-node-3)")%list.
Proof.
  rewrite slots_of_master_1, slots_of_master_2, slots_of_master_3.
  split; [done|]. split; [done|]. split; [done|].
  rewrite <- all_slots_split. unfold all_slots.
  rewrite !slot_range_length, !Z2Nat.id by done.
  repeat split; reflexivity.
Qed.

(** ** Running statements *)

Lemma bind_Return {A B} (m : M A) (k : A -> M B) w a w' :
  m w = (Return a, w') -> bind m k w = k a w'.
Proof. unfold bind. by intros ->. Qed.

Lemma bind_Raise {A B} (m : M A) (k : A -> M B) w e w' :
  m w = (Raise e, w') -> bind m k w = (Raise e, w').
Proof. unfold bind. by intros ->. Qed.

Lemma cluster_keyslot_run key w :
  rc.cluster_keyslot key w = (Return (keyHashSlot key), sent (CLUSTER_KEYSLOT key) w).
Proof. reflexivity. Qed.

Lemma print_run line w : print line w = (Return tt, printed line w).
Proof. reflexivity. Qed.

(** ** Hash tags and slots *)

Lemma scan_open_brace key :
  match after_open_brace key with
  | None => scan_for "{" 0 key = String.length key
  | Some rest =>
      exists s, scan_for "{" 0 key = s
        /\ String.length key = (S s + String.length rest)%nat
        /\ (forall c, scan_for c (S s) key = (S s + scan_for c 0 rest)%nat)
        /\ (forall n, substring (S s) n key = substring 0 n rest)
  end.
Proof.
  induction key as [|a r IH]; simpl; [done|].
  destruct (Ascii.eqb a "{") eqn:Ha.
  - exists 0%nat. repeat split; auto.
  - destruct (after_open_brace r) as [rest|].
    + destruct IH as (s & Hs & Hlen & Hscan & Hsub). exists (S s).
      repeat split; [by rewrite Hs | by rewrite Hlen | |].
      * intros c. by rewrite Hscan.
      * intros n. apply Hsub.
    + by rewrite IH.
Qed.

Lemma scan_close_brace rest :
  match before_close_brace rest with
  | None => scan_for "}" 0 rest = String.length rest
  | Some tag =>
      scan_for "}" 0 rest = String.length tag
      /\ (String.length tag < String.length rest)%nat
      /\ substring 0 (String.length tag) rest = tag
  end.
Proof.
  induction rest as [|a r IH]; simpl; [done|].
  destruct (Ascii.eqb a "}") eqn:Ha; simpl.
  - split; [done|]. split; [lia | by destruct r].
  - destruct (before_close_brace r) as [tag|]; simpl.
    + destruct IH as (Hs & Hlen & Hsub). repeat split; [by rewrite Hs | lia |].
      by rewrite Hsub.
    + by rewrite IH.
Qed.

(** The slot the cluster computes is the CRC16 of the hash tag when the
    key has one, of the whole key otherwise. *)
Lemma keyHashSlot_hash_tag key :
  keyHashSlot key = Z.land (crc16 (default key (hash_tag key))) 0x3FFF.
Proof.
  unfold keyHashSlot, hash_tag.
  pose proof (scan_open_brace key) as Ho.
  destruct (after_open_brace key) as [rest|].
  - destruct Ho as (s & Hs & Hlen & Hscan & Hsub). rewrite Hs, Hscan, Hlen.
    replace (s =? S s + String.length rest)%nat with false
      by (symmetry; apply Nat.eqb_neq; lia).
    pose proof (scan_close_brace rest) as Hc.
    destruct (before_close_brace rest) as [tag|].
    + destruct Hc as (Hsc & Hlt & Hsubt). rewrite Hsc.
      replace (S s + String.length tag =? S s + String.length rest)%nat with false
        by (symmetry; apply Nat.eqb_neq; lia).
      destruct tag as [|a t].
      * simpl String.length. by replace (S s + 0 =? S s)%nat with true
          by (symmetry; apply Nat.eqb_eq; lia).
      * replace (S s + String.length (String a t) =? S s)%nat with false
          by (symmetry; apply Nat.eqb_neq; simpl; lia).
        simpl orb. cbv iota.
        replace (S s + String.length (String a t) - s - 1)%nat
          with (String.length (String a t)) by lia.
        by rewrite Hsub, Hsubt.
    + rewrite Hc. by rewrite Nat.eqb_refl.
  - rewrite Ho. by rewrite Nat.eqb_refl.
Qed.

Lemma keyHashSlot_same_tag k1 k2 tag :
  hash_tag k1 = Some tag -> hash_tag k2 = Some tag -> keyHashSlot k1 = keyHashSlot k2.
Proof. intros H1 H2. by rewrite !keyHashSlot_hash_tag, H1, H2. Qed.

(** C2.  Two keys with the same hash tag are given the same slot by
    every computation of it, whatever the state of the cluster; the
    witness is the pair [{category:electronics}] and
    [{category:electronics}:products]. *)
Theorem same_hash_tag_same_slot (k1 k2 tag : string) :
  hash_tag k1 = Some tag ->
  hash_tag k2 = Some tag ->
  keyHashSlot k1 = keyHashSlot k2
  /\ forall w1 w2, fst (rc.cluster_keyslot k1 w1) = fst (rc.cluster_keyslot k2 w2).
Proof.
  intros H1 H2. pose proof (keyHashSlot_same_tag k1 k2 tag H1 H2) as Heq.
  split; [done|]. intros w1 w2. simpl. by rewrite Heq.
Qed.

Lemma same_hash_tag_same_slot_witness :
  hash_tag "{category:electronics}" = Some "category:electronics"
  /\ hash_tag "{category:electronics}:products" = Some "category:electronics"
  /\ keyHashSlot "{category:electronics}" = keyHashSlot "{category:electronics}:products".
Proof.
  split; [reflexivity|]. split; [reflexivity|].
  apply (same_hash_tag_same_slot "{category:electronics}"
           "{category:electronics}:products" "category:electronics");
    reflexivity.
Defined.

(** *** The keys the scripts build *)

Lemma before_close_brace_app c x :
  before_close_brace (c ++ String "}" x)
  = Some (default c (before_close_brace c)).
Proof.
  induction c as [|a r IH]; simpl; [done|].
  destruct (Ascii.eqb a "}"); [done|].
  rewrite IH. by destruct (before_close_brace r).
Qed.

Lemma hash_tag_category category suffix :
  hash_tag ("{category:" ++ category ++ String "}" suffix)
  = Some ("category:" ++ default category (before_close_brace category)).
Proof.
  unfold hash_tag. simpl.
  change ("" ++ category ++ String "}" suffix) with (category ++ String "}" suffix).
  by rewrite before_close_brace_app.
Qed.

Lemma category_keys_slot category :
  keyHashSlot (products_key category) = keyHashSlot (category_key category)
  /\ forall product_id,
       keyHashSlot (product_key category product_id)
       = keyHashSlot (category_key category).
Proof.
  unfold products_key, category_key, product_key.
  split; [|intros product_id];
    eapply keyHashSlot_same_tag; apply hash_tag_category.
Qed.

Lemma verify_category_same_slot category w :
  fst (verify_category category w) = Return true.
Proof.
  destruct (category_keys_slot category) as [Hp _].
  unfold verify_category, bind, rc.cluster_keyslot, print, ret.
  rewrite Hp. generalize (keyHashSlot (category_key category)). intros slot.
  destruct (get_master_for_slot slot) as [master ip]. simpl.
  by rewrite Z.eqb_refl.
Qed.

Lemma product_slots_run category product_ids acc w :
  fst (for_fold (map (product_key category) product_ids) acc
         (fun pk all_slots =>
            slot <- rc.cluster_keyslot pk ;; ret (all_slots ++ [slot])%list) w)
  = Return (acc ++ replicate (length product_ids)
                     (keyHashSlot (category_key category)))%list.
Proof.
  revert acc w. induction product_ids as [|p ps IH]; intros acc w; simpl.
  - by rewrite app_nil_r.
  - unfold bind at 1. unfold bind at 1. simpl.
    rewrite IH. destruct (category_keys_slot category) as [_ ->].
    by rewrite <- app_assoc.
Qed.

Lemma list_to_set_replicate (s : Z) n :
  list_to_set (replicate (S n) s) = ({[s]} : gset Z).
Proof.
  induction n as [|n IH].
  - simpl. apply (right_id_L _ _).
  - change (list_to_set (replicate (S (S n)) s) : gset Z)
      with ({[s]} ∪ list_to_set (replicate (S n) s) : gset Z).
    rewrite IH. apply (idemp_L _).
Qed.

Lemma verify_all_same_true category product_ids w :
  fst (verify_all_same category product_ids w) = Return true.
Proof.
  unfold verify_all_same.
  rewrite (bind_Return _ _ _ _ _ (cluster_keyslot_run _ _)).
  rewrite (bind_Return _ _ _ _ _ (cluster_keyslot_run _ _)).
  destruct (category_keys_slot category) as [-> _].
  match goal with |- fst (bind ?m ?k ?w0) = _ =>
    pose proof (product_slots_run category product_ids
                  [keyHashSlot (category_key category);
                   keyHashSlot (category_key category)] w0) as Hrun;
    destruct (m w0) as [r w1] eqn:Hm
  end.
  simpl fst in Hrun. subst r.
  rewrite (bind_Return _ _ _ _ _ Hm). unfold ret, fst.
  change ([keyHashSlot (category_key category); keyHashSlot (category_key category)]
          ++ replicate (length product_ids) (keyHashSlot (category_key category)))%list
    with (replicate (S (S (length product_ids))) (keyHashSlot (category_key category))).
  by rewrite list_to_set_replicate, size_singleton.
Qed.

(** ** Recomputing a slot *)

Lemma keyslot_times_run n key w :
  fst (keyslot_times n key w) = Return (replicate n (keyHashSlot key)).
Proof.
  revert w. induction n as [|n IH]; intros w; [done|]. simpl.
  rewrite (bind_Return _ _ _ _ _ (cluster_keyslot_run _ _)).
  specialize (IH (sent (CLUSTER_KEYSLOT key) w)).
  unfold bind. destruct (keyslot_times n key _) as [r w1].
  simpl in IH. by subst r.
Qed.

(** C7.  Computing the slot of a key again gives the same integer: the
    three calls of the consistency test of [demo_distribution] return one
    slot and its check [slot1 == slot2 == slot3] is [True], for every key
    and every state of the cluster; any number of further calls return
    that slot again, and the answer does not depend on the state the
    call is made in. *)
Theorem keyslot_idempotent (key : string) (w : cluster) :
  fst (consistency_test key w)
  = Return (keyHashSlot key, keyHashSlot key, keyHashSlot key, true)
  /\ (forall n, fst (keyslot_times n key w) = Return (replicate n (keyHashSlot key)))
  /\ (forall w', fst (rc.cluster_keyslot key w') = fst (rc.cluster_keyslot key w)).
Proof.
  split; [|split].
  - unfold consistency_test, bind, rc.cluster_keyslot, print, ret. simpl.
    by rewrite Z.eqb_refl.
  - intros n. apply keyslot_times_run.
  - reflexivity.
Qed.

(** ** Looking a key up in the topology *)

Lemma get_node_for_key_loop_found nodes slot found :
  get_node_for_key_loop nodes slot = Some found ->
  exists node_id ni start stop,
    In (node_id, ni) nodes /\ ni_master ni = None
    /\ head (ni_slots ni) = Some (start, stop)
    /\ start <= slot <= stop
    /\ found = (ni_host ni, ni_port ni, slot).
Proof.
  induction nodes as [|[id0 ni0] rest IH]; simpl; [done|].
  assert (get_node_for_key_loop rest slot = Some found ->
          exists node_id ni start stop,
            ((id0, ni0) = (node_id, ni) \/ In (node_id, ni) rest)
            /\ ni_master ni = None /\ head (ni_slots ni) = Some (start, stop)
            /\ start <= slot <= stop /\ found = (ni_host ni, ni_port ni, slot))
    as Hrest.
  { intros (id & n & a & b & Hin & Hmore)%IH. exists id, n, a, b. auto. }
  clear IH.
  destruct (ni_master ni0) eqn:Hm; [auto|].
  destruct (ni_slots ni0) as [|[start stop] more] eqn:Hs; [auto|].
  destruct ((start <=? slot) && (slot <=? stop)) eqn:Hr; [|auto].
  apply andb_true_iff in Hr as [H1%Z.leb_le H2%Z.leb_le].
  intros [= <-]. exists id0, ni0, start, stop.
  rewrite Hs. repeat split; auto.
Qed.

Lemma get_node_for_key_loop_none nodes slot :
  get_node_for_key_loop nodes slot = None <->
  (forall node_id ni start stop,
     In (node_id, ni) nodes -> ni_master ni = None ->
     head (ni_slots ni) = Some (start, stop) -> ~ (start <= slot <= stop)).
Proof.
  induction nodes as [|[id0 ni0] rest IH]; simpl; [by split|].
  split.
  - intros Hloop id ni start stop [[= <- <-]|Hin] Hm Hh Hr.
    + rewrite Hm in Hloop. destruct (ni_slots ni0) as [|[a b] more]; [done|].
      simpl in Hh. injection Hh as -> ->.
      replace ((start <=? slot) && (slot <=? stop)) with true in Hloop; [done|].
      symmetry. apply andb_true_iff. split; apply Z.leb_le; lia.
    + assert (get_node_for_key_loop rest slot = None) as Hrest.
      { destruct (ni_master ni0); [done|].
        destruct (ni_slots ni0) as [|[a b] more]; [done|].
        by destruct ((a <=? slot) && (slot <=? b)). }
      by eapply (proj1 IH Hrest).
  - intros Hall.
    assert (get_node_for_key_loop rest slot = None) as Hrest.
    { apply IH. intros id ni start stop Hin. apply (Hall id). by right. }
    destruct (ni_master ni0) eqn:Hm; [done|].
    destruct (ni_slots ni0) as [|[a b] more] eqn:Hs; [done|].
    destruct ((a <=? slot) && (slot <=? b)) eqn:Hr; [|done].
    apply andb_true_iff in Hr as [H1%Z.leb_le H2%Z.leb_le].
    exfalso. apply (Hall id0 ni0 a b); [by left | done | by rewrite Hs | lia].
Qed.

Lemma get_node_for_key_loop_first_range nodes slot :
  get_node_for_key_loop (map keep_first_range nodes) slot
  = get_node_for_key_loop nodes slot.
Proof.
  induction nodes as [|[id0 ni0] rest IH]; simpl; [done|].
  rewrite IH. destruct (ni_master ni0); [done|].
  by destruct (ni_slots ni0) as [|[a b] more].
Qed.

(** C8.  [get_node_for_key] looks at the first slot range of each master
    and at nothing else in its slot list.  It always returns, with the
    slot of the key as third component; when the loop returns a node,
    that node is a master whose first listed range contains the slot,
    and the value is its host and port; the loop runs to its end, and the
    value is [(None, None, slot)], exactly when no master has the slot in
    its first listed range; later ranges never matter: cutting every slot
    list down to its first range changes nothing. *)
Theorem get_node_for_key_first_range (key : string) (w : cluster) :
  fst (get_node_for_key key w)
  = Return (default (None, None, keyHashSlot key)
              (get_node_for_key_loop (topology w) (keyHashSlot key)))
  /\ (forall found,
        get_node_for_key_loop (topology w) (keyHashSlot key) = Some found ->
        exists node_id ni start stop,
          In (node_id, ni) (topology w) /\ ni_master ni = None
          /\ head (ni_slots ni) = Some (start, stop)
          /\ start <= keyHashSlot key <= stop
          /\ found = (ni_host ni, ni_port ni, keyHashSlot key))
  /\ (get_node_for_key_loop (topology w) (keyHashSlot key) = None <->
      (forall node_id ni start stop,
         In (node_id, ni) (topology w) -> ni_master ni = None ->
         head (ni_slots ni) = Some (start, stop) ->
         ~ (start <= keyHashSlot key <= stop)))
  /\ get_node_for_key_loop (map keep_first_range (topology w)) (keyHashSlot key)
     = get_node_for_key_loop (topology w) (keyHashSlot key).
Proof.
  split; [|split; [|split]].
  - unfold get_node_for_key, bind, rc.cluster_keyslot, rc.cluster_nodes. simpl.
    by destruct (get_node_for_key_loop (topology w) (keyHashSlot key)).
  - apply get_node_for_key_loop_found.
  - apply get_node_for_key_loop_none.
  - apply get_node_for_key_loop_first_range.
Qed.

(** A master that owns the slot of the key through its second range is
    not found. *)
Example get_node_for_key_later_range :
  let node := NodeInfo None [(0, 100); (12000, 13000)] (Some "172.28.0.4") (Some 6379) in
  let w := Cluster ∅ ∅ [("172.28.0.4:6379", node)] ∅ [] [] None in
  keyHashSlot "foo" = 12182
  /\ fst (get_node_for_key "foo" w) = Return (None, None, 12182).
Proof. split; reflexivity. Qed.

(** ** A client that cannot be opened *)

Ltac run_failed_start H :=
  unfold bind, try_except, RedisCluster, print, ret; simpl;
  rewrite H; simpl;
  unfold after_failed_start, printed; simpl;
  rewrite <- ?app_assoc; reflexivity.

Lemma clear_all_keys_failed_start w e :
  startup_failure w = Some e ->
  clear_all_keys w
  = (Return tt,
     after_failed_start w
       [Py.repeat_str "=" 60; "🗑️  Clearing All Keys from Redis Cluster";
        Py.repeat_str "=" 60; nl ++ "📡 Connecting to Redis Cluster...";
        "❌ Connection failed: " ++ exn_str e]).
Proof. intros H. unfold clear_all_keys. run_failed_start H. Qed.

Lemma verify_hash_tags_failed_start w e rest :
  startup_failure w = Some e ->
  verify_hash_tags_main rest w
  = (Return tt,
     after_failed_start w
       [Py.repeat_str "=" 80;
        "🔍 VERIFYING HASH TAGS - Where Each Category is Stored";
        Py.repeat_str "=" 80; nl ++ "📡 Connecting to Redis Cluster...";
        "❌ Connection failed: " ++ exn_str e]).
Proof. intros H. unfold verify_hash_tags_main. run_failed_start H. Qed.

Lemma category_products_demo_failed_start w e rest :
  startup_failure w = Some e ->
  category_products_demo_main rest w
  = (Return tt,
     after_failed_start w
       [Py.repeat_str "=" 70;
        "🛍️  CATEGORY & PRODUCTS DEMO - Using Hash Tags {{}}";
        Py.repeat_str "=" 70; nl ++ "📡 Connecting to Redis Cluster...";
        "❌ Connection failed: " ++ exn_str e]).
Proof. intros H. unfold category_products_demo_main. run_failed_start H. Qed.

Lemma demo_failed_start w e rest :
  startup_failure w = Some e ->
  demo_main rest w
  = (Return tt,
     after_failed_start w
       [Py.repeat_str "=" 60; "🚀 Redis Cluster Demo";
        Py.repeat_str "=" 60; nl ++ "📡 Connecting to Redis Cluster...";
        "❌ Connection failed: " ++ exn_str e]).
Proof. intros H. unfold demo_main. run_failed_start H. Qed.

(** C5.  When opening the client raises [e], each entry function prints
    its banner and the line "Connection failed: e" and returns at once:
    the outcome is a normal return, the only thing on the wire is the
    attempt itself, nothing is read, written, deleted or asked of the
    cluster afterwards, and the keys are as they were.  This holds for
    [clear_all_keys] and, whatever the statements after the connection
    block are, for the [main] of [verify_hash_tags],
    [category_products_demo] and [demo]. *)
Theorem connection_failure_returns_early (w : cluster) (e : exn) (rest : M unit) :
  startup_failure w = Some e ->
  (forall script,
     In script [clear_all_keys; verify_hash_tags_main rest;
                category_products_demo_main rest; demo_main rest] ->
     fst (script w) = Return tt
     /\ wire (snd (script w)) = (wire w ++ [CONNECT])%list
     /\ db (snd (script w)) = db w
     /\ ttl (snd (script w)) = ttl w
     /\ exists banner,
          console (snd (script w))
          = (console w ++ banner
               ++ [(nl ++ "📡 Connecting to Redis Cluster...")%string;
                   ("❌ Connection failed: " ++ exn_str e)%string])%list).
Proof.
  intros H script Hin. simpl in Hin.
  destruct Hin as [<-|[<-|[<-|[<-|[]]]]].
  - rewrite (clear_all_keys_failed_start w e H). repeat split.
    by eexists [_; _; _].
  - rewrite (verify_hash_tags_failed_start w e rest H). repeat split.
    by eexists [_; _; _].
  - rewrite (category_products_demo_failed_start w e rest H). repeat split.
    by eexists [_; _; _].
  - rewrite (demo_failed_start w e rest H). repeat split.
    by eexists [_; _; _].
Qed.

Lemma connection_failure_returns_early_witness :
  let w := Cluster (<["hello" := RString "world"]> ∅) ∅ [] ∅ [] []
             (Some (ConnectionError "Redis Cluster cannot be connected.")) in
  startup_failure w = Some (ConnectionError "Redis Cluster cannot be connected.")
  /\ fst (clear_all_keys w) = Return tt
  /\ wire (snd (clear_all_keys w)) = [CONNECT]
  /\ db (snd (clear_all_keys w)) = db w.
Proof.
  intros w. split; [reflexivity|].
  destruct (connection_failure_returns_early w
              (ConnectionError "Redis Cluster cannot be connected.")
              rc.close eq_refl clear_all_keys)
    as (Hr & Hw & Hd & _); [by left|].
  auto.
Defined.

(** ** Writing a hash and reading it back *)

Lemma hset_hgetall_run key (mapping h : gmap string string) w :
  mapping <> ∅ ->
  hash_at w key = Some h ->
  fst ((rc.hset key mapping ;; rc.hgetall key) w) = Return (mapping ∪ h).
Proof.
  intros Hne Hh. unfold bind, rc.hset, rc.hgetall, hash_at in *.
  destruct (decide (mapping = ∅)) as [|_]; [done|]. simpl.
  destruct (db w !! key) as [[s|h'|l|scored]|] eqn:Hk; try done.
  - injection Hh as ->. simpl. by rewrite lookup_insert_eq.
  - injection Hh as <-. simpl. rewrite lookup_insert_eq.
    by rewrite (right_id_L ∅ (∪)).
Qed.

Lemma union_keeps_written (mapping h : gmap string string) field value :
  mapping !! field = Some value -> (mapping ∪ h) !! field = Some value.
Proof. intros H. by apply lookup_union_Some_l. Qed.

Lemma union_exact (mapping h : gmap string string) :
  dom h ⊆ dom mapping -> mapping ∪ h = mapping.
Proof.
  intros Hdom. apply map_eq. intros f.
  destruct (mapping !! f) as [v|] eqn:Hm.
  - by apply lookup_union_Some_l.
  - apply lookup_union_None. split; [done|].
    apply not_elem_of_dom. intros Hin. apply Hdom in Hin.
    by apply not_elem_of_dom in Hm.
Qed.

(** C6, amended.  Writing a record of N fields with [hset] to a key that
    is absent or holds a hash, then reading the key with [hgetall],
    yields the written fields with the written values together with the
    fields the hash already had under other names; the record read is
    exactly the N fields written when the key was absent or held no
    field outside the N. *)
Theorem hash_round_trip (key : string) (mapping h : gmap string string) (w : cluster) :
  mapping <> ∅ ->
  hash_at w key = Some h ->
  fst ((rc.hset key mapping ;; rc.hgetall key) w) = Return (mapping ∪ h)
  /\ (forall field value,
        mapping !! field = Some value -> (mapping ∪ h) !! field = Some value)
  /\ (dom h ⊆ dom mapping ->
      fst ((rc.hset key mapping ;; rc.hgetall key) w) = Return mapping)
  /\ (db w !! key = None ->
      fst ((rc.hset key mapping ;; rc.hgetall key) w) = Return mapping).
Proof.
  intros Hne Hh. pose proof (hset_hgetall_run key mapping h w Hne Hh) as Hrun.
  split; [done|]. split; [intros f v; apply union_keeps_written|].
  split.
  - intros Hdom. by rewrite Hrun, union_exact.
  - intros Hk. rewrite Hrun, union_exact; [done|].
    unfold hash_at in Hh. rewrite Hk in Hh. injection Hh as <-. set_solver.
Qed.

Lemma product_mapping_nonempty float str_float now name price stock category :
  product_mapping float str_float now name price stock category <> ∅.
Proof.
  intros H. apply (f_equal (fun m => m !! "views")) in H.
  by rewrite lookup_empty in H.
Qed.

(** [add_product] followed by [get_product]: the record read holds the
    six fields written, and whatever other fields the key had. *)
Lemma add_then_get_product float str_float now product_id name price stock
    category h w :
  hash_at w ("product:" ++ product_id) = Some h ->
  fst ((add_product float str_float now product_id name price stock category ;;
        get_product product_id) w)
  = Return (product_mapping float str_float now name price stock category ∪ h).
Proof.
  intros Hh.
  pose proof (hset_hgetall_run ("product:" ++ product_id)
                (product_mapping float str_float now name price stock category) h w
                (product_mapping_nonempty _ _ _ _ _ _ _) Hh) as Hrun.
  unfold add_product, get_product, bind, print in *.
  destruct (rc.hset _ _ w) as [[[]|e] w1]; [|done].
  simpl in *. unfold rc.hgetall in *. simpl in *.
  by destruct (db w1 !! ("product:" ++ product_id)) as [[s|h'|l|scored]|].
Qed.

Lemma hash_round_trip_witness :
  let w := Cluster ∅ ∅ [] ∅ [] [] None in
  let written : gmap string string :=
    list_to_map [("name", "Redis Cluster Guide"); ("price", "29.99");
                 ("category", "Books"); ("stock", "150")] in
  written <> ∅
  /\ hash_at w "product:1001" = Some ∅
  /\ fst ((rc.hset "product:1001" written ;; rc.hgetall "product:1001") w)
     = Return written.
Proof.
  intros w written.
  assert (written <> ∅) as Hne.
  { intros H. apply (f_equal (fun m => m !! "name")) in H. discriminate H. }
  split; [exact Hne|]. split; [reflexivity|].
  destruct (hash_round_trip "product:1001" written ∅ w Hne eq_refl)
    as (_ & _ & _ & Hfresh).
  by apply Hfresh.
Defined.

(** C6, as stated, fails when the key already holds a hash with other
    fields.  After [add_product("1001", ...)] has written its six fields
    to [product:1001], Demo 3 of [demo.main] writes its four fields to
    the same key and reads six back, not the four it wrote. *)
Lemma hash_round_trip_counterexample :
  let w0 := Cluster ∅ ∅ [] ∅ [] [] None in
  let w1 :=
    snd (add_product unit (fun _ => "19.99") "2024-12-05T10:00:00"
           "1001" "Old Guide" tt 7 "Books" w0) in
  let written : gmap string string :=
    list_to_map [("name", "Redis Cluster Guide"); ("price", "29.99");
                 ("category", "Books"); ("stock", "150")] in
  let read : gmap string string :=
    list_to_map [("name", "Redis Cluster Guide"); ("price", "29.99");
                 ("category", "Books"); ("stock", "150");
                 ("views", "0"); ("created_at", "2024-12-05T10:00:00")] in
  fst (demo_hash_operations (fun _ => "{...}") w1) = Return read
  /\ read <> written
  /\ fst (demo_hash_operations (fun _ => "{...}") w1) <> Return written.
Proof.
  intros w0 w1 written read.
  assert (read <> written) as Hne.
  { intros H. apply (f_equal (fun m => m !! "views")) in H. discriminate H. }
  assert (fst (demo_hash_operations (fun _ => "{...}") w1) = Return read) as Hrun.
  { reflexivity. }
  split; [exact Hrun|]. split; [exact Hne|].
  rewrite Hrun. intros H. apply Hne.
  exact (f_equal (fun r => match r with Return p => p | Raise _ => read end) H).
Qed.

(** ** Capped lists *)

Lemma ltrim_list_prefix l stop :
  0 <= stop -> ltrim_list l 0 stop = take (Z.to_nat (stop + 1)) l.
Proof.
  intros Hstop. unfold ltrim_list. cbv zeta.
  repeat (progress (change (0 <? 0) with false; cbv iota)).
  repeat (destruct (Z.ltb_spec stop 0) as [|_]; [lia|]). simpl orb.
  rewrite Z.sub_0_r. change (Z.to_nat 0) with 0%nat.
  destruct (Z.leb_spec (Z.of_nat (length l)) 0) as [Hl|Hl].
  - destruct l; [by rewrite take_nil | simpl in Hl; lia].
  - rewrite drop_0. destruct (Z.leb_spec (Z.of_nat (length l)) stop) as [Hs|Hs].
    + by rewrite !take_ge by lia.
    + done.
Qed.

Lemma take_cons_nonempty {A} n (x : A) l :
  (0 < n)%nat -> take n (x :: l) = x :: take (n - 1) l.
Proof. destruct n; [lia|]. intros _. simpl. by rewrite Nat.sub_0_r. Qed.

(** One insertion followed by its trim, as the three methods write it. *)
Lemma lpush_ltrim_run key value stop w :
  0 <= stop ->
  let run := (rc.lpush key value ;; rc.ltrim key 0 stop ;; ret tt) w in
  match list_at w key with
  | Some l =>
      fst run = Return tt
      /\ db (snd run) = <[key := RList (take (Z.to_nat (stop + 1)) (value :: l))]> (db w)
      /\ wire (snd run) = (wire w ++ [LPUSH key value; LTRIM key 0 stop])%list
  | None =>
      fst run = Raise wrongtype
      /\ db (snd run) = db w
      /\ wire (snd run) = (wire w ++ [LPUSH key value])%list
  end.
Proof.
  intros Hstop run. subst run.
  unfold list_at, bind, rc.lpush, rc.ltrim, ret. simpl.
  assert (forall l,
            ltrim_list (value :: l) 0 stop
            = value :: take (Z.to_nat (stop + 1) - 1) l) as Htrim.
  { intros l. rewrite ltrim_list_prefix by done.
    apply take_cons_nonempty. lia. }
  destruct (db w !! key) as [[s|h|l|scored]|] eqn:Hk; simpl; try done.
  - rewrite lookup_insert_eq, Htrim. simpl.
    rewrite insert_insert_eq, <- app_assoc.
    by rewrite take_cons_nonempty by lia.
  - rewrite lookup_insert_eq, Htrim. simpl.
    rewrite insert_insert_eq, <- app_assoc.
    by rewrite take_cons_nonempty by lia.
Qed.

Lemma lpush_ltrim_bound key value stop w :
  0 <= stop ->
  Z.of_nat (list_length (snd ((rc.lpush key value ;; rc.ltrim key 0 stop ;; ret tt) w)) key)
  <= stop + 1.
Proof.
  intros Hstop. pose proof (lpush_ltrim_run key value stop w Hstop) as Hrun.
  simpl in Hrun. unfold list_length.
  unfold list_at in Hrun. destruct (db w !! key) as [[s|h|l|scored]|] eqn:Hk.
  - destruct Hrun as (_ & -> & _). rewrite Hk. lia.
  - destruct Hrun as (_ & -> & _). rewrite Hk. lia.
  - destruct Hrun as (_ & -> & _). rewrite lookup_insert_eq, length_take. lia.
  - destruct Hrun as (_ & -> & _). rewrite Hk. lia.
  - destruct Hrun as (_ & -> & _). rewrite lookup_insert_eq, length_take. lia.
Qed.

(** *** The trending set *)

Lemma zset_insert_length member score z :
  length (zset_insert member score z) = S (length z).
Proof.
  induction z as [|e rest IH]; simpl; [done|].
  destruct (zset_before member score e); simpl; [done|]. by rewrite IH.
Qed.

(** Removing the ranks [0..-101] keeps the hundred highest. *)
Lemma zset_remove_ranks_keeps_100 z :
  zset_remove_ranks z 0 (-101) = drop (length z - 100) z.
Proof.
  unfold zset_remove_ranks. cbv zeta.
  change (0 <? 0) with false. change (-101 <? 0) with true. cbv iota.
  change (0 <? 0) with false. cbv iota.
  destruct (Z.ltb_spec (Z.of_nat (length z) + -101) 0) as [Hs|Hs]; simpl orb.
  - replace (length z - 100)%nat with 0%nat by lia. done.
  - destruct (Z.leb_spec (Z.of_nat (length z)) 0) as [|_]; [lia|].
    destruct (Z.leb_spec (Z.of_nat (length z)) (Z.of_nat (length z) + -101)); [lia|].
    change (Z.to_nat 0) with 0%nat. rewrite take_0. simpl app. f_equal. lia.
Qed.

(** [add_to_trending] with a score that is a number. *)
Lemma add_to_trending_run float (time_time : float) double product_id w :
  PrimFloat.is_nan (double time_time) = false ->
  let run := add_to_trending float time_time double product_id w in
  match zset_at w "trending:products" with
  | Some z =>
      let placed :=
        zset_insert product_id (double time_time)
          (List.filter (fun e => negb (String.eqb (fst e) product_id)) z) in
      fst run = Return tt
      /\ db (snd run)
         = <["trending:products" := RZSet (drop (length placed - 100) placed)]> (db w)
      /\ wire (snd run)
         = (wire w ++ [ZADD "trending:products" (double time_time) product_id;
                       ZREMRANGEBYRANK "trending:products" 0 (-101)])%list
  | None =>
      fst run = Raise wrongtype
      /\ db (snd run) = db w
      /\ wire (snd run)
         = (wire w ++ [ZADD "trending:products" (double time_time) product_id])%list
  end.
Proof.
  intros Hnumber run. subst run.
  assert (forall placed : list (string * PrimFloat.float),
            (0 < length placed)%nat ->
            match zset_remove_ranks placed 0 (-101) with
            | [] => false
            | _ => true
            end = true) as Hstays.
  { intros placed Hlen. rewrite zset_remove_ranks_keeps_100.
    destruct (drop (length placed - 100) placed) eqn:Hd; [|done].
    apply (f_equal length) in Hd. rewrite length_drop in Hd. simpl in Hd. lia. }
  unfold zset_at, add_to_trending, bind, rc.zadd, rc.zremrangebyrank, ret. simpl.
  rewrite Hnumber.
  destruct (db w !! "trending:products") as [[s|h|l|z]|] eqn:Hk; simpl; try done.
  - rewrite lookup_insert_eq.
    set (placed := zset_insert product_id (double time_time) _).
    specialize (Hstays placed). rewrite zset_remove_ranks_keeps_100 in *.
    destruct (drop (length placed - 100) placed) as [|e kept] eqn:Hd.
    + discriminate Hstays. subst placed. rewrite zset_insert_length. lia.
    + simpl. by rewrite insert_insert_eq, <- app_assoc.
  - rewrite lookup_insert_eq. simpl. by rewrite insert_insert_eq, <- app_assoc.
Qed.

(** C9, amended.  Each insertion of [EcommerceRedis] into a per-user or
    global collection other than the cart is followed at once by its
    trim: LPUSH and LTRIM, or ZADD and ZREMRANGEBYRANK, are the two
    commands the call sends.  So after the call the list of views of
    the user holds at most 50 entries, the list of notifications of the
    user at most 100, the list of analytics events at most 10000 and the
    trending sorted set at most 100 members, whatever they held before;
    when the key is absent or holds a collection of its kind the call
    returns and leaves the new entry with the newest, or the highest
    ranked, of the old ones, up to the capacity.  The score of the
    trending set is the reading of the clock, which is a number. *)
Theorem collections_are_capped (float : Type) (datetime_now_isoformat : string)
    (time_time : float) (json_dumps : list (string * pyval float) -> string)
    (w : cluster) (user_id product_id notification_type message event_type : string)
    (event_user event_product : option string)
    (double : float -> PrimFloat.float) :
  let trended := add_to_trending float time_time double product_id w in
  let viewed := track_product_view user_id product_id w in
  let notified :=
    add_notification float datetime_now_isoformat json_dumps
      user_id notification_type message w in
  let tracked :=
    track_event float time_time json_dumps event_type event_user event_product w in
  Z.of_nat (list_length (snd viewed) ("views:" ++ user_id)) <= 50
  /\ Z.of_nat (list_length (snd notified) ("notifications:" ++ user_id)) <= 100
  /\ Z.of_nat (list_length (snd tracked) "analytics:events") <= 10000
  /\ (forall l, list_at w ("views:" ++ user_id) = Some l ->
        fst viewed = Return tt
        /\ list_at (snd viewed) ("views:" ++ user_id)
           = Some (take 50 (product_id :: l))
        /\ wire (snd viewed)
           = (wire w ++ [LPUSH ("views:" ++ user_id) product_id;
                         LTRIM ("views:" ++ user_id) 0 49])%list)
  /\ (forall l, list_at w ("notifications:" ++ user_id) = Some l ->
        fst notified = Return tt
        /\ exists notification,
             list_at (snd notified) ("notifications:" ++ user_id)
             = Some (take 100 (notification :: l))
             /\ wire (snd notified)
                = (wire w ++ [LPUSH ("notifications:" ++ user_id) notification;
                              LTRIM ("notifications:" ++ user_id) 0 99])%list)
  /\ (forall l, list_at w "analytics:events" = Some l ->
        fst tracked = Return tt
        /\ exists event,
             list_at (snd tracked) "analytics:events"
             = Some (take (Z.to_nat 10000) (event :: l))
             /\ wire (snd tracked)
                = (wire w ++ [LPUSH "analytics:events" event;
                              LTRIM "analytics:events" 0 9999])%list)
  /\ (PrimFloat.is_nan (double time_time) = false ->
      Z.of_nat (zset_length (snd trended) "trending:products") <= 100
      /\ (forall z, zset_at w "trending:products" = Some z ->
            let placed :=
              zset_insert product_id (double time_time)
                (List.filter (fun e => negb (String.eqb (fst e) product_id)) z) in
            fst trended = Return tt
            /\ zset_at (snd trended) "trending:products"
               = Some (drop (length placed - 100) placed)
            /\ wire (snd trended)
               = (wire w ++ [ZADD "trending:products" (double time_time) product_id;
                             ZREMRANGEBYRANK "trending:products" 0 (-101)])%list)).
Proof.
  intros trended viewed notified tracked. subst viewed notified tracked.
  unfold track_product_view, add_notification, track_event.
  split; [apply (lpush_ltrim_bound _ _ 49); lia|].
  split; [apply (lpush_ltrim_bound _ _ 99); lia|].
  split; [apply (lpush_ltrim_bound _ _ 9999); lia|].
  split; [|split; [|split]]; cycle 3.
  { intros Hnumber.
    pose proof (add_to_trending_run float time_time double product_id w Hnumber)
      as Hrun.
    cbv zeta in Hrun. fold trended in Hrun. split.
    - unfold zset_length, zset_at in *.
      destruct (db w !! "trending:products") as [[s|h|l|z]|] eqn:Hk.
      + destruct Hrun as (_ & -> & _). rewrite Hk. lia.
      + destruct Hrun as (_ & -> & _). rewrite Hk. lia.
      + destruct Hrun as (_ & -> & _). rewrite Hk. lia.
      + destruct Hrun as (_ & -> & _). rewrite lookup_insert_eq, length_drop. lia.
      + destruct Hrun as (_ & -> & _). rewrite lookup_insert_eq, length_drop. lia.
    - intros z Hz. cbv zeta. rewrite Hz in Hrun. destruct Hrun as (Hr & Hd & Hw).
      split; [done|]. split; [|exact Hw].
      unfold zset_at. by rewrite Hd, lookup_insert_eq. }
  - intros l Hl.
    pose proof (lpush_ltrim_run ("views:" ++ user_id) product_id 49 w) as Hrun.
    cbv zeta in Hrun. rewrite Hl in Hrun. destruct Hrun as (Hr & Hd & Hw); [lia|].
    split; [done|]. split; [|exact Hw].
    unfold list_at. rewrite Hd, lookup_insert_eq. reflexivity.
  - intros l Hl.
    match goal with |- context [rc.lpush ?k ?v] =>
      pose proof (lpush_ltrim_run k v 99 w) as Hrun end.
    cbv zeta in Hrun. rewrite Hl in Hrun. destruct Hrun as (Hr & Hd & Hw); [lia|].
    split; [done|]. eexists. split; [|exact Hw].
    unfold list_at. rewrite Hd, lookup_insert_eq. reflexivity.
  - intros l Hl.
    match goal with |- context [rc.lpush ?k ?v] =>
      pose proof (lpush_ltrim_run k v 9999 w) as Hrun end.
    cbv zeta in Hrun. rewrite Hl in Hrun. destruct Hrun as (Hr & Hd & Hw); [lia|].
    split; [done|]. eexists. split; [|exact Hw].
    unfold list_at. rewrite Hd, lookup_insert_eq. reflexivity.
Qed.

(** A product that trends again moves up: its score is replaced and it
    takes the place that goes with the new score. *)
Example add_to_trending_example :
  let trending := [("P002", PrimFloat.one); ("P003", PrimFloat.two)] in
  let w := Cluster (<["trending:products" := RZSet trending]> ∅) ∅ [] ∅ [] [] None in
  let now := PrimFloat.add PrimFloat.two PrimFloat.one in
  let run := add_to_trending PrimFloat.float now (fun x => x) "P002" w in
  fst run = Return tt
  /\ zset_at (snd run) "trending:products"
     = Some [("P003", PrimFloat.two); ("P002", now)]
  /\ wire (snd run)
     = [ZADD "trending:products" now "P002";
        ZREMRANGEBYRANK "trending:products" 0 (-101)]
  /\ fst (add_to_trending PrimFloat.float PrimFloat.nan (fun x => x) "P002" w)
     = Raise (ResponseError "value is not a valid float").
Proof. repeat split; reflexivity. Qed.

(** *** The cart *)

(** [add_to_cart] writes its field and sets the expiry; it removes
    nothing from the cart. *)
Lemma add_to_cart_run user_id product_id quantity h w :
  hash_at w ("cart:" ++ user_id) = Some h ->
  fst (add_to_cart user_id product_id quantity w) = Return tt
  /\ hash_at (snd (add_to_cart user_id product_id quantity w)) ("cart:" ++ user_id)
     = Some (<[product_id := Py.str_int quantity]> h)
  /\ wire (snd (add_to_cart user_id product_id quantity w))
     = (wire w ++ [HSET ("cart:" ++ user_id) {[product_id := Py.str_int quantity]};
                   EXPIRE ("cart:" ++ user_id) (7 * 24 * 3600)])%list.
Proof.
  intros Hh. unfold add_to_cart, bind, rc.hset, rc.expire, print, hash_at in *.
  destruct (decide ({[product_id := Py.str_int quantity]} = (∅ : gmap string string)))
    as [He|_].
  { apply (f_equal (fun m => m !! product_id)) in He.
    by rewrite lookup_singleton_eq, lookup_empty in He. }
  simpl. destruct (db w !! ("cart:" ++ user_id)) as [[s|h'|l|scored]|] eqn:Hk; try done.
  - injection Hh as ->. simpl. rewrite !lookup_insert_eq. simpl.
    rewrite lookup_insert_eq, <- insert_union_singleton_l, <- app_assoc. done.
  - injection Hh as <-. simpl. rewrite !lookup_insert_eq. simpl.
    rewrite lookup_insert_eq, <- app_assoc. done.
Qed.

Lemma hgetall_hash_at key w h :
  hash_at w key = Some h -> fst (rc.hgetall key w) = Return h.
Proof.
  unfold hash_at, rc.hgetall. simpl.
  destruct (db w !! key) as [[s|h'|l|scored]|]; try done; by intros [= ->].
Qed.

Lemma hash_of_any_size n : exists h : gmap string string, size h = n.
Proof.
  induction n as [|n [h Hh]]; [by exists ∅|].
  exists (<[fresh (dom h) := "1"]> h).
  rewrite map_size_insert_None, Hh; [done|].
  apply not_elem_of_dom, is_fresh.
Qed.

(** Whatever capacity is named, there is a call of [add_to_cart] after
    which the cart holds more entries; the call sends HSET and EXPIRE
    and no trim. *)
Lemma cart_grows_past_any_capacity :
  forall capacity : nat,
  exists w user_id product_id quantity cart,
    fst (add_to_cart user_id product_id quantity w) = Return tt
    /\ fst (get_cart user_id (snd (add_to_cart user_id product_id quantity w)))
       = Return cart
    /\ (capacity < size cart)%nat
    /\ wire (snd (add_to_cart user_id product_id quantity w))
       = [HSET ("cart:" ++ user_id) {[product_id := Py.str_int quantity]};
          EXPIRE ("cart:" ++ user_id) (7 * 24 * 3600)].
Proof.
  intros capacity. destruct (hash_of_any_size capacity) as [h Hh].
  set (w := Cluster (<["cart:U12345" := RHash h]> ∅) ∅ [] ∅ [] [] None).
  assert (hash_at w ("cart:" ++ "U12345") = Some h) as Hat.
  { unfold hash_at. simpl. by rewrite lookup_insert_eq. }
  destruct (add_to_cart_run "U12345" (fresh (dom h)) 1 h w Hat) as (Hr & Hcart & Hw).
  exists w, "U12345", (fresh (dom h)), 1, (<[fresh (dom h) := Py.str_int 1]> h).
  split; [exact Hr|]. split; [|split; [|exact Hw]].
  - unfold get_cart. by apply hgetall_hash_at.
  - rewrite map_size_insert_None, Hh; [lia|].
    apply not_elem_of_dom, is_fresh.
Qed.

(** C9, as stated, fails for the cart, a collection kept for each user
    that [add_to_cart] inserts into and never trims: no capacity bounds
    the cart after every call. *)
Lemma cart_is_not_capped :
  ~ (exists capacity : nat,
       forall w user_id product_id quantity cart,
         fst (add_to_cart user_id product_id quantity w) = Return tt ->
         fst (get_cart user_id (snd (add_to_cart user_id product_id quantity w)))
         = Return cart ->
         (size cart <= capacity)%nat).
Proof.
  intros [capacity Hcap].
  destruct (cart_grows_past_any_capacity capacity)
    as (w & user_id & product_id & quantity & cart & Hr & Hcart & Hsize & _).
  specialize (Hcap w user_id product_id quantity cart Hr Hcart). lia.
Qed.

(** ** The counter of the rate limit *)

Lemma incr_run key w n :
  match db w !! key with
  | None => Some 0
  | Some (RString s) => string2ll s
  | Some _ => None
  end = Some n ->
  in_int64 (n + 1) = true ->
  rc.incr key w
  = (Return (n + 1),
     with_db (<[key := RString (Py.str_int (n + 1))]> (db w)) (sent (INCR key) w)).
Proof.
  intros Hn Hr. unfold rc.incr. simpl.
  destruct (db w !! key) as [[s|h|l|scored]|]; try done.
  - by rewrite Hn, Hr.
  - by injection Hn as <-.
Qed.

(** C10.  With the counter of the address at [n] (an absent key counts
    as 0) and room to count one further, [check_rate_limit] sends INCR
    on every call, accepted or rejected: the counter becomes [n + 1];
    the call is rejected exactly when [n + 1] is strictly greater than
    [max_requests]; EXPIRE is sent, after the INCR, when [n + 1] is 1
    and only then; a call that sends no EXPIRE leaves the counter at
    [n + 1] and every time-to-live as it was. *)
Theorem rate_limit_counts_every_call (ip_address : string) (max_requests window n : Z)
    (w : cluster) :
  counter_value w ip_address = Some n ->
  in_int64 (n + 1) = true ->
  let key := "rate_limit:" ++ ip_address in
  let run := check_rate_limit ip_address max_requests window w in
  fst run
  = Return (if max_requests <? n + 1
            then (false, "Rate limit exceeded: " ++ Py.str_int (n + 1) ++ "/"
                         ++ Py.str_int max_requests)
            else (true, "OK: " ++ Py.str_int (n + 1) ++ "/"
                        ++ Py.str_int max_requests))
  /\ (forall allowed msg,
        fst run = Return (allowed, msg) -> (allowed = false <-> max_requests < n + 1))
  /\ counter_value (snd (rc.incr key w)) ip_address = Some (n + 1)
  /\ wire (snd run)
     = (wire w ++ INCR key :: (if n + 1 =? 1 then [EXPIRE key window] else []))%list
  /\ (n + 1 <> 1 ->
      counter_value (snd run) ip_address = Some (n + 1) /\ ttl (snd run) = ttl w)
  /\ (n + 1 = 1 -> 0 < window ->
      counter_value (snd run) ip_address = Some 1
      /\ ttl (snd run) !! key = Some window).
Proof.
  intros Hn Hr key run. subst run.
  pose proof (incr_run key w n Hn Hr) as Hincr.
  assert (counter_value (snd (rc.incr key w)) ip_address = Some (n + 1)) as Hafter.
  { rewrite Hincr. unfold counter_value. simpl. fold key.
    rewrite lookup_insert_eq. by apply PyFacts.string2ll_str_int. }
  assert (fst (check_rate_limit ip_address max_requests window w)
          = Return (if max_requests <? n + 1
                    then (false, "Rate limit exceeded: " ++ Py.str_int (n + 1) ++ "/"
                                 ++ Py.str_int max_requests)
                    else (true, "OK: " ++ Py.str_int (n + 1) ++ "/"
                                ++ Py.str_int max_requests))) as Hres.
  { unfold check_rate_limit. fold key.
    rewrite (bind_Return _ _ _ _ _ Hincr).
    destruct (n + 1 =? 1); unfold bind, rc.expire, ret; simpl;
      rewrite ?lookup_insert_eq; destruct (window <=? 0); simpl;
      by destruct (max_requests <? n + 1). }
  split; [done|]. split; [|split; [done|]].
  { intros allowed msg. rewrite Hres.
    destruct (Z.ltb_spec max_requests (n + 1)); intros [= <- <-];
      split; (done || lia). }
  unfold check_rate_limit. fold key.
  rewrite (bind_Return _ _ _ _ _ Hincr).
  destruct (Z.eqb_spec (n + 1) 1) as [H1|H1].
  - split; [|split; [done|]].
    + unfold bind, rc.expire, ret. simpl. rewrite lookup_insert_eq.
      destruct (window <=? 0); simpl; destruct (max_requests <? n + 1);
        simpl; by rewrite <- app_assoc.
    + intros _ Hw. unfold bind, rc.expire, ret. simpl. rewrite lookup_insert_eq.
      destruct (Z.leb_spec window 0) as [|_]; [lia|]. simpl.
      destruct (max_requests <? n + 1); simpl;
        (split; [|by rewrite lookup_insert_eq]);
        unfold counter_value; simpl; fold key; rewrite lookup_insert_eq;
        rewrite H1; reflexivity.
  - split; [|split; [|done]].
    + unfold bind, ret. simpl. by destruct (max_requests <? n + 1).
    + intros _. unfold bind, ret. simpl.
      destruct (max_requests <? n + 1); simpl; (split; [|done]);
        unfold counter_value; simpl; fold key; rewrite lookup_insert_eq;
        by apply PyFacts.string2ll_str_int.
Qed.

Lemma rate_limit_counts_every_call_witness :
  let w := Cluster (<["rate_limit:192.168.1.100" := RString "100"]> ∅) ∅ [] ∅ [] [] None in
  counter_value w "192.168.1.100" = Some 100
  /\ in_int64 (100 + 1) = true
  /\ fst (check_rate_limit "192.168.1.100" 100 60 w)
     = Return (false, "Rate limit exceeded: 101/100")
  /\ wire (snd (check_rate_limit "192.168.1.100" 100 60 w))
     = [INCR "rate_limit:192.168.1.100"].
Proof.
  intros w. split; [reflexivity|]. split; [reflexivity|].
  destruct (rate_limit_counts_every_call "192.168.1.100" 100 60 100 w
              eq_refl eq_refl) as (Hr & _ & _ & Hw & _).
  split; [exact Hr | exact Hw].
Defined.

(** ** Reserving stock under the lock *)

Lemma lock_key_not_product product_id product_id' :
  "lock:stock:" ++ product_id <> "product:" ++ product_id'.
Proof. intros H. discriminate H. Qed.

Lemma check_stock_wire product_id w :
  snd (check_stock product_id w) = sent (HGET ("product:" ++ product_id) "stock") w.
Proof.
  unfold check_stock, bind, rc.hget, raise, ret. simpl.
  destruct (db w !! ("product:" ++ product_id)) as [[s|h|l|scored]|]; try done.
  destruct (h !! "stock") as [s|]; [|done].
  destruct (Py.truthy s); [|done]. by destruct (Py.int s).
Qed.

(** What [check_stock] answers depends on the product key alone. *)
Lemma check_stock_same_product product_id w w' :
  db w !! ("product:" ++ product_id) = db w' !! ("product:" ++ product_id) ->
  fst (check_stock product_id w) = fst (check_stock product_id w').
Proof.
  intros H. unfold check_stock, bind, rc.hget, raise, ret. simpl. rewrite <- H.
  destruct (db w !! ("product:" ++ product_id)) as [[s|h|l|scored]|]; try done.
  destruct (h !! "stock") as [s|]; [|done].
  destruct (Py.truthy s); [|done]. by destruct (Py.int s).
Qed.

(** [check_stock] reads the integer the store itself would read. *)
Lemma check_stock_reads product_id w h old :
  hash_at w ("product:" ++ product_id) = Some h ->
  match h !! "stock" with
  | None => old = 0
  | Some s => string2ll s = Some old
  end ->
  fst (check_stock product_id w) = Return old.
Proof.
  unfold hash_at, check_stock, bind, rc.hget, raise, ret. simpl.
  destruct (db w !! ("product:" ++ product_id)) as [[s|h'|l|scored]|]; try done.
  - intros [= ->]. destruct (h !! "stock") as [s|]; [|by intros ->].
    intros Hs. pose proof (PyFacts.string2ll_canonical s old Hs) as [-> _].
    by rewrite PyFacts.str_int_truthy, PyFacts.int_str_int.
  - intros [= <-]. rewrite lookup_empty. by intros ->.
Qed.

(** [rc.hincrby] either raises and changes nothing, or adds to the
    integer the field stands for. *)
Lemma hincrby_cases key field amount w :
  (exists e, rc.hincrby key field amount w
             = (Raise e, sent (HINCRBY key field amount) w))
  \/ (exists h old,
        hash_at w key = Some h
        /\ match h !! field with
           | None => old = 0
           | Some s => string2ll s = Some old
           end
        /\ in_int64 (old + amount) = true
        /\ rc.hincrby key field amount w
           = (Return (old + amount),
              with_db (<[key := RHash (<[field := Py.str_int (old + amount)]> h)]> (db w))
                (sent (HINCRBY key field amount) w))).
Proof.
  unfold rc.hincrby, hash_at. simpl.
  destruct (in_int64 amount); simpl; [|eauto].
  destruct (db w !! key) as [[s|h|l|scored]|]; [eauto| |eauto|eauto|].
  - destruct (h !! field) as [s|] eqn:Hf.
    + destruct (string2ll s) as [old|] eqn:Hs; [|eauto].
      destruct (in_int64 (old + amount)) eqn:Hr; [|eauto].
      right. exists h, old. by rewrite Hf.
    + destruct (in_int64 (0 + amount)) eqn:Hr; [|eauto].
      right. exists h, 0. by rewrite Hf.
  - destruct (in_int64 (0 + amount)) eqn:Hr; [|eauto].
    right. exists ∅, 0. by rewrite lookup_empty.
Qed.

(** The critical section of [reserve_stock], run in any state. *)
Lemma critical_section_run product_id quantity w :
  let section :=
    (current_stock <- check_stock product_id ;;
     if quantity <=? current_stock then
       rc.hincrby ("product:" ++ product_id) "stock" (- quantity) ;;
       ret true
     else ret false) w in
  ttl (snd section) = ttl w
  /\ (exists between, wire (snd section) = (wire w ++ between)%list)
  /\ (forall key, key <> "product:" ++ product_id ->
        db (snd section) !! key = db w !! key)
  /\ (fst section = Return false -> db (snd section) = db w)
  /\ (fst section = Return true ->
      exists current_stock,
        fst (check_stock product_id w) = Return current_stock
        /\ quantity <= current_stock
        /\ fst (check_stock product_id (snd section))
           = Return (current_stock - quantity)).
Proof.
  intros section.
  set (pkey := "product:" ++ product_id) in *.
  set (w1 := sent (HGET pkey "stock") w).
  assert (section
          = match fst (check_stock product_id w) with
            | Return current_stock =>
                if quantity <=? current_stock
                then match rc.hincrby pkey "stock" (- quantity) w1 with
                     | (Return _, w2) => (Return true, w2)
                     | (Raise e, w2) => (Raise e, w2)
                     end
                else (Return false, w1)
            | Raise e => (Raise e, w1)
            end) as Hsection.
  { subst section. unfold bind.
    rewrite (surjective_pairing (check_stock product_id w)), check_stock_wire.
    fold pkey w1. destruct (fst (check_stock product_id w)) as [current|e]; [|done].
    simpl. destruct (quantity <=? current); [|done].
    by destruct (rc.hincrby pkey "stock" (- quantity) w1) as [[?|?] ?]. }
  clearbody section. subst section.
  destruct (fst (check_stock product_id w)) as [current|e] eqn:Hcur.
  - destruct (Z.leb_spec quantity current) as [Hq|Hq].
    + destruct (hincrby_cases pkey "stock" (- quantity) w1)
        as [[e ->]|(h & old & Hh & Hold & Hroom & ->)]; subst w1; simpl.
      * split; [done|]. split; [eexists [_; _]; by rewrite <- app_assoc|].
        repeat split; done.
      * assert (current = old) as ->.
        { pose proof (check_stock_reads product_id w h old Hh Hold) as Hr.
          rewrite Hcur in Hr. by injection Hr. }
        split; [done|]. split; [eexists [_; _]; by rewrite <- app_assoc|].
        split; [intros key Hk; by rewrite lookup_insert_ne|].
        split; [done|]. intros _. exists old. split; [done|]. split; [done|].
        apply (check_stock_reads _ _ (<["stock" := Py.str_int (old + - quantity)]> h)).
        -- unfold hash_at. simpl. fold pkey. by rewrite lookup_insert_eq.
        -- rewrite lookup_insert_eq. by apply PyFacts.string2ll_str_int.
    + subst w1. simpl. split; [done|]. split; [by eexists [_]|]. repeat split; done.
  - subst w1. simpl. split; [done|]. split; [by eexists [_]|]. repeat split; done.
Qed.

(** C4.  [reserve_stock] takes the lock with an expiry, runs its critical
    section and releases the lock whatever the section did.  When the
    lock key is free, it is set and, on every path out of the call, a
    return or an exception, the last command sent is its deletion and
    the key is gone; when the lock is taken the call returns [False] at
    once.  The call returns [True] only when the lock was acquired and
    the stock read by [check_stock] is at least [quantity], and the stock
    read after the call is then that stock minus [quantity]; when it
    returns [False] the keys of the store, the stock field among them,
    are as they were. *)
Theorem reserve_stock_lock_pattern (product_id : string) (quantity : Z) (w : cluster) :
  let lock_key := "lock:stock:" ++ product_id in
  let run := reserve_stock product_id quantity w in
  (db w !! lock_key = None ->
     db (snd run) !! lock_key = None
     /\ ttl (snd run) !! lock_key = None
     /\ exists between,
          wire (snd run)
          = (wire w ++ [SET_NX_EX lock_key "locked" 5] ++ between ++ [DEL lock_key])%list)
  /\ (is_Some (db w !! lock_key) ->
      run = (Return false, sent (SET_NX_EX lock_key "locked" 5) w))
  /\ (fst run = Return true ->
      db w !! lock_key = None
      /\ exists current_stock,
           fst (check_stock product_id w) = Return current_stock
           /\ quantity <= current_stock
           /\ fst (check_stock product_id (snd run))
              = Return (current_stock - quantity))
  /\ (fst run = Return false ->
      db (snd run) = db w
      /\ stock_field (snd run) product_id = stock_field w product_id
      /\ fst (check_stock product_id (snd run)) = fst (check_stock product_id w)).
Proof.
  intros lock_key run.
  pose proof (lock_key_not_product product_id product_id) as Hne. fold lock_key in Hne.
  destruct (db w !! lock_key) as [held|] eqn:Hlock.
  - assert (run = (Return false, sent (SET_NX_EX lock_key "locked" 5) w)) as ->.
    { subst run. unfold reserve_stock, bind, rc.set_nx_ex. simpl.
      fold lock_key. by rewrite Hlock. }
    simpl. split; [done|]. split; [done|]. split; [done|]. intros _.
    split; [done|]. split; [done|]. by apply check_stock_same_product.
  - set (w1 := with_ttl (<[lock_key := 5]> (ttl w))
                 (with_db (<[lock_key := RString "locked"]> (db w))
                    (sent (SET_NX_EX lock_key "locked" 5) w))).
    pose proof (critical_section_run product_id quantity w1)
      as (Httl & [between Hwire] & Hother & Hfalse & Htrue).
    simpl in Httl, Hwire, Hother, Hfalse, Htrue.
    set (section :=
           (current_stock <- check_stock product_id ;;
            if quantity <=? current_stock then
              rc.hincrby ("product:" ++ product_id) "stock" (- quantity) ;;
              ret true
            else ret false) w1) in *.
    assert (db (snd section) !! lock_key = Some (RString "locked")) as Hheld.
    { rewrite Hother by done. subst w1. simpl. by rewrite lookup_insert_eq. }
    set (w2 := sent (DEL lock_key) (snd section)).
    assert (run = (fst section,
                   with_ttl (base.delete lock_key (ttl w2))
                     (with_db (base.delete lock_key (db w2)) w2))) as ->.
    { subst run. unfold reserve_stock. fold lock_key.
      unfold bind at 1. unfold rc.set_nx_ex. simpl. rewrite Hlock. fold w1.
      unfold try_finally. fold section. destruct section as [r ws]. simpl in *.
      unfold bind, rc.delete, ret. simpl. by rewrite Hheld. }
    simpl. split; [|split; [|split]].
    + intros _. split; [apply lookup_delete_eq|]. split; [apply lookup_delete_eq|].
      exists between. rewrite Hwire. subst w1. simpl.
      by rewrite <- !app_assoc.
    + by intros [? ?].
    + intros Hr. split; [done|].
      destruct (Htrue Hr) as (current & Hcur & Hq & Hnew). exists current.
      split; [|split; [done|]].
      * rewrite <- Hcur. apply check_stock_same_product.
        subst w1. simpl. by rewrite lookup_insert_ne.
      * rewrite <- Hnew. apply check_stock_same_product.
        simpl. by rewrite lookup_delete_ne.
    + intros Hr.
      assert (base.delete lock_key (db (snd section)) = db w) as Hdb.
      { rewrite (Hfalse Hr). subst w1. simpl. by apply delete_insert_id. }
      split; [done|]. split.
      * unfold stock_field. simpl. by rewrite Hdb.
      * apply check_stock_same_product. simpl. by rewrite Hdb.
Qed.

(** On the store of the demonstration, two of the fifty units of P001
    are reserved and the lock is gone afterwards. *)
Example reserve_stock_example :
  let product : gmap string string := list_to_map [("name", "iPhone 15 Pro"); ("stock", "50")] in
  let w := Cluster (<["product:P001" := RHash product]> ∅) ∅ [] ∅ [] [] None in
  let run := reserve_stock "P001" 2 w in
  fst run = Return true
  /\ stock_field (snd run) "P001" = Some "48"
  /\ db (snd run) !! "lock:stock:P001" = None
  /\ wire (snd run)
     = [SET_NX_EX "lock:stock:P001" "locked" 5; HGET "product:P001" "stock";
        HINCRBY "product:P001" "stock" (-2); DEL "lock:stock:P001"]
  /\ fst (reserve_stock "P001" 51 w) = Return false
  /\ stock_field (snd (reserve_stock "P001" 51 w)) "P001" = Some "50".
Proof. repeat split; reflexivity. Qed.


(** * Further properties *)

(** ** Keys of different things never coincide *)

Lemma key_prefix_inj (prefix a b : string) : prefix ++ a = prefix ++ b -> a = b.
Proof.
  induction prefix as [|c prefix IH]; [done|].
  intros H. apply IH. by injection H.
Qed.

(** What a read answers depends on the key it reads alone. *)
Lemma hgetall_same_key key w w' :
  db w !! key = db w' !! key -> fst (rc.hgetall key w) = fst (rc.hgetall key w').
Proof.
  intros H. unfold rc.hgetall. simpl. rewrite H.
  by destruct (db w' !! key) as [[s|h|l|scored]|].
Qed.

(** One more call in front of [k] calls. *)
Lemma call_times_step {A} (k : nat) (call : M A) w a w1 rs w2 :
  call w = (Return a, w1) ->
  call_times k call w1 = (Return rs, w2) ->
  call_times (S k) call w = (Return (a :: rs), w2).
Proof.
  intros H1 H2. cbn [call_times]. unfold bind at 1. rewrite H1.
  unfold bind. by rewrite H2.
Qed.

(** ** The cart *)

Lemma add_to_cart_state user_id product_id quantity h w :
  hash_at w ("cart:" ++ user_id) = Some h ->
  let w' := snd (add_to_cart user_id product_id quantity w) in
  db w' = <["cart:" ++ user_id := RHash (<[product_id := Py.str_int quantity]> h)]> (db w)
  /\ ttl w' = <["cart:" ++ user_id := 604800]> (ttl w).
Proof.
  intros Hh. unfold add_to_cart, bind, rc.hset, rc.expire, print, hash_at in *.
  destruct (decide ({[product_id := Py.str_int quantity]} = (∅ : gmap string string)))
    as [He|_].
  { apply (f_equal (fun m => m !! product_id)) in He.
    by rewrite lookup_singleton_eq, lookup_empty in He. }
  simpl. destruct (db w !! ("cart:" ++ user_id)) as [[s|h'|l|scored]|] eqn:Hk; try done.
  - injection Hh as ->. simpl. rewrite !lookup_insert_eq. simpl.
    by rewrite <- insert_union_singleton_l.
  - injection Hh as <-. simpl. rewrite !lookup_insert_eq. simpl.
    by rewrite insert_empty.
Qed.

(** X1.  An item put in the cart is read back: after
    [add_to_cart(user, product, quantity)] on a cart that is absent or a
    hash, [get_cart(user)] is the cart as it was with [product] bound to
    [str(quantity)]; the cart expires in seven days; the carts of the
    other users read as before.  Quantities are not added up: putting
    the same product in again replaces its quantity. *)
Theorem cart_add_then_get (user_id product_id : string) (quantity : Z)
    (h : gmap string string) (w : cluster) :
  hash_at w ("cart:" ++ user_id) = Some h ->
  let w' := snd (add_to_cart user_id product_id quantity w) in
  fst (add_to_cart user_id product_id quantity w) = Return tt
  /\ fst (get_cart user_id w') = Return (<[product_id := Py.str_int quantity]> h)
  /\ ttl w' !! ("cart:" ++ user_id) = Some (7 * 24 * 3600)
  /\ (forall other, other <> user_id ->
        fst (get_cart other w') = fst (get_cart other w))
  /\ (forall again,
        fst (get_cart user_id (snd (add_to_cart user_id product_id again w')))
        = Return (<[product_id := Py.str_int again]> h)).
Proof.
  intros Hh w'.
  destruct (add_to_cart_run user_id product_id quantity h w Hh) as (Hr & Hcart & _).
  destruct (add_to_cart_state user_id product_id quantity h w Hh) as (Hdb & Httl).
  split; [done|]. split; [by apply hgetall_hash_at|]. split; [|split].
  - subst w'. rewrite Httl. by rewrite lookup_insert_eq.
  - intros other Hne. apply hgetall_same_key. subst w'. rewrite Hdb.
    apply lookup_insert_ne. intros Heq. apply Hne. symmetry.
    by apply (key_prefix_inj "cart:").
  - intros again.
    destruct (add_to_cart_run user_id product_id again _ w' Hcart) as (_ & Hagain & _).
    apply hgetall_hash_at. by rewrite Hagain, insert_insert_eq.
Qed.

Lemma cart_add_then_get_witness :
  let w := Cluster ∅ ∅ [] ∅ [] [] None in
  hash_at w ("cart:" ++ "U12345") = Some ∅
  /\ fst (get_cart "U12345" (snd (add_to_cart "U12345" "P001" 2 w)))
     = Return {["P001" := "2"]}.
Proof.
  intros w. split; [reflexivity|].
  destruct (cart_add_then_get "U12345" "P001" 2 ∅ w eq_refl) as (_ & Hget & _).
  exact Hget.
Defined.

(** [remove_from_cart] on a cart that is absent or a hash. *)
Lemma remove_from_cart_state user_id product_id h w :
  hash_at w ("cart:" ++ user_id) = Some h ->
  let w' := snd (remove_from_cart user_id product_id w) in
  fst (remove_from_cart user_id product_id w) = Return tt
  /\ hash_at w' ("cart:" ++ user_id) = Some (base.delete product_id h)
  /\ (forall key, key <> "cart:" ++ user_id -> db w' !! key = db w !! key)
  /\ (is_Some (h !! product_id) -> base.delete product_id h = ∅ ->
      db w' !! ("cart:" ++ user_id) = None)
  /\ (h !! product_id = None -> db w' = db w /\ ttl w' = ttl w)
  /\ (forall key, key <> "cart:" ++ user_id -> ttl w' !! key = ttl w !! key)
  /\ (base.delete product_id h <> ∅ -> ttl w' = ttl w)
  /\ wire w' = (wire w ++ [HDEL ("cart:" ++ user_id) product_id])%list
  /\ console w' = console w.
Proof.
  intros Hh. unfold remove_from_cart, bind, rc.hdel, ret, hash_at in *. simpl.
  destruct (db w !! ("cart:" ++ user_id)) as [[s|h'|l|scored]|] eqn:Hk; try done.
  - injection Hh as ->. destruct (h !! product_id) as [v|] eqn:Hp.
    + destruct (decide (base.delete product_id h = ∅)) as [He|He]; simpl.
      * rewrite lookup_delete_eq, He. split; [done|]. split; [done|].
        split; [intros key Hne; by rewrite lookup_delete_ne|].
        split; [done|]. split; [done|].
        split; [intros key Hne; by rewrite lookup_delete_ne|done].
      * rewrite lookup_insert_eq. split; [done|]. split; [done|].
        split; [intros key Hne; by rewrite lookup_insert_ne|]. done.
    + simpl. rewrite Hk. rewrite delete_id by done.
      split; [done|]. split; [done|]. split; [done|].
      split; [by intros [? ?]|done].
  - injection Hh as <-. simpl. rewrite Hk. rewrite delete_empty.
    split; [done|]. split; [done|]. split; [done|].
    split; [intros [? Hx]; by rewrite lookup_empty in Hx|done].
Qed.

(** X2.  [remove_from_cart] takes out the one item and nothing else:
    the call returns and the cart read afterwards is the cart without
    [product]; every other key holds what it held and expires as it did;
    HDEL on the cart is the one command sent and nothing is printed; the
    expiry of the cart stays while the cart has an item left; removing
    an item that is not
    in the cart changes no key and no expiry; when the item was the last
    one the cart key itself is gone; and an item that was not in the
    cart, once added and removed, leaves the cart as it was. *)
Theorem cart_remove (user_id product_id : string) (quantity : Z)
    (h : gmap string string) (w : cluster) :
  hash_at w ("cart:" ++ user_id) = Some h ->
  let removed := snd (remove_from_cart user_id product_id w) in
  let added := snd (add_to_cart user_id product_id quantity w) in
  fst (remove_from_cart user_id product_id w) = Return tt
  /\ fst (get_cart user_id removed) = Return (base.delete product_id h)
  /\ (forall key, key <> "cart:" ++ user_id ->
        db removed !! key = db w !! key /\ ttl removed !! key = ttl w !! key)
  /\ wire removed = (wire w ++ [HDEL ("cart:" ++ user_id) product_id])%list
  /\ console removed = console w
  /\ (base.delete product_id h <> ∅ -> ttl removed = ttl w)
  /\ (h !! product_id = None -> db removed = db w /\ ttl removed = ttl w)
  /\ (is_Some (h !! product_id) -> base.delete product_id h = ∅ ->
      db removed !! ("cart:" ++ user_id) = None)
  /\ (h !! product_id = None ->
      fst (get_cart user_id (snd (remove_from_cart user_id product_id added)))
      = Return h).
Proof.
  intros Hh removed added.
  destruct (remove_from_cart_state user_id product_id h w Hh)
    as (Hr & Hcart & Hother & Hlast & Hnoop & Hexpiry & Hkept & Hwire & Hconsole).
  split; [done|]. split; [by apply hgetall_hash_at|].
  split; [intros key Hne; split; [by apply Hother | by apply Hexpiry]|].
  split; [done|]. split; [done|].
  split; [done|]. split; [done|]. split; [done|].
  intros Hp.
  destruct (add_to_cart_run user_id product_id quantity h w Hh) as (_ & Hadded & _).
  destruct (remove_from_cart_state user_id product_id _ added Hadded)
    as (_ & Hback & _).
  apply hgetall_hash_at. rewrite Hback. f_equal.
  rewrite delete_insert_eq. by apply delete_id.
Qed.

Lemma cart_remove_witness :
  let w := Cluster (<["cart:U12345" := RHash {["P003" := "1"]}]>
                      (<["views:U12345" := RList ["P003"; "P001"]]> ∅))
                   (<["cart:U12345" := 604800]> ∅) [] ∅ [] [] None in
  let removed := snd (remove_from_cart "U12345" "P003" w) in
  hash_at w ("cart:" ++ "U12345") = Some {["P003" := "1"]}
  /\ fst (get_cart "U12345" removed) = Return ∅
  /\ db removed !! "cart:U12345" = None
  /\ db removed !! "views:U12345" = Some (RList ["P003"; "P001"])
  /\ wire removed = [HDEL "cart:U12345" "P003"].
Proof.
  intros w removed.
  assert (hash_at w ("cart:" ++ "U12345") = Some {["P003" := "1"]}) as Hcart.
  { unfold hash_at, w. cbn [db]. by rewrite lookup_insert_eq. }
  split; [exact Hcart|].
  destruct (cart_remove "U12345" "P003" 1 {["P003" := "1"]} w Hcart)
    as (_ & Hget & Hother & Hwire & _ & _ & _ & Hlast & _).
  split; [exact Hget|]. split; [|split].
  - apply Hlast; [by eexists|]. apply delete_singleton_eq.
  - destruct (Hother "views:U12345") as [Hviews _]; [discriminate|].
    unfold removed. rewrite Hviews. unfold w. cbn [db]. rewrite lookup_insert_ne by discriminate.
    by rewrite lookup_insert_eq.
  - exact Hwire.
Defined.

(** ** The catalogue: records, views and stock *)

Lemma in_int64_spec z : in_int64 z = true <-> - 2 ^ 63 <= z < 2 ^ 63.
Proof.
  unfold in_int64. rewrite andb_true_iff, Z.leb_le, Z.ltb_lt. reflexivity.
Qed.

Lemma product_key_inj a b : "product:" ++ a = "product:" ++ b -> a = b.
Proof. apply (key_prefix_inj "product:"). Qed.

(** [add_product] on a key that is absent or a hash. *)
Lemma add_product_state float str_float now product_id name price stock category h w :
  hash_at w ("product:" ++ product_id) = Some h ->
  let run := add_product float str_float now product_id name price stock category w in
  fst run = Return tt
  /\ db (snd run)
     = <["product:" ++ product_id
         := RHash (product_mapping float str_float now name price stock category ∪ h)]>
         (db w)
  /\ ttl (snd run) = ttl w.
Proof.
  intros Hh. unfold add_product, bind, rc.hset, print, hash_at in *.
  destruct (decide (product_mapping float str_float now name price stock category = ∅))
    as [He|_]; [by apply product_mapping_nonempty in He|].
  simpl. destruct (db w !! ("product:" ++ product_id)) as [[s|h'|l|scored]|] eqn:Hk; try done.
  - by injection Hh as ->.
  - injection Hh as <-. simpl. by rewrite (right_id_L ∅ (∪)).
Qed.

Lemma check_stock_of_hash product_id w h :
  hash_at w ("product:" ++ product_id) = Some h ->
  fst (check_stock product_id w)
  = match h !! "stock" with
    | None => Return 0
    | Some s =>
        if Py.truthy s
        then match Py.int s with
             | Some n => Return n
             | None => Raise (ValueError ("invalid literal for int() with base 10: " ++ s))
             end
        else Return 0
    end.
Proof.
  unfold hash_at, check_stock, bind, rc.hget, raise, ret. simpl.
  destruct (db w !! ("product:" ++ product_id)) as [[s|h'|l|scored]|]; try done.
  - intros [= ->]. destruct (h !! "stock") as [s|]; [|done].
    destruct (Py.truthy s); [|done]. by destruct (Py.int s).
  - by intros [= <-].
Qed.

(** X3.  The stock given to [add_product] is the stock [check_stock]
    reads afterwards, for every integer that [str] and [int] convert,
    which are those of [Py.int_max_str_digits], 4300, decimal digits at
    most: [int(str(stock))] is [stock].  A product that was never added has stock 0, and adding
    one product leaves what [check_stock] answers for the others as it
    was. *)
Theorem add_product_then_check_stock (float : Type) (str_float : float -> string)
    (datetime_now_isoformat : string) (product_id name : string) (price : float)
    (stock : Z) (category : string) (h : gmap string string) (w : cluster) :
  hash_at w ("product:" ++ product_id) = Some h ->
  (String.length (Py.str_int (Z.abs stock)) <= Py.int_max_str_digits)%nat ->
  let w' := snd (add_product float str_float datetime_now_isoformat
                   product_id name price stock category w) in
  fst (check_stock product_id w') = Return stock
  /\ (db w !! ("product:" ++ product_id) = None ->
      fst (check_stock product_id w) = Return 0)
  /\ (forall other, other <> product_id ->
        fst (check_stock other w') = fst (check_stock other w)).
Proof.
  intros Hh _ w'.
  destruct (add_product_state float str_float datetime_now_isoformat
              product_id name price stock category h w Hh) as (_ & Hdb & _).
  fold w' in Hdb. split; [|split].
  - rewrite (check_stock_of_hash product_id w'
               (product_mapping float str_float datetime_now_isoformat
                  name price stock category ∪ h)).
    + rewrite (union_keeps_written _ _ "stock" (Py.str_int stock)) by reflexivity.
      by rewrite PyFacts.str_int_truthy, PyFacts.int_str_int.
    + unfold hash_at. by rewrite Hdb, lookup_insert_eq.
  - intros Hk. rewrite (check_stock_of_hash product_id w ∅); [done|].
    unfold hash_at. by rewrite Hk.
  - intros other Hne. apply check_stock_same_product. rewrite Hdb.
    apply lookup_insert_ne. intros Heq. apply Hne. symmetry.
    by apply product_key_inj.
Qed.

Lemma add_product_then_check_stock_witness :
  let w := Cluster ∅ ∅ [] ∅ [] [] None in
  hash_at w ("product:" ++ "P001") = Some ∅
  /\ (String.length (Py.str_int (Z.abs 50)) <= Py.int_max_str_digits)%nat
  /\ fst (check_stock "P001"
            (snd (add_product unit (fun _ => "999.0") "2024-12-05T10:00:00"
                    "P001" "iPhone 15 Pro" tt 50 "Electronics" w)))
     = Return 50.
Proof.
  intros w.
  assert (String.length (Py.str_int (Z.abs 50)) <= Py.int_max_str_digits)%nat
    as Hdigits.
  { apply Nat.leb_le. reflexivity. }
  split; [reflexivity|]. split; [exact Hdigits|].
  destruct (add_product_then_check_stock unit (fun _ => "999.0") "2024-12-05T10:00:00"
              "P001" "iPhone 15 Pro" tt 50 "Electronics" ∅ w eq_refl Hdigits)
    as (Hs & _).
  exact Hs.
Defined.

(** [rc.hincrby] on a field that is absent or holds an integer. *)
Lemma hincrby_run key field amount h old w :
  hash_at w key = Some h ->
  match h !! field with
  | None => old = 0
  | Some s => string2ll s = Some old
  end ->
  in_int64 amount = true ->
  in_int64 (old + amount) = true ->
  rc.hincrby key field amount w
  = (Return (old + amount),
     with_db (<[key := RHash (<[field := Py.str_int (old + amount)]> h)]> (db w))
       (sent (HINCRBY key field amount) w)).
Proof.
  intros Hh Hold Ha Hr. unfold rc.hincrby, hash_at in *. simpl. rewrite Ha. simpl.
  destruct (db w !! key) as [[s|h'|l|scored]|]; try done.
  - injection Hh as ->. destruct (h !! field) as [s|].
    + by rewrite Hold, Hr.
    + subst old. by rewrite Hr.
  - injection Hh as <-. rewrite lookup_empty in Hold. subst old. by rewrite Hr.
Qed.

Lemma increment_product_views_run product_id h n w :
  hash_at w ("product:" ++ product_id) = Some h ->
  match h !! "views" with
  | None => n = 0
  | Some s => string2ll s = Some n
  end ->
  in_int64 (n + 1) = true ->
  increment_product_views product_id w
  = (Return tt,
     with_db (<["product:" ++ product_id
                := RHash (<["views" := Py.str_int (n + 1)]> h)]> (db w))
       (sent (HINCRBY ("product:" ++ product_id) "views" 1) w)).
Proof.
  intros Hh Hn Hr. unfold increment_product_views, bind, ret.
  by rewrite (hincrby_run ("product:" ++ product_id) "views" 1 h n w Hh Hn eq_refl Hr).
Qed.

(** X4.  [increment_product_views] adds one to the view counter of the
    record and touches no other field and no other key.  It does not
    ask whether the product exists: for a product that was never added
    it creates a record whose only field is ["views"], equal to 1, and
    whose stock reads 0. *)
Theorem increment_product_views_adds_one (product_id : string)
    (h : gmap string string) (n : Z) (w : cluster) :
  hash_at w ("product:" ++ product_id) = Some h ->
  match h !! "views" with
  | None => n = 0
  | Some s => string2ll s = Some n
  end ->
  in_int64 (n + 1) = true ->
  let w' := snd (increment_product_views product_id w) in
  fst (increment_product_views product_id w) = Return tt
  /\ fst (get_product product_id w') = Return (<["views" := Py.str_int (n + 1)]> h)
  /\ (forall key, key <> "product:" ++ product_id -> db w' !! key = db w !! key)
  /\ (db w !! ("product:" ++ product_id) = None ->
      fst (get_product product_id w') = Return {["views" := "1"]}
      /\ fst (check_stock product_id w') = Return 0).
Proof.
  intros Hh Hn Hr w'. subst w'.
  rewrite (increment_product_views_run product_id h n w Hh Hn Hr). simpl.
  assert (hash_at
            (with_db (<["product:" ++ product_id
                       := RHash (<["views" := Py.str_int (n + 1)]> h)]> (db w))
               (sent (HINCRBY ("product:" ++ product_id) "views" 1) w))
            ("product:" ++ product_id)
          = Some (<["views" := Py.str_int (n + 1)]> h)) as Hafter.
  { unfold hash_at. simpl. by rewrite lookup_insert_eq. }
  split; [done|]. split; [by apply hgetall_hash_at|].
  split; [intros key Hne; by rewrite lookup_insert_ne|].
  intros Hk. unfold hash_at in Hh. rewrite Hk in Hh. injection Hh as <-.
  rewrite lookup_empty in Hn. subst n. split.
  - unfold get_product. rewrite (hgetall_hash_at _ _ _ Hafter).
    by rewrite insert_empty.
  - by rewrite (check_stock_of_hash _ _ _ Hafter).
Qed.

Lemma increment_product_views_adds_one_witness :
  let w := Cluster ∅ ∅ [] ∅ [] [] None in
  hash_at w ("product:" ++ "P009") = Some ∅
  /\ in_int64 (0 + 1) = true
  /\ fst (get_product "P009" (snd (increment_product_views "P009" w)))
     = Return {["views" := "1"]}.
Proof.
  intros w. split; [reflexivity|]. split; [reflexivity|].
  destruct (increment_product_views_adds_one "P009" ∅ 0 w eq_refl eq_refl eq_refl)
    as (_ & _ & _ & Hnew).
  by apply Hnew.
Defined.

(** [k] visits in a row add [k] to the counter. *)
Lemma increment_views_times product_id (k : nat) : forall h n w,
  hash_at w ("product:" ++ product_id) = Some h ->
  h !! "views" = Some (Py.str_int n) ->
  in_int64 n = true ->
  in_int64 (n + Z.of_nat k) = true ->
  let visits := call_times k (increment_product_views product_id) w in
  fst visits = Return (replicate k tt)
  /\ hash_at (snd visits) ("product:" ++ product_id)
     = Some (<["views" := Py.str_int (n + Z.of_nat k)]> h).
Proof.
  induction k as [|k IH]; intros h n w Hh Hv Hn Hk.
  - simpl. split; [done|]. rewrite Z.add_0_r, insert_id; done.
  - apply in_int64_spec in Hn, Hk.
    assert (in_int64 (n + 1) = true) as H1 by (apply in_int64_spec; lia).
    assert (match h !! "views" with
            | None => n = 0
            | Some s => string2ll s = Some n
            end) as Hold.
    { rewrite Hv. apply PyFacts.string2ll_str_int. by apply in_int64_spec. }
    pose proof (increment_product_views_run product_id h n w Hh Hold H1) as Hrun.
    set (w1 := with_db (<["product:" ++ product_id
                          := RHash (<["views" := Py.str_int (n + 1)]> h)]> (db w))
                 (sent (HINCRBY ("product:" ++ product_id) "views" 1) w)) in *.
    destruct (IH (<["views" := Py.str_int (n + 1)]> h) (n + 1) w1) as (Hr & Hafter).
    + unfold hash_at. simpl. by rewrite lookup_insert_eq.
    + by rewrite lookup_insert_eq.
    + done.
    + apply in_int64_spec. lia.
    + destruct (call_times k (increment_product_views product_id) w1)
        as [r w2] eqn:Hrest.
      simpl in Hr, Hafter. subst r.
      rewrite (call_times_step k _ w tt w1 _ w2 Hrun Hrest). simpl.
      split; [done|].
      rewrite Hafter, insert_insert_eq. do 3 f_equal. lia.
Qed.

(** X5.  The view counter counts: after [add_product], which writes
    ["views"] as "0", and [k] calls of [increment_product_views], the
    record read by [get_product] is the one written with ["views"] equal
    to [str(k)]. *)
Theorem views_after_k_visits (float : Type) (str_float : float -> string)
    (datetime_now_isoformat : string) (product_id name : string) (price : float)
    (stock : Z) (category : string) (h : gmap string string) (k : nat) (w : cluster) :
  hash_at w ("product:" ++ product_id) = Some h ->
  Z.of_nat k < 2 ^ 63 ->
  let written :=
    product_mapping float str_float datetime_now_isoformat name price stock category in
  let w1 := snd (add_product float str_float datetime_now_isoformat
                   product_id name price stock category w) in
  let visits := call_times k (increment_product_views product_id) w1 in
  fst visits = Return (replicate k tt)
  /\ fst (get_product product_id (snd visits))
     = Return (<["views" := Py.str_int (Z.of_nat k)]> (written ∪ h)).
Proof.
  intros Hh Hk written w1 visits.
  destruct (add_product_state float str_float datetime_now_isoformat
              product_id name price stock category h w Hh) as (_ & Hdb & _).
  fold w1 written in Hdb.
  destruct (increment_views_times product_id k (written ∪ h) 0 w1) as (Hr & Hafter).
  - unfold hash_at. by rewrite Hdb, lookup_insert_eq.
  - by apply union_keeps_written.
  - reflexivity.
  - apply in_int64_spec. lia.
  - split; [done|]. by apply hgetall_hash_at.
Qed.

Lemma views_after_k_visits_witness :
  let w := Cluster ∅ ∅ [] ∅ [] [] None in
  let w1 := snd (add_product unit (fun _ => "999.0") "2024-12-05T10:00:00"
                   "P001" "iPhone 15 Pro" tt 50 "Electronics" w) in
  hash_at w ("product:" ++ "P001") = Some ∅
  /\ Z.of_nat 3 < 2 ^ 63
  /\ fst (call_times 3 (increment_product_views "P001") w1) = Return [tt; tt; tt].
Proof.
  intros w w1. split; [reflexivity|]. split; [reflexivity|].
  destruct (views_after_k_visits unit (fun _ => "999.0") "2024-12-05T10:00:00"
              "P001" "iPhone 15 Pro" tt 50 "Electronics" ∅ 3 w eq_refl eq_refl)
    as (Hr & _).
  exact Hr.
Defined.

(** ** Reservations *)

Lemma call_each_step {A B} (x : A) (xs : list A) (call : A -> M B) w b w1 bs w2 :
  call x w = (Return b, w1) ->
  call_each xs call w1 = (Return bs, w2) ->
  call_each (x :: xs) call w = (Return (b :: bs), w2).
Proof.
  intros H1 H2. cbn [call_each]. unfold bind at 1. rewrite H1.
  unfold bind. by rewrite H2.
Qed.

(** The critical section on a stock field that is absent or holds an
    integer. *)
Lemma critical_section_exact product_id quantity h old w :
  hash_at w ("product:" ++ product_id) = Some h ->
  match h !! "stock" with
  | None => old = 0
  | Some s => string2ll s = Some old
  end ->
  (quantity <= old -> in_int64 (- quantity) = true /\ in_int64 (old - quantity) = true) ->
  (current_stock <- check_stock product_id ;;
   if quantity <=? current_stock then
     rc.hincrby ("product:" ++ product_id) "stock" (- quantity) ;;
     ret true
   else ret false) w
  = if quantity <=? old
    then (Return true,
          with_db (<["product:" ++ product_id
                     := RHash (<["stock" := Py.str_int (old - quantity)]> h)]> (db w))
            (sent (HINCRBY ("product:" ++ product_id) "stock" (- quantity))
               (sent (HGET ("product:" ++ product_id) "stock") w)))
    else (Return false, sent (HGET ("product:" ++ product_id) "stock") w).
Proof.
  intros Hh Hold Hroom. unfold bind at 1.
  rewrite (surjective_pairing (check_stock product_id w)), check_stock_wire,
    (check_stock_reads product_id w h old Hh Hold).
  destruct (Z.leb_spec quantity old) as [Hq|Hq]; [|done].
  destruct (Hroom Hq) as [Ha Hr]. unfold bind, ret.
  by rewrite (hincrby_run ("product:" ++ product_id) "stock" (- quantity) h old
                (sent (HGET ("product:" ++ product_id) "stock") w) Hh Hold Ha Hr).
Qed.

(** With the lock free, [reserve_stock] is its critical section and the
    release of the lock, run with the lock held. *)
Lemma reserve_stock_lock_free product_id quantity w :
  db w !! ("lock:stock:" ++ product_id) = None ->
  reserve_stock product_id quantity w
  = try_finally
      (current_stock <- check_stock product_id ;;
       if quantity <=? current_stock then
         rc.hincrby ("product:" ++ product_id) "stock" (- quantity) ;;
         ret true
       else ret false)
      (rc.delete ("lock:stock:" ++ product_id) ;; ret tt)
      (with_ttl (<["lock:stock:" ++ product_id := 5]> (ttl w))
         (with_db (<["lock:stock:" ++ product_id := RString "locked"]> (db w))
            (sent (SET_NX_EX ("lock:stock:" ++ product_id) "locked" 5) w))).
Proof.
  intros Hlock. unfold reserve_stock. unfold bind at 1.
  unfold rc.set_nx_ex. simpl. by rewrite Hlock.
Qed.

(** [reserve_stock] with the lock free. *)
Lemma reserve_stock_run product_id quantity h old w :
  db w !! ("lock:stock:" ++ product_id) = None ->
  hash_at w ("product:" ++ product_id) = Some h ->
  match h !! "stock" with
  | None => old = 0
  | Some s => string2ll s = Some old
  end ->
  (quantity <= old -> in_int64 (- quantity) = true /\ in_int64 (old - quantity) = true) ->
  let run := reserve_stock product_id quantity w in
  fst run = Return (quantity <=? old)
  /\ db (snd run)
     = if quantity <=? old
       then <["product:" ++ product_id
              := RHash (<["stock" := Py.str_int (old - quantity)]> h)]> (db w)
       else db w.
Proof.
  intros Hlock Hh Hold Hroom run. subst run.
  pose proof (lock_key_not_product product_id product_id) as Hne.
  set (lock_key := "lock:stock:" ++ product_id) in *.
  set (pkey := "product:" ++ product_id) in *.
  set (w1 := with_ttl (<[lock_key := 5]> (ttl w))
               (with_db (<[lock_key := RString "locked"]> (db w))
                  (sent (SET_NX_EX lock_key "locked" 5) w))).
  assert (hash_at w1 pkey = Some h) as Hh1.
  { unfold hash_at in *. subst w1. simpl. by rewrite lookup_insert_ne. }
  pose proof (critical_section_exact product_id quantity h old w1 Hh1 Hold Hroom)
    as Hsection.
  rewrite (reserve_stock_lock_free product_id quantity w Hlock).
  fold lock_key pkey w1. fold pkey in Hsection.
  unfold try_finally. rewrite Hsection.
  destruct (quantity <=? old); unfold bind, rc.delete, ret; simpl.
  - rewrite lookup_insert_ne by done. rewrite lookup_insert_eq. simpl.
    split; [done|].
    rewrite delete_insert_ne by done. by rewrite delete_insert_id.
  - rewrite lookup_insert_eq. simpl. split; [done|]. by rewrite delete_insert_id.
Qed.

Lemma check_stock_after_write product_id h new w :
  fst (check_stock product_id
         (with_db (<["product:" ++ product_id
                     := RHash (<["stock" := Py.str_int new]> h)]> (db w)) w))
  = Return new.
Proof.
  rewrite (check_stock_of_hash product_id _ (<["stock" := Py.str_int new]> h)).
  - by rewrite lookup_insert_eq, PyFacts.str_int_truthy, PyFacts.int_str_int.
  - unfold hash_at. simpl. by rewrite lookup_insert_eq.
Qed.

(** X6.  With the lock free and a stock that the store reads as the
    integer [old] (0 when the field or the product is absent),
    [reserve_stock] returns, and answers [True] exactly when [quantity]
    is at most [old]; the stock read afterwards is [old - quantity] when
    it answered [True] and [old] otherwise.  The quantity is not checked
    for its sign: a negative quantity against a stock that is not
    negative is granted and raises the stock. *)
Theorem reserve_stock_decides (product_id : string) (quantity : Z)
    (h : gmap string string) (old : Z) (w : cluster) :
  db w !! ("lock:stock:" ++ product_id) = None ->
  hash_at w ("product:" ++ product_id) = Some h ->
  match h !! "stock" with
  | None => old = 0
  | Some s => string2ll s = Some old
  end ->
  in_int64 (- quantity) = true ->
  in_int64 (old - quantity) = true ->
  let run := reserve_stock product_id quantity w in
  fst run = Return (quantity <=? old)
  /\ fst (check_stock product_id (snd run))
     = Return (if quantity <=? old then old - quantity else old)
  /\ (quantity < 0 -> 0 <= old ->
      fst run = Return true
      /\ fst (check_stock product_id (snd run)) = Return (old - quantity)
      /\ old < old - quantity).
Proof.
  intros Hlock Hh Hold Ha Hr run.
  destruct (reserve_stock_run product_id quantity h old w Hlock Hh Hold) as (Hres & Hdb);
    [done|].
  fold run in Hres, Hdb.
  assert (fst (check_stock product_id (snd run))
          = Return (if quantity <=? old then old - quantity else old)) as Hstock.
  { destruct (quantity <=? old).
    - rewrite <- (check_stock_after_write product_id h (old - quantity) w).
      apply check_stock_same_product. by rewrite Hdb.
    - rewrite <- (check_stock_reads product_id w h old Hh Hold).
      apply check_stock_same_product. by rewrite Hdb. }
  split; [done|]. split; [done|].
  intros Hq H0. rewrite Hres, Hstock.
  destruct (Z.leb_spec quantity old) as [_|]; [|lia].
  split; [done|]. split; [done|]. lia.
Qed.

Lemma reserve_stock_decides_witness :
  let product : gmap string string := {["stock" := "50"]} in
  let w := Cluster (<["product:P001" := RHash product]> ∅) ∅ [] ∅ [] [] None in
  db w !! ("lock:stock:" ++ "P001") = None
  /\ hash_at w ("product:" ++ "P001") = Some product
  /\ string2ll "50" = Some 50
  /\ in_int64 (- 51) = true
  /\ in_int64 (50 - 51) = true
  /\ fst (reserve_stock "P001" 51 w) = Return false.
Proof.
  intros product w. split; [reflexivity|]. split; [reflexivity|].
  split; [reflexivity|]. split; [reflexivity|]. split; [reflexivity|].
  destruct (reserve_stock_decides "P001" 51 product 50 w
              eq_refl eq_refl eq_refl eq_refl eq_refl) as (Hres & _).
  exact Hres.
Defined.

(** Reservations in a row, none for a negative quantity, on a stock
    that is not negative. *)
Lemma reserve_each_run product_id quantities : forall h old w,
  db w !! ("lock:stock:" ++ product_id) = None ->
  hash_at w ("product:" ++ product_id) = Some h ->
  match h !! "stock" with
  | None => old = 0
  | Some s => string2ll s = Some old
  end ->
  0 <= old ->
  Forall (fun q => 0 <= q) quantities ->
  exists answers w',
    call_each quantities (reserve_stock product_id) w = (Return answers, w')
    /\ length answers = length quantities
    /\ fst (check_stock product_id w') = Return (old - granted quantities answers)
    /\ 0 <= granted quantities answers <= old.
Proof.
  induction quantities as [|q qs IH]; intros h old w Hlock Hh Hold H0 Hqs.
  - exists [], w. simpl. split; [done|]. split; [done|].
    split; [|lia]. rewrite Z.sub_0_r. by apply (check_stock_reads product_id w h).
  - apply Forall_cons in Hqs as [Hq Hqs].
    assert (in_int64 old = true) as Hrange.
    { destruct (h !! "stock") as [s|].
      - by apply PyFacts.string2ll_canonical in Hold as [_ ?].
      - by subst old. }
    apply in_int64_spec in Hrange.
    assert (quantity_fits : q <= old ->
              in_int64 (- q) = true /\ in_int64 (old - q) = true).
    { intros Hle. split; apply in_int64_spec; lia. }
    destruct (reserve_stock_run product_id q h old w Hlock Hh Hold quantity_fits)
      as (Hres & Hdb).
    destruct (reserve_stock product_id q w) as [r w1] eqn:Hrun. simpl in Hres, Hdb.
    subst r.
    pose proof (lock_key_not_product product_id product_id) as Hne.
    destruct (Z.leb_spec q old) as [Hle|Hgt].
    + destruct (IH (<["stock" := Py.str_int (old - q)]> h) (old - q) w1)
        as (answers & w' & Hrest & Hlen & Hstock & Hsum).
      * rewrite Hdb. by rewrite lookup_insert_ne.
      * unfold hash_at. by rewrite Hdb, lookup_insert_eq.
      * rewrite lookup_insert_eq. apply PyFacts.string2ll_str_int.
        apply in_int64_spec. lia.
      * lia.
      * done.
      * exists (true :: answers), w'.
        split; [by apply (call_each_step q qs _ w true w1)|].
        split; [simpl; by rewrite Hlen|]. simpl granted.
        split; [rewrite Hstock; f_equal; lia | lia].
    + destruct (IH h old w1) as (answers & w' & Hrest & Hlen & Hstock & Hsum).
      * by rewrite Hdb.
      * unfold hash_at. by rewrite Hdb.
      * done.
      * done.
      * done.
      * exists (false :: answers), w'.
        split; [by apply (call_each_step q qs _ w false w1)|].
        split; [simpl; by rewrite Hlen|]. simpl granted.
        split; [rewrite Hstock; f_equal; lia | lia].
Qed.

(** X7.  No overselling.  Whatever reservations are made one after
    another for a product, none of them for a negative quantity, they
    all return, the units granted never add up to more than the stock
    there was, and the stock read in the end is the old stock less the
    units granted: it is never negative. *)
Theorem reserve_stock_never_oversells (product_id : string) (quantities : list Z)
    (h : gmap string string) (old : Z) (w : cluster) :
  db w !! ("lock:stock:" ++ product_id) = None ->
  hash_at w ("product:" ++ product_id) = Some h ->
  match h !! "stock" with
  | None => old = 0
  | Some s => string2ll s = Some old
  end ->
  0 <= old ->
  Forall (fun q => 0 <= q) quantities ->
  let run := call_each quantities (reserve_stock product_id) w in
  exists answers,
    fst run = Return answers
    /\ length answers = length quantities
    /\ granted quantities answers <= old
    /\ fst (check_stock product_id (snd run))
       = Return (old - granted quantities answers)
    /\ 0 <= old - granted quantities answers.
Proof.
  intros Hlock Hh Hold H0 Hqs run.
  destruct (reserve_each_run product_id quantities h old w Hlock Hh Hold H0 Hqs)
    as (answers & w' & Hrun & Hlen & Hstock & Hsum).
  subst run. rewrite Hrun. simpl. exists answers.
  split; [done|]. split; [done|]. split; [lia|]. split; [done|]. lia.
Qed.

Lemma reserve_stock_never_oversells_witness :
  let product : gmap string string := {["stock" := "5"]} in
  let w := Cluster (<["product:P001" := RHash product]> ∅) ∅ [] ∅ [] [] None in
  db w !! ("lock:stock:" ++ "P001") = None
  /\ hash_at w ("product:" ++ "P001") = Some product
  /\ string2ll "5" = Some 5
  /\ 0 <= 5
  /\ Forall (fun q => 0 <= q) [3; 4; 2]
  /\ exists answers,
       fst (call_each [3; 4; 2] (reserve_stock "P001") w) = Return answers
       /\ granted [3; 4; 2] answers <= 5.
Proof.
  intros product w.
  assert (Forall (fun q => 0 <= q) [3; 4; 2]) as Hqs.
  { repeat constructor; discriminate. }
  split; [reflexivity|]. split; [reflexivity|]. split; [reflexivity|].
  split; [discriminate|]. split; [exact Hqs|].
  destruct (reserve_stock_never_oversells "P001" [3; 4; 2] product 5 w
              eq_refl eq_refl eq_refl ltac:(discriminate) Hqs)
    as (answers & Hrun & _ & Hsum & _).
  exists answers. split; [exact Hrun | exact Hsum].
Defined.

(** [int] strips the six white space characters and no other control
    character: the separators 28 to 31 in front of the digits make it
    raise. *)
Example int_white_space :
  Py.int (String (ascii_of_nat 9) "42" ++ String (ascii_of_nat 10) "") = Some 42
  /\ Py.int (String (ascii_of_nat 11) "42" ++ String (ascii_of_nat 12) "") = Some 42
  /\ Py.int (String (ascii_of_nat 13) " 42 ") = Some 42
  /\ Py.int (String (ascii_of_nat 28) "42") = None
  /\ Py.int (String (ascii_of_nat 29) "42") = None
  /\ Py.int (String (ascii_of_nat 30) "42") = None
  /\ Py.int (String (ascii_of_nat 31) "42") = None
  /\ Py.int ("42" ++ String (ascii_of_nat 28) "") = None.
Proof. repeat split; reflexivity. Qed.

(** X8.  [check_stock] reads the stock with [int], which accepts text
    the store does not take for an integer (" 42", "+42", "4_2"): ASCII
    text, of [Py.int_max_str_digits] characters at most, that [int]
    converts once the white space it strips (tab, line feed, vertical
    tab, form feed, carriage return, space) is dropped.  On such a stock
    [check_stock] answers, and a reservation that the stock would cover
    acquires the lock, fails in HINCRBY with the error of the store, and
    leaves the keys as they were, the lock released. *)
Theorem reserve_stock_needs_canonical_stock (product_id : string) (quantity : Z)
    (h : gmap string string) (s : string) (n : Z) (w : cluster) :
  db w !! ("lock:stock:" ++ product_id) = None ->
  db w !! ("product:" ++ product_id) = Some (RHash h) ->
  h !! "stock" = Some s ->
  (String.length s <= Py.int_max_str_digits)%nat ->
  Py.int s = Some n ->
  string2ll s = None ->
  quantity <= n ->
  in_int64 (- quantity) = true ->
  let run := reserve_stock product_id quantity w in
  fst (check_stock product_id w) = Return n
  /\ fst run = Raise hash_not_an_integer
  /\ db (snd run) = db w.
Proof.
  intros Hlock Hk Hs _ Hint Hstrict Hq Ha run. subst run.
  assert (Py.truthy s = true) as Htruthy.
  { destruct s; [discriminate Hint | reflexivity]. }
  pose proof (lock_key_not_product product_id product_id) as Hne.
  set (lock_key := "lock:stock:" ++ product_id) in *.
  set (pkey := "product:" ++ product_id) in *.
  split.
  { rewrite (check_stock_of_hash product_id w h).
    - by rewrite Hs, Htruthy, Hint.
    - unfold hash_at. fold pkey. by rewrite Hk. }
  rewrite (reserve_stock_lock_free product_id quantity w Hlock).
  fold lock_key pkey.
  set (w1 := with_ttl (<[lock_key := 5]> (ttl w))
               (with_db (<[lock_key := RString "locked"]> (db w))
                  (sent (SET_NX_EX lock_key "locked" 5) w))).
  assert (db w1 !! pkey = Some (RHash h)) as Hk1.
  { subst w1. simpl. by rewrite lookup_insert_ne. }
  assert (db w1 !! lock_key = Some (RString "locked")) as Hl1.
  { subst w1. simpl. by rewrite lookup_insert_eq. }
  assert (base.delete lock_key (db w1) = db w) as Hdel.
  { subst w1. simpl. by rewrite delete_insert_id. }
  clearbody w1.
  assert ((current_stock <- check_stock product_id ;;
           if quantity <=? current_stock then
             rc.hincrby pkey "stock" (- quantity) ;;
             ret true
           else ret false) w1
          = (Raise hash_not_an_integer,
             sent (HINCRBY pkey "stock" (- quantity)) (sent (HGET pkey "stock") w1)))
    as Hsection.
  { unfold check_stock, bind, rc.hget, rc.hincrby, ret. simpl. fold pkey.
    rewrite Hk1, Hs, Htruthy, Hint. simpl.
    destruct (Z.leb_spec quantity n) as [_|]; [|lia].
    rewrite Ha. simpl. by rewrite Hk1, Hs, Hstrict. }
  unfold try_finally. rewrite Hsection.
  unfold bind, rc.delete, ret. simpl. by rewrite Hl1.
Qed.

Lemma reserve_stock_needs_canonical_stock_witness :
  let product : gmap string string := {["stock" := " 42"]} in
  let w := Cluster (<["product:P001" := RHash product]> ∅) ∅ [] ∅ [] [] None in
  db w !! ("lock:stock:" ++ "P001") = None
  /\ db w !! ("product:" ++ "P001") = Some (RHash product)
  /\ product !! "stock" = Some " 42"
  /\ (String.length " 42" <= Py.int_max_str_digits)%nat
  /\ Py.int " 42" = Some 42
  /\ string2ll " 42" = None
  /\ 2 <= 42
  /\ in_int64 (- 2) = true
  /\ fst (check_stock "P001" w) = Return 42
  /\ fst (reserve_stock "P001" 2 w) = Raise hash_not_an_integer.
Proof.
  intros product w.
  assert (String.length " 42" <= Py.int_max_str_digits)%nat as Hdigits.
  { apply Nat.leb_le. reflexivity. }
  split; [reflexivity|]. split; [reflexivity|].
  split; [reflexivity|]. split; [exact Hdigits|].
  split; [reflexivity|]. split; [reflexivity|].
  split; [discriminate|]. split; [reflexivity|].
  destruct (reserve_stock_needs_canonical_stock "P001" 2 product " 42" 42 w
              eq_refl eq_refl eq_refl Hdigits eq_refl eq_refl
              ltac:(discriminate) eq_refl)
    as (Hread & Hres & _).
  split; [exact Hread | exact Hres].
Defined.

(** ** The rate limit over many calls *)

Lemma counter_value_in_int64 w ip_address n :
  counter_value w ip_address = Some n -> in_int64 n = true.
Proof.
  unfold counter_value.
  destruct (db w !! ("rate_limit:" ++ ip_address)) as [[s|h|l|scored]|]; try done.
  - by intros [_ ?]%PyFacts.string2ll_canonical.
  - by intros [= <-].
Qed.

(** One call of [check_rate_limit], whole: value and world. *)
Lemma check_rate_limit_run ip_address max_requests window n w :
  counter_value w ip_address = Some n ->
  in_int64 (n + 1) = true ->
  let key := "rate_limit:" ++ ip_address in
  let w1 := with_db (<[key := RString (Py.str_int (n + 1))]> (db w)) (sent (INCR key) w) in
  check_rate_limit ip_address max_requests window w
  = (Return (if max_requests <? n + 1
             then (false, "Rate limit exceeded: " ++ Py.str_int (n + 1) ++ "/"
                          ++ Py.str_int max_requests)
             else (true, "OK: " ++ Py.str_int (n + 1) ++ "/"
                         ++ Py.str_int max_requests)),
     if n + 1 =? 1
     then if window <=? 0
          then with_ttl (base.delete key (ttl w1))
                 (with_db (base.delete key (db w1)) (sent (EXPIRE key window) w1))
          else with_ttl (<[key := window]> (ttl w1)) (sent (EXPIRE key window) w1)
     else w1).
Proof.
  intros Hn Hr key w1.
  pose proof (incr_run key w n Hn Hr) as Hincr. fold w1 in Hincr.
  unfold check_rate_limit. fold key. unfold bind at 1. rewrite Hincr.
  destruct (n + 1 =? 1).
  - unfold bind, rc.expire, ret. simpl. rewrite lookup_insert_eq.
    destruct (window <=? 0); simpl; by destruct (max_requests <? n + 1).
  - unfold bind, ret. by destruct (max_requests <? n + 1).
Qed.

(** With a window that is positive, [k] calls in a row count from [n]
    to [n + k]. *)
Lemma check_rate_limit_times ip_address max_requests window (k : nat) : forall n w,
  counter_value w ip_address = Some n ->
  0 < window ->
  in_int64 (n + Z.of_nat k) = true ->
  exists w',
    call_times k (check_rate_limit ip_address max_requests window) w
    = (Return (map (fun i =>
                      let current := n + 1 + Z.of_nat i in
                      if max_requests <? current
                      then (false, "Rate limit exceeded: " ++ Py.str_int current ++ "/"
                                   ++ Py.str_int max_requests)
                      else (true, "OK: " ++ Py.str_int current ++ "/"
                                  ++ Py.str_int max_requests))
                 (seq 0 k)), w')
    /\ counter_value w' ip_address = Some (n + Z.of_nat k).
Proof.
  induction k as [|k IH]; intros n w Hn Hw Hk.
  - exists w. split; [done|]. by rewrite Z.add_0_r.
  - pose proof (counter_value_in_int64 w ip_address n Hn) as Hrange.
    apply in_int64_spec in Hrange, Hk.
    assert (in_int64 (n + 1) = true) as H1 by (apply in_int64_spec; lia).
    pose proof (check_rate_limit_run ip_address max_requests window n w Hn H1) as Hrun.
    cbv zeta in Hrun.
    set (key := "rate_limit:" ++ ip_address) in *.
    set (w1 := with_db (<[key := RString (Py.str_int (n + 1))]> (db w))
                 (sent (INCR key) w)) in *.
    set (w2 := if n + 1 =? 1
               then if window <=? 0
                    then with_ttl (base.delete key (ttl w1))
                           (with_db (base.delete key (db w1))
                              (sent (EXPIRE key window) w1))
                    else with_ttl (<[key := window]> (ttl w1))
                           (sent (EXPIRE key window) w1)
               else w1) in *.
    assert (counter_value w2 ip_address = Some (n + 1)) as Hn2.
    { assert (db w2 = db w1) as Hdb.
      { subst w2. destruct (n + 1 =? 1); [|done].
        destruct (Z.leb_spec window 0); [lia|done]. }
      unfold counter_value. fold key. rewrite Hdb. subst w1. simpl.
      rewrite lookup_insert_eq. by apply PyFacts.string2ll_str_int. }
    destruct (IH (n + 1) w2 Hn2 Hw) as (w' & Hrest & Hafter).
    { apply in_int64_spec. lia. }
    exists w'. split.
    + rewrite (call_times_step k _ w _ w2 _ w' Hrun Hrest).
      do 2 f_equal. cbn [seq map]. rewrite Z.add_0_r. f_equal.
      rewrite <- seq_shift, map_map. apply map_ext. intros i.
      cbv zeta. by replace (n + 1 + Z.of_nat (S i)) with (n + 1 + 1 + Z.of_nat i) by lia.
    + rewrite Hafter. f_equal. lia.
Qed.

(** X9.  The limiter over a run of calls.  With a positive window and
    the counter of the address at [n], [k] calls in a row all return;
    the call that brings the counter to [current] is allowed exactly
    when [current <= max_requests], and its message carries [current];
    the counter ends at [n + k].  From a fresh address the first
    [max_requests] calls are the allowed ones. *)
Theorem rate_limit_over_many_calls (ip_address : string) (max_requests window : Z)
    (k : nat) (n : Z) (w : cluster) :
  counter_value w ip_address = Some n ->
  0 < window ->
  in_int64 (n + Z.of_nat k) = true ->
  let calls := call_times k (check_rate_limit ip_address max_requests window) w in
  fst calls
  = Return (map (fun i =>
                   let current := n + 1 + Z.of_nat i in
                   if max_requests <? current
                   then (false, "Rate limit exceeded: " ++ Py.str_int current ++ "/"
                                ++ Py.str_int max_requests)
                   else (true, "OK: " ++ Py.str_int current ++ "/"
                               ++ Py.str_int max_requests))
              (seq 0 k))
  /\ counter_value (snd calls) ip_address = Some (n + Z.of_nat k)
  /\ (forall answers (i : nat) allowed msg,
        fst calls = Return answers ->
        answers !! i = Some (allowed, msg) ->
        (allowed = true <-> n + 1 + Z.of_nat i <= max_requests)).
Proof.
  intros Hn Hw Hk calls.
  destruct (check_rate_limit_times ip_address max_requests window k n w Hn Hw Hk)
    as (w' & Hrun & Hafter).
  subst calls. rewrite Hrun. simpl. split; [done|]. split; [done|].
  intros answers i allowed msg [= <-] Hi.
  rewrite list_lookup_fmap in Hi.
  destruct (seq 0 k !! i) as [j|] eqn:Hj; [|done].
  apply lookup_seq in Hj as [-> _]. simpl in Hi.
  destruct (Z.ltb_spec max_requests (n + 1 + Z.of_nat i)); injection Hi as <- <-;
    split; (done || lia).
Qed.

Lemma rate_limit_over_many_calls_witness :
  let w := Cluster ∅ ∅ [] ∅ [] [] None in
  counter_value w "192.168.1.100" = Some 0
  /\ 0 < 60
  /\ in_int64 (0 + Z.of_nat 3) = true
  /\ fst (call_times 3 (check_rate_limit "192.168.1.100" 2 60) w)
     = Return [(true, "OK: 1/2"); (true, "OK: 2/2"); (false, "Rate limit exceeded: 3/2")].
Proof.
  intros w. split; [reflexivity|]. split; [reflexivity|]. split; [reflexivity|].
  destruct (rate_limit_over_many_calls "192.168.1.100" 2 60 3 0 w
              eq_refl eq_refl eq_refl) as (Hr & _).
  exact Hr.
Defined.

(** With a window that is not positive, a call on a fresh address
    leaves no counter behind. *)
Lemma check_rate_limit_times_no_window ip_address max_requests window (k : nat) :
  forall w,
  db w !! ("rate_limit:" ++ ip_address) = None ->
  window <= 0 ->
  exists w',
    call_times k (check_rate_limit ip_address max_requests window) w
    = (Return (replicate k
                 (if max_requests <? 1
                  then (false, "Rate limit exceeded: " ++ Py.str_int 1 ++ "/"
                               ++ Py.str_int max_requests)
                  else (true, "OK: " ++ Py.str_int 1 ++ "/"
                              ++ Py.str_int max_requests))), w')
    /\ db w' = db w.
Proof.
  induction k as [|k IH]; intros w Hk Hw.
  - by exists w.
  - assert (counter_value w ip_address = Some 0) as Hn.
    { unfold counter_value. by rewrite Hk. }
    pose proof (check_rate_limit_run ip_address max_requests window 0 w Hn eq_refl)
      as Hrun.
    cbv zeta in Hrun. change (0 + 1) with 1 in Hrun. change (1 =? 1) with true in Hrun.
    cbv iota in Hrun.
    destruct (Z.leb_spec window 0) as [_|]; [|lia].
    set (key := "rate_limit:" ++ ip_address) in *.
    set (w2 := with_ttl _ _) in Hrun.
    assert (db w2 = db w) as Hdb.
    { subst w2. simpl. by rewrite delete_insert_id. }
    destruct (IH w2) as (w' & Hrest & Hafter); [by rewrite Hdb | done |].
    exists w'. split; [|by rewrite Hafter].
    by rewrite (call_times_step k _ w _ w2 _ w' Hrun Hrest).
Qed.

(** X10.  A window that is not positive switches the limit off: the
    expiry set by the first call removes the counter at once, so every
    call on a fresh address counts 1.  All [k] calls give the answer of
    a first call, which is to allow as soon as [max_requests] is at
    least 1, and the keys are in the end as they were. *)
Theorem rate_limit_needs_positive_window (ip_address : string)
    (max_requests window : Z) (k : nat) (w : cluster) :
  db w !! ("rate_limit:" ++ ip_address) = None ->
  window <= 0 ->
  let calls := call_times k (check_rate_limit ip_address max_requests window) w in
  fst calls
  = Return (replicate k
              (if max_requests <? 1
               then (false, "Rate limit exceeded: " ++ Py.str_int 1 ++ "/"
                            ++ Py.str_int max_requests)
               else (true, "OK: " ++ Py.str_int 1 ++ "/" ++ Py.str_int max_requests)))
  /\ db (snd calls) = db w
  /\ (1 <= max_requests ->
      forall answers allowed msg,
        fst calls = Return answers -> In (allowed, msg) answers -> allowed = true).
Proof.
  intros Hk Hw calls.
  destruct (check_rate_limit_times_no_window ip_address max_requests window k w Hk Hw)
    as (w' & Hrun & Hafter).
  subst calls. rewrite Hrun. simpl. split; [done|]. split; [done|].
  intros Hmax answers allowed msg [= <-] Hin.
  apply list_elem_of_In, elem_of_replicate in Hin as [Hin _].
  destruct (Z.ltb_spec max_requests 1); [lia|]. by injection Hin as -> _.
Qed.

Lemma rate_limit_needs_positive_window_witness :
  let w := Cluster ∅ ∅ [] ∅ [] [] None in
  db w !! ("rate_limit:" ++ "10.0.0.1") = None
  /\ 0 <= 0
  /\ fst (call_times 3 (check_rate_limit "10.0.0.1" 1 0) w)
     = Return [(true, "OK: 1/1"); (true, "OK: 1/1"); (true, "OK: 1/1")].
Proof.
  intros w. split; [reflexivity|]. split; [discriminate|].
  destruct (rate_limit_needs_positive_window "10.0.0.1" 1 0 3 w
              eq_refl ltac:(discriminate)) as (Hr & _).
  exact Hr.
Defined.

(** ** Reading the capped lists *)

Lemma ltrim_list_nil start stop : ltrim_list [] start stop = [].
Proof.
  unfold ltrim_list. cbv zeta.
  match goal with |- (if ?c then _ else _) = _ => destruct c end; [done|].
  by rewrite drop_nil, take_nil.
Qed.

Lemma lrange_list_at key start stop w l :
  list_at w key = Some l ->
  rc.lrange key start stop w
  = (Return (ltrim_list l start stop), sent (LRANGE key start stop) w).
Proof.
  unfold list_at, rc.lrange. simpl.
  destruct (db w !! key) as [[s|h|l'|scored]|]; try done; intros [= <-]; [done|].
  by rewrite ltrim_list_nil.
Qed.

(** An end index counted from the end of the list. *)
Lemma ltrim_list_from_end l stop :
  stop < 0 ->
  ltrim_list l 0 stop = take (Z.to_nat (Z.of_nat (length l) + stop + 1)) l.
Proof.
  intros Hstop. unfold ltrim_list. cbv zeta.
  change (0 <? 0) with false. cbv iota.
  destruct (Z.ltb_spec stop 0) as [_|]; [|lia].
  change (0 <? 0) with false. cbv iota.
  destruct (Z.ltb_spec (Z.of_nat (length l) + stop) 0) as [Hs|Hs]; simpl orb.
  - replace (Z.to_nat (Z.of_nat (length l) + stop + 1)) with 0%nat by lia. done.
  - destruct (Z.leb_spec (Z.of_nat (length l)) 0) as [Hl|Hl]; [lia|].
    destruct (Z.leb_spec (Z.of_nat (length l)) (Z.of_nat (length l) + stop)); [lia|].
    rewrite drop_0. f_equal. lia.
Qed.

Lemma track_product_view_state user_id product_id l w :
  list_at w ("views:" ++ user_id) = Some l ->
  fst (track_product_view user_id product_id w) = Return tt
  /\ list_at (snd (track_product_view user_id product_id w)) ("views:" ++ user_id)
     = Some (take 50 (product_id :: l)).
Proof.
  intros Hl.
  pose proof (lpush_ltrim_run ("views:" ++ user_id) product_id 49 w) as Hrun.
  cbv zeta in Hrun. rewrite Hl in Hrun. destruct Hrun as (Hr & Hdb & _); [done|].
  split; [done|]. unfold list_at, track_product_view.
  by rewrite Hdb, lookup_insert_eq.
Qed.

(** X11.  The view just tracked is the first of the recently viewed:
    after [track_product_view(user, product)], [get_recently_viewed]
    with a positive [count] returns the product followed by the views
    there were, newest first, cut to [count] entries and never more
    than 50. *)
Theorem recently_viewed_newest_first (user_id product_id : string) (count : Z)
    (l : list string) (w : cluster) :
  list_at w ("views:" ++ user_id) = Some l ->
  0 < count ->
  let w' := snd (track_product_view user_id product_id w) in
  let recent := take (Z.to_nat count) (take 50 (product_id :: l)) in
  fst (get_recently_viewed user_id count w') = Return recent
  /\ head recent = Some product_id
  /\ Z.of_nat (length recent) <= Z.min count 50.
Proof.
  intros Hl Hcount w' recent.
  destruct (track_product_view_state user_id product_id l w Hl) as (_ & Hafter).
  fold w' in Hafter. split; [|split].
  - unfold get_recently_viewed.
    rewrite (lrange_list_at _ _ _ _ _ Hafter). simpl.
    rewrite ltrim_list_prefix by lia. subst recent. do 2 f_equal. lia.
  - subst recent. rewrite take_take.
    destruct (Z.to_nat count `min` 50)%nat eqn:Hm; [lia|done].
  - subst recent. rewrite !length_take. lia.
Qed.

Lemma recently_viewed_newest_first_witness :
  let w := Cluster (<["views:U12345" := RList ["P001"]]> ∅) ∅ [] ∅ [] [] None in
  list_at w ("views:" ++ "U12345") = Some ["P001"]
  /\ 0 < 10
  /\ fst (get_recently_viewed "U12345" 10
            (snd (track_product_view "U12345" "P002" w)))
     = Return ["P002"; "P001"].
Proof.
  intros w. split; [reflexivity|]. split; [reflexivity|].
  destruct (recently_viewed_newest_first "U12345" "P002" 10 ["P001"] w
              eq_refl eq_refl) as (Hr & _).
  exact Hr.
Defined.

(** X12.  A [count] that is not positive does not ask for nothing:
    [get_recently_viewed] passes [count - 1] as the end index, which
    then counts from the end of the list.  With [count = 0] the whole
    list is returned, and with [count < 0] all of it but its last
    [- count] entries. *)
Theorem recently_viewed_count_not_positive (user_id : string) (count : Z)
    (l : list string) (w : cluster) :
  list_at w ("views:" ++ user_id) = Some l ->
  count <= 0 ->
  fst (get_recently_viewed user_id count w)
  = Return (take (Z.to_nat (Z.of_nat (length l) + count)) l)
  /\ (count = 0 -> fst (get_recently_viewed user_id count w) = Return l).
Proof.
  intros Hl Hcount.
  assert (fst (get_recently_viewed user_id count w)
          = Return (take (Z.to_nat (Z.of_nat (length l) + count)) l)) as Hrun.
  { unfold get_recently_viewed. rewrite (lrange_list_at _ _ _ _ _ Hl). simpl.
    rewrite ltrim_list_from_end by lia. do 2 f_equal. lia. }
  split; [done|]. intros ->. rewrite Hrun, Z.add_0_r, Nat2Z.id.
  by rewrite firstn_all.
Qed.

Lemma recently_viewed_count_not_positive_witness :
  let w := Cluster (<["views:U12345" := RList ["P002"; "P001"]]> ∅) ∅ [] ∅ [] [] None in
  list_at w ("views:" ++ "U12345") = Some ["P002"; "P001"]
  /\ 0 <= 0
  /\ fst (get_recently_viewed "U12345" 0 w) = Return ["P002"; "P001"].
Proof.
  intros w. split; [reflexivity|]. split; [discriminate|].
  destruct (recently_viewed_count_not_positive "U12345" 0 ["P002"; "P001"] w
              eq_refl ltac:(discriminate)) as (_ & Hall).
  by apply Hall.
Defined.

(** ** Notifications *)

(** The comprehension [[json.loads(n) for n in notifications]]. *)
Lemma loads_each json (json_loads : string -> option json) notifications :
  forall parsed w,
  for_fold notifications parsed
    (fun n parsed => value <- loads json json_loads n ;; ret (parsed ++ [value])%list) w
  = match mapM json_loads notifications with
    | Some values => (Return (parsed ++ values)%list, w)
    | None => (Raise (ValueError "Expecting value"), w)
    end.
Proof.
  induction notifications as [|n rest IH]; intros parsed w.
  - simpl. unfold ret. by rewrite app_nil_r.
  - cbn [for_fold]. unfold bind at 1. unfold loads. cbn [mapM].
    destruct (json_loads n) as [value|]; simpl; [|done].
    unfold ret at 1. rewrite IH.
    destruct (mapM json_loads rest) as [values|]; simpl; [|done].
    by rewrite <- app_assoc.
Qed.

Lemma get_notifications_run json (json_loads : string -> option json) user_id count l w :
  list_at w ("notifications:" ++ user_id) = Some l ->
  fst (get_notifications json json_loads user_id count w)
  = match mapM json_loads (ltrim_list l 0 (count - 1)) with
    | Some values => Return values
    | None => Raise (ValueError "Expecting value")
    end.
Proof.
  intros Hl. unfold get_notifications. unfold bind at 1.
  rewrite (lrange_list_at _ _ _ _ _ Hl), loads_each.
  by destruct (mapM json_loads (ltrim_list l 0 (count - 1))).
Qed.

(** X13.  A notification is read back first and parsed: when
    [json.loads] inverts [json.dumps] on the notification written and
    parses the notifications [l] there were into [values], then after
    [add_notification] the call [get_notifications] with a positive
    [count] returns the new notification followed by [values], cut to
    [count] entries and to the 100 the list keeps.  In any state, one
    stored entry that is not JSON among the [count] read makes the
    whole call raise. *)
Theorem notification_round_trip (float json : Type) (datetime_now_isoformat : string)
    (json_dumps : list (string * pyval float) -> string)
    (json_loads : string -> option json)
    (user_id notification_type message : string) (count : Z)
    (l : list string) (value : json) (values : list json) (w : cluster) :
  list_at w ("notifications:" ++ user_id) = Some l ->
  json_loads (json_dumps [("type", PStr notification_type); ("message", PStr message);
                          ("timestamp", PStr datetime_now_isoformat);
                          ("read", PBool false)]) = Some value ->
  mapM json_loads l = Some values ->
  0 < count ->
  let w' := snd (add_notification float datetime_now_isoformat json_dumps
                   user_id notification_type message w) in
  fst (get_notifications json json_loads user_id count w')
  = Return (take (Z.to_nat count) (take 100 (value :: values)))
  /\ (forall (stored : list string) (i : nat) (bad : string) (w0 : cluster),
        list_at w0 ("notifications:" ++ user_id) = Some stored ->
        stored !! i = Some bad ->
        Z.of_nat i < count ->
        json_loads bad = None ->
        fst (get_notifications json json_loads user_id count w0)
        = Raise (ValueError "Expecting value")).
Proof.
  intros Hl Hvalue Hvalues Hcount w'. split.
  - pose proof (lpush_ltrim_run ("notifications:" ++ user_id)
                  (json_dumps [("type", PStr notification_type);
                               ("message", PStr message);
                               ("timestamp", PStr datetime_now_isoformat);
                               ("read", PBool false)]) 99 w) as Hrun.
    cbv zeta in Hrun. rewrite Hl in Hrun. destruct Hrun as (_ & Hdb & _); [done|].
    rewrite (get_notifications_run json json_loads user_id count
               (take 100 (json_dumps [("type", PStr notification_type);
                                      ("message", PStr message);
                                      ("timestamp", PStr datetime_now_isoformat);
                                      ("read", PBool false)] :: l))).
    + rewrite ltrim_list_prefix by lia.
      replace (Z.to_nat (count - 1 + 1)) with (Z.to_nat count) by lia.
      erewrite (proj2 (mapM_Some _ _ _)); [done|].
      do 2 apply Forall2_take. constructor; [done|]. by apply mapM_Some.
    + unfold list_at. subst w'. unfold add_notification.
      by rewrite Hdb, lookup_insert_eq.
  - intros stored i bad w0 Hstored Hi Hlt Hbad.
    rewrite (get_notifications_run json json_loads user_id count stored w0 Hstored).
    rewrite ltrim_list_prefix by lia.
    destruct (mapM json_loads (take (Z.to_nat (count - 1 + 1)) stored))
      as [parsed|] eqn:Hparsed; [|done].
    apply mapM_Some in Hparsed.
    assert (take (Z.to_nat (count - 1 + 1)) stored !! i = Some bad) as Hi'.
    { rewrite lookup_take_lt by lia. done. }
    destruct (Forall2_lookup_l _ _ _ _ _ Hparsed Hi') as (v & _ & Hv).
    by rewrite Hbad in Hv.
Qed.

Lemma notification_round_trip_witness :
  let w := Cluster ∅ ∅ [] ∅ [] [] None in
  let json_dumps := fun _ : list (string * pyval unit) => "{}" in
  let json_loads := fun s : string => Some s in
  list_at w ("notifications:" ++ "U12345") = Some []
  /\ json_loads "{}" = Some "{}"
  /\ mapM json_loads [] = Some []
  /\ 0 < 10
  /\ fst (get_notifications string json_loads "U12345" 10
            (snd (add_notification unit "2024-12-05T10:00:00" json_dumps
                    "U12345" "order" "shipped" w)))
     = Return ["{}"].
Proof.
  intros w json_dumps json_loads.
  split; [reflexivity|]. split; [reflexivity|]. split; [reflexivity|].
  split; [reflexivity|].
  destruct (notification_round_trip unit string "2024-12-05T10:00:00"
              json_dumps json_loads "U12345" "order" "shipped" 10 [] "{}" [] w
              eq_refl eq_refl eq_refl eq_refl) as (Hr & _).
  exact Hr.
Defined.

(** ** Sessions *)

Lemma session_key_inj a b : "session:" ++ a = "session:" ++ b -> a = b.
Proof. apply (key_prefix_inj "session:"). Qed.

Lemma get_session_run json (json_loads : string -> option json) session_id w :
  fst (get_session json json_loads session_id w)
  = match db w !! ("session:" ++ session_id) with
    | None => Return None
    | Some (RString s) =>
        if Py.truthy s
        then match json_loads s with
             | Some value => Return (Some value)
             | None => Raise (ValueError "Expecting value")
             end
        else Return None
    | Some _ => Raise wrongtype
    end.
Proof.
  unfold get_session, bind, rc.get, loads, ret, raise. simpl.
  destruct (db w !! ("session:" ++ session_id)) as [[s|h|l|scored]|]; try done.
  destruct (Py.truthy s); [|done]. by destruct (json_loads s).
Qed.

Lemma create_session_run float time_time (int_of_float : float -> Z) now
    (json_dumps : list (string * pyval float) -> string) user_id email role w :
  let session_id := "sess_" ++ user_id ++ "_" ++ Py.str_int (int_of_float time_time) in
  let session_data :=
    json_dumps [("user_id", PStr user_id); ("email", PStr email);
                ("role", PStr role); ("login_time", PStr now)] in
  let run := create_session float time_time int_of_float now json_dumps
               user_id email role w in
  fst run = Return session_id
  /\ db (snd run) = <["session:" ++ session_id := RString session_data]> (db w)
  /\ ttl (snd run) = <["session:" ++ session_id := 3600]> (ttl w).
Proof. by unfold create_session, bind, rc.setex, print, ret. Qed.

(** X14.  A session is read back: [create_session] returns the
    identifier ["sess_<user>_<second>"] and, when [json.loads] inverts
    [json.dumps] on the session data, [get_session] of that identifier
    returns the data; the session expires after 3600 seconds; whatever
    the key held before is overwritten, and the other sessions read as
    before. *)
Theorem session_round_trip (float json : Type) (time_time : float)
    (int_of_float : float -> Z) (datetime_now_isoformat : string)
    (json_dumps : list (string * pyval float) -> string)
    (json_loads : string -> option json)
    (user_id email role : string) (value : json) (w : cluster) :
  let session_data :=
    json_dumps [("user_id", PStr user_id); ("email", PStr email);
                ("role", PStr role); ("login_time", PStr datetime_now_isoformat)] in
  session_data <> "" ->
  json_loads session_data = Some value ->
  let run := create_session float time_time int_of_float datetime_now_isoformat
               json_dumps user_id email role w in
  let session_id := "sess_" ++ user_id ++ "_" ++ Py.str_int (int_of_float time_time) in
  fst run = Return session_id
  /\ fst (get_session json json_loads session_id (snd run)) = Return (Some value)
  /\ ttl (snd run) !! ("session:" ++ session_id) = Some 3600
  /\ (forall other, other <> session_id ->
        fst (get_session json json_loads other (snd run))
        = fst (get_session json json_loads other w)).
Proof.
  intros session_data Hne Hvalue run session_id.
  destruct (create_session_run float time_time int_of_float datetime_now_isoformat
              json_dumps user_id email role w) as (Hr & Hdb & Httl).
  fold run session_id session_data in Hr, Hdb, Httl.
  split; [done|]. split; [|split].
  - rewrite get_session_run, Hdb, lookup_insert_eq, Hvalue.
    by destruct session_data.
  - by rewrite Httl, lookup_insert_eq.
  - intros other Hother. rewrite !get_session_run, Hdb.
    rewrite lookup_insert_ne; [done|].
    intros Heq. apply Hother. symmetry. by apply session_key_inj.
Qed.

Lemma session_round_trip_witness :
  let w := Cluster ∅ ∅ [] ∅ [] [] None in
  let json_dumps := fun _ : list (string * pyval unit) => "{}" in
  let json_loads := fun s : string => Some s in
  "{}" <> ""
  /\ json_loads "{}" = Some "{}"
  /\ fst (get_session string json_loads "sess_U12345_1733392800"
            (snd (create_session unit tt (fun _ => 1733392800) "2024-12-05T10:00:00"
                    json_dumps "U12345" "john@example.com" "premium" w)))
     = Return (Some "{}").
Proof.
  intros w json_dumps json_loads.
  split; [discriminate|]. split; [reflexivity|].
  destruct (session_round_trip unit string tt (fun _ => 1733392800)
              "2024-12-05T10:00:00" json_dumps json_loads
              "U12345" "john@example.com" "premium" "{}" w
              ltac:(discriminate) eq_refl) as (_ & Hget & _).
  exact Hget.
Defined.

(** X15.  [extend_session] after [create_session]: with a positive
    number of seconds the session keeps its data and expires after that
    many seconds; with a number that is not positive the session is
    removed at once and [get_session] answers [None].  On a session that
    does not exist the call creates nothing: keys and expiries stay as
    they were. *)
Theorem extend_session_after_create (float json : Type) (time_time : float)
    (int_of_float : float -> Z) (datetime_now_isoformat : string)
    (json_dumps : list (string * pyval float) -> string)
    (json_loads : string -> option json)
    (user_id email role : string) (value : json) (seconds : Z) (w : cluster) :
  let session_data :=
    json_dumps [("user_id", PStr user_id); ("email", PStr email);
                ("role", PStr role); ("login_time", PStr datetime_now_isoformat)] in
  session_data <> "" ->
  json_loads session_data = Some value ->
  let session_id := "sess_" ++ user_id ++ "_" ++ Py.str_int (int_of_float time_time) in
  let w1 := snd (create_session float time_time int_of_float datetime_now_isoformat
                   json_dumps user_id email role w) in
  let w2 := snd (extend_session session_id seconds w1) in
  (0 < seconds ->
     fst (get_session json json_loads session_id w2) = Return (Some value)
     /\ ttl w2 !! ("session:" ++ session_id) = Some seconds)
  /\ (seconds <= 0 ->
      fst (get_session json json_loads session_id w2) = Return None
      /\ db w2 !! ("session:" ++ session_id) = None)
  /\ (forall unknown w0,
        db w0 !! ("session:" ++ unknown) = None ->
        db (snd (extend_session unknown seconds w0)) = db w0
        /\ ttl (snd (extend_session unknown seconds w0)) = ttl w0).
Proof.
  intros session_data Hne Hvalue session_id w1 w2.
  destruct (create_session_run float time_time int_of_float datetime_now_isoformat
              json_dumps user_id email role w) as (_ & Hdb & _).
  fold w1 session_id session_data in Hdb.
  assert (db w1 !! ("session:" ++ session_id) = Some (RString session_data)) as Hk.
  { by rewrite Hdb, lookup_insert_eq. }
  assert (w2 = snd (extend_session session_id seconds w1)) as Hw2 by done.
  clearbody w2 w1. unfold extend_session, bind, rc.expire, ret in Hw2.
  simpl in Hw2. rewrite Hk in Hw2.
  split; [|split].
  - intros Hs. destruct (Z.leb_spec seconds 0) as [|_]; [lia|]. subst w2. simpl.
    split; [|by rewrite lookup_insert_eq].
    rewrite get_session_run. simpl. rewrite Hk, Hvalue. by destruct session_data.
  - intros Hs. destruct (Z.leb_spec seconds 0) as [_|]; [|lia]. subst w2. simpl.
    split; [|by rewrite lookup_delete_eq].
    rewrite get_session_run. simpl. by rewrite lookup_delete_eq.
  - intros unknown w0 Hnone. unfold extend_session, bind, rc.expire, ret. simpl.
    by rewrite Hnone.
Qed.

Lemma extend_session_after_create_witness :
  let w := Cluster ∅ ∅ [] ∅ [] [] None in
  let json_dumps := fun _ : list (string * pyval unit) => "{}" in
  let json_loads := fun s : string => Some s in
  let w1 := snd (create_session unit tt (fun _ => 1733392800) "2024-12-05T10:00:00"
                   json_dumps "U12345" "john@example.com" "premium" w) in
  "{}" <> ""
  /\ json_loads "{}" = Some "{}"
  /\ fst (get_session string json_loads "sess_U12345_1733392800"
            (snd (extend_session "sess_U12345_1733392800" 0 w1)))
     = Return None.
Proof.
  intros w json_dumps json_loads w1.
  split; [discriminate|]. split; [reflexivity|].
  destruct (extend_session_after_create unit string tt (fun _ => 1733392800)
              "2024-12-05T10:00:00" json_dumps json_loads
              "U12345" "john@example.com" "premium" "{}" 0 w
              ltac:(discriminate) eq_refl) as (_ & Hgone & _).
  by apply Hgone.
Defined.

(** ** Daily statistics *)

Lemma stat_key_ne date a b :
  a <> b -> "stats:" ++ date ++ ":" ++ a <> "stats:" ++ date ++ ":" ++ b.
Proof.
  intros Hne Heq. apply Hne.
  apply (key_prefix_inj ":"), (key_prefix_inj date), (key_prefix_inj "stats:").
  exact Heq.
Qed.

Lemma get_int_wire key w :
  snd ((x <- rc.get key ;; int_or_0 x) w) = sent (GET key) w.
Proof.
  unfold bind, rc.get, int_or_0, ret, raise. simpl.
  destruct (db w !! key) as [[s|h|l|scored]|]; try done.
  destruct (Py.truthy s); [|done]. by destruct (Py.int s).
Qed.

Lemma get_int_same key w w' :
  db w !! key = db w' !! key ->
  fst ((x <- rc.get key ;; int_or_0 x) w) = fst ((x <- rc.get key ;; int_or_0 x) w').
Proof.
  intros H. unfold bind, rc.get, int_or_0, ret, raise. simpl. rewrite H.
  destruct (db w' !! key) as [[s|h|l|scored]|]; try done.
  destruct (Py.truthy s); [|done]. by destruct (Py.int s).
Qed.

Lemma get_int_integer key w n :
  integer_at w key = Some n -> fst ((x <- rc.get key ;; int_or_0 x) w) = Return n.
Proof.
  unfold integer_at, bind, rc.get, int_or_0, ret, raise. simpl.
  destruct (db w !! key) as [[s|h|l|scored]|]; try done.
  - intros Hs. pose proof (PyFacts.string2ll_canonical s n Hs) as [-> _].
    by rewrite PyFacts.str_int_truthy, PyFacts.int_str_int.
  - by intros [= <-].
Qed.

Lemma get_float_wire float foi fos key w :
  snd ((x <- rc.get key ;; float_or_0 float foi fos x) w) = sent (GET key) w.
Proof.
  unfold bind, rc.get, float_or_0, ret, raise. simpl.
  destruct (db w !! key) as [[s|h|l|scored]|]; try done.
  destruct (Py.truthy s); [|done]. by destruct (fos s).
Qed.

Lemma get_float_same float foi fos key w w' :
  db w !! key = db w' !! key ->
  fst ((x <- rc.get key ;; float_or_0 float foi fos x) w)
  = fst ((x <- rc.get key ;; float_or_0 float foi fos x) w').
Proof.
  intros H. unfold bind, rc.get, float_or_0, ret, raise. simpl. rewrite H.
  destruct (db w' !! key) as [[s|h|l|scored]|]; try done.
  destruct (Py.truthy s); [|done]. by destruct (fos s).
Qed.

(** [get_daily_stats] is its three reads, each of the state it is
    called in. *)
Lemma get_daily_stats_run float foi fos date w :
  fst (get_daily_stats float foi fos date w)
  = match fst ((x <- rc.get ("stats:" ++ date ++ ":" ++ "page_views") ;; int_or_0 x) w) with
    | Return page_views =>
        match fst ((x <- rc.get ("stats:" ++ date ++ ":" ++ "orders") ;; int_or_0 x) w) with
        | Return orders =>
            match fst ((x <- rc.get ("stats:" ++ date ++ ":" ++ "revenue") ;;
                        float_or_0 float foi fos x) w) with
            | Return revenue => Return (DailyStats page_views orders revenue)
            | Raise e => Raise e
            end
        | Raise e => Raise e
        end
    | Raise e => Raise e
    end.
Proof.
  unfold get_daily_stats.
  change (("stats:" ++ date) ++ ":page_views")
    with ("stats:" ++ date ++ ":" ++ "page_views").
  change (("stats:" ++ date) ++ ":orders") with ("stats:" ++ date ++ ":" ++ "orders").
  change (("stats:" ++ date) ++ ":revenue") with ("stats:" ++ date ++ ":" ++ "revenue").
  set (k1 := "stats:" ++ date ++ ":" ++ "page_views").
  set (k2 := "stats:" ++ date ++ ":" ++ "orders").
  set (k3 := "stats:" ++ date ++ ":" ++ "revenue").
  unfold bind at 1.
  rewrite (surjective_pairing ((x <- rc.get k1 ;; int_or_0 x) w)), get_int_wire.
  destruct (fst ((x <- rc.get k1 ;; int_or_0 x) w)) as [a|e]; [|done].
  unfold bind at 1.
  rewrite (surjective_pairing ((x <- rc.get k2 ;; int_or_0 x) (sent (GET k1) w))),
    get_int_wire, (get_int_same k2 (sent (GET k1) w) w eq_refl).
  destruct (fst ((x <- rc.get k2 ;; int_or_0 x) w)) as [b|e]; [|done].
  unfold bind at 1.
  rewrite (surjective_pairing
             ((x <- rc.get k3 ;; float_or_0 float foi fos x)
                (sent (GET k2) (sent (GET k1) w)))),
    get_float_wire,
    (get_float_same float foi fos k3 (sent (GET k2) (sent (GET k1) w)) w eq_refl).
  by destruct (fst ((x <- rc.get k3 ;; float_or_0 float foi fos x) w)) as [c|e].
Qed.

Lemma incrby_run key amount n w :
  integer_at w key = Some n ->
  in_int64 amount = true ->
  in_int64 (n + amount) = true ->
  rc.incrby key amount w
  = (Return (n + amount),
     with_db (<[key := RString (Py.str_int (n + amount))]> (db w))
       (sent (INCRBY key amount) w)).
Proof.
  intros Hn Ha Hr. unfold integer_at, rc.incrby in *. simpl. rewrite Ha. simpl.
  destruct (db w !! key) as [[s|h|l|scored]|]; try done.
  - by rewrite Hn, Hr.
  - injection Hn as <-. by rewrite Hr.
Qed.

(** X16.  Daily statistics.  For a date no statistic was written for,
    [get_daily_stats] answers zero page views, zero orders and the
    revenue [float(0)].  When it answers, [increment_stat] on
    ["page_views"] or ["orders"] adds [value] to the entry that
    [get_daily_stats] reports and leaves the other two entries as they
    were. *)
Theorem daily_stats_count (float : Type) (float_of_int : Z -> float)
    (float_of_str : string -> option float) (date : string) (value : Z)
    (w : cluster) :
  in_int64 value = true ->
  (db w !! ("stats:" ++ date ++ ":" ++ "page_views") = None ->
   db w !! ("stats:" ++ date ++ ":" ++ "orders") = None ->
   db w !! ("stats:" ++ date ++ ":" ++ "revenue") = None ->
   fst (get_daily_stats float float_of_int float_of_str date w)
   = Return (DailyStats 0 0 (float_of_int 0)))
  /\ (forall stats n,
        fst (get_daily_stats float float_of_int float_of_str date w) = Return stats ->
        integer_at w ("stats:" ++ date ++ ":" ++ "page_views") = Some n ->
        in_int64 (n + value) = true ->
        page_views stats = n
        /\ fst (get_daily_stats float float_of_int float_of_str date
                  (snd (increment_stat date "page_views" value w)))
           = Return (DailyStats (n + value) (orders stats) (revenue stats)))
  /\ (forall stats n,
        fst (get_daily_stats float float_of_int float_of_str date w) = Return stats ->
        integer_at w ("stats:" ++ date ++ ":" ++ "orders") = Some n ->
        in_int64 (n + value) = true ->
        orders stats = n
        /\ fst (get_daily_stats float float_of_int float_of_str date
                  (snd (increment_stat date "orders" value w)))
           = Return (DailyStats (page_views stats) (n + value) (revenue stats))).
Proof.
  intros Hv.
  set (k1 := "stats:" ++ date ++ ":" ++ "page_views") in *.
  set (k2 := "stats:" ++ date ++ ":" ++ "orders") in *.
  set (k3 := "stats:" ++ date ++ ":" ++ "revenue") in *.
  assert (k1 <> k2) as H12 by (apply stat_key_ne; discriminate).
  assert (k1 <> k3) as H13 by (apply stat_key_ne; discriminate).
  assert (k2 <> k3) as H23 by (apply stat_key_ne; discriminate).
  split; [|split].
  - intros H1 H2 H3. rewrite get_daily_stats_run. fold k1 k2 k3.
    unfold bind, rc.get, int_or_0, float_or_0, ret. simpl.
    by rewrite H1, H2, H3.
  - intros stats n Hstats Hn Hr.
    rewrite get_daily_stats_run in Hstats. fold k1 k2 k3 in Hstats.
    destruct (fst ((x <- rc.get k1 ;; int_or_0 x) w)) as [a|e] eqn:Ha; [|done].
    destruct (fst ((x <- rc.get k2 ;; int_or_0 x) w)) as [b|e] eqn:Hb; [|done].
    destruct (fst ((x <- rc.get k3 ;; float_or_0 float float_of_int float_of_str x) w))
      as [c|e] eqn:Hc; [|done].
    injection Hstats as <-. simpl.
    rewrite (get_int_integer k1 w n Hn) in Ha. injection Ha as <-.
    split; [done|].
    unfold increment_stat, bind, ret. fold k1.
    rewrite (incrby_run k1 value n w Hn Hv Hr). simpl.
    set (w' := with_db _ _).
    rewrite get_daily_stats_run. fold k1 k2 k3.
    rewrite (get_int_integer k1 w' (n + value)).
    + rewrite (get_int_same k2 w' w), Hb.
      * by rewrite (get_float_same float float_of_int float_of_str k3 w' w), Hc
          by (subst w'; simpl; by rewrite lookup_insert_ne).
      * subst w'. simpl. by rewrite lookup_insert_ne.
    + unfold integer_at. subst w'. simpl. rewrite lookup_insert_eq.
      by apply PyFacts.string2ll_str_int.
  - intros stats n Hstats Hn Hr.
    rewrite get_daily_stats_run in Hstats. fold k1 k2 k3 in Hstats.
    destruct (fst ((x <- rc.get k1 ;; int_or_0 x) w)) as [a|e] eqn:Ha; [|done].
    destruct (fst ((x <- rc.get k2 ;; int_or_0 x) w)) as [b|e] eqn:Hb; [|done].
    destruct (fst ((x <- rc.get k3 ;; float_or_0 float float_of_int float_of_str x) w))
      as [c|e] eqn:Hc; [|done].
    injection Hstats as <-. simpl.
    rewrite (get_int_integer k2 w n Hn) in Hb. injection Hb as <-.
    split; [done|].
    unfold increment_stat, bind, ret. fold k2.
    rewrite (incrby_run k2 value n w Hn Hv Hr). simpl.
    set (w' := with_db _ _).
    rewrite get_daily_stats_run. fold k1 k2 k3.
    rewrite (get_int_same k1 w' w), Ha.
    + rewrite (get_int_integer k2 w' (n + value)).
      * by rewrite (get_float_same float float_of_int float_of_str k3 w' w), Hc
          by (subst w'; simpl; by rewrite lookup_insert_ne).
      * unfold integer_at. subst w'. simpl. rewrite lookup_insert_eq.
        by apply PyFacts.string2ll_str_int.
    + subst w'. simpl. by rewrite lookup_insert_ne.
Qed.

Lemma daily_stats_count_witness :
  let w := Cluster (<["stats:2024-12-05:page_views" := RString "41"]> ∅) ∅ [] ∅ [] [] None in
  in_int64 1 = true
  /\ fst (get_daily_stats unit (fun _ => tt) (fun _ => Some tt) "2024-12-05" w)
     = Return (DailyStats 41 0 tt)
  /\ fst (get_daily_stats unit (fun _ => tt) (fun _ => Some tt) "2024-12-05"
            (snd (increment_stat "2024-12-05" "page_views" 1 w)))
     = Return (DailyStats 42 0 tt).
Proof.
  intros w. split; [reflexivity|]. split; [reflexivity|].
  destruct (daily_stats_count unit (fun _ => tt) (fun _ => Some tt) "2024-12-05"
              1 w eq_refl) as (_ & Hpv & _).
  destruct (Hpv (DailyStats 41 0 tt) 41 eq_refl eq_refl eq_refl) as (_ & Hafter).
  exact Hafter.
Defined.

(** ** Clearing the cluster *)

Lemma lookup_delete_all (keys : list string) : forall (m : gmap string rvalue) k,
  foldl (fun d key => base.delete key d) m keys !! k
  = if decide (k ∈ keys) then None else m !! k.
Proof.
  induction keys as [|key keys IH]; intros m k; simpl.
  - destruct (decide (k ∈ [])) as [Hin|_]; [by apply elem_of_nil in Hin|done].
  - rewrite IH. destruct (decide (k ∈ keys)) as [Hin|Hout].
    + rewrite decide_True; [done|by right].
    + destruct (decide (k = key)) as [->|Hne].
      * rewrite lookup_delete_eq. rewrite decide_True; [done|by left].
      * rewrite lookup_delete_ne by done.
        rewrite decide_False; [done|]. by intros [?|?]%elem_of_cons.
Qed.

(** Deleting every key a scan returns leaves nothing. *)
Lemma delete_scanned_keys (m : gmap string rvalue) :
  foldl (fun d key => base.delete key d) m (map fst (map_to_list m)) = ∅.
Proof.
  apply map_eq. intros k. rewrite lookup_delete_all, lookup_empty.
  destruct (decide (k ∈ map fst (map_to_list m))) as [|Hout]; [done|].
  destruct (m !! k) as [v|] eqn:Hk; [|done].
  exfalso. apply Hout. apply (list_elem_of_fmap_2 fst _ (k, v)).
  by apply elem_of_map_to_list.
Qed.

(** The counting loop of [clear_all_keys] (lines 41-52). *)
Lemma count_keys_run (keys : list string) : forall total_keys keys_by_node w,
  exists keys_by_node' w',
    for_fold keys (total_keys, keys_by_node)
      (fun key '(total_keys, keys_by_node) =>
         slot <- rc.cluster_keyslot key ;;
         let node :=
           if slot <=? 5460 then "Master 1"
           else if slot <=? 10922 then "Master 2"
           else "Master 3" in
         ret (total_keys + 1,
              dict_set node (dict_get node 0 keys_by_node + 1) keys_by_node)) w
    = (Return (total_keys + Z.of_nat (length keys), keys_by_node'), w')
    /\ db w' = db w.
Proof.
  induction keys as [|key keys IH]; intros total_keys keys_by_node w.
  - exists keys_by_node, w. simpl. unfold ret. by rewrite Z.add_0_r.
  - cbn [for_fold]. unfold bind at 1. unfold bind at 1.
    rewrite cluster_keyslot_run. unfold ret at 1.
    edestruct IH as (kbn & w' & -> & Hdb).
    exists kbn, w'. split; [|done]. do 3 f_equal. cbn [length]. lia.
Qed.

Lemma print_counts_run (keys_by_node : list (string * Z)) : forall w,
  exists w',
    for_each keys_by_node
      (fun '(node, count) =>
         print ("    " ++ node ++ ": " ++ Py.str_int count ++ " keys")) w
    = (Return tt, w')
    /\ db w' = db w.
Proof.
  induction keys_by_node as [|[node count] rest IH]; intros w.
  - by exists w.
  - cbn [for_each]. unfold bind at 1. rewrite print_run.
    edestruct IH as (w' & -> & Hdb). by exists w'.
Qed.

(** The deletion loop of [clear_all_keys] (lines 67-74). *)
Lemma delete_keys_run (keys : list string) : forall deleted_count w,
  exists w',
    for_fold keys deleted_count
      (fun key deleted_count =>
         try_except
           (rc.delete key ;;
            let deleted_count := deleted_count + 1 in
            (if deleted_count mod 100 =? 0
             then print ("  Deleted " ++ Py.str_int deleted_count ++ " keys...")
             else ret tt) ;;
            ret deleted_count)
           (fun e =>
              print ("  ⚠️  Error deleting " ++ key ++ ": " ++ exn_str e) ;;
              ret deleted_count)) w
    = (Return (deleted_count + Z.of_nat (length keys)), w')
    /\ db w' = foldl (fun d key => base.delete key d) (db w) keys.
Proof.
  induction keys as [|key keys IH]; intros deleted_count w.
  - exists w. simpl. unfold ret. by rewrite Z.add_0_r.
  - cbn [for_fold foldl].
    assert (exists w1,
              try_except
                (rc.delete key ;;
                 let deleted_count := deleted_count + 1 in
                 (if deleted_count mod 100 =? 0
                  then print ("  Deleted " ++ Py.str_int deleted_count ++ " keys...")
                  else ret tt) ;;
                 ret deleted_count)
                (fun e =>
                   print ("  ⚠️  Error deleting " ++ key ++ ": " ++ exn_str e) ;;
                   ret deleted_count) w
              = (Return (deleted_count + 1), w1)
              /\ db w1 = base.delete key (db w)) as (w1 & Hstep & Hdb1).
    { unfold try_except, bind, rc.delete, print, ret. simpl.
      destruct (db w !! key) as [v|] eqn:Hk;
        destruct ((deleted_count + 1) mod 100 =? 0); simpl; eexists;
        (split; [reflexivity|]); simpl; by rewrite ?delete_id by done. }
    rewrite (bind_Return _ _ _ _ _ Hstep).
    edestruct IH as (w' & -> & Hdb). exists w'. split.
    + do 2 f_equal. cbn [length]. lia.
    + by rewrite Hdb, Hdb1.
Qed.

(** X17.  [clear_all_keys] on a cluster that can be reached returns and
    leaves no key: every key of the scan (taken as one snapshot of the
    store) is deleted, whatever its type, and the scan that verifies the
    deletion finds nothing. *)
Theorem clear_all_keys_empties (w : cluster) :
  startup_failure w = None ->
  fst (clear_all_keys w) = Return tt
  /\ db (snd (clear_all_keys w)) = ∅.
Proof.
  intros Hs.
  assert (exists w', clear_all_keys w = (Return tt, w') /\ db w' = ∅)
    as (w' & -> & Hdb); [|done].
  unfold clear_all_keys.
  do 4 (erewrite bind_Return by apply print_run; cbv beta).
  erewrite bind_Return; cycle 1.
  { unfold try_except, bind, RedisCluster, print, ret. simpl. rewrite Hs. reflexivity. }
  cbv beta. cbn [negb]. erewrite bind_Return by apply print_run. cbv beta.
  erewrite bind_Return by reflexivity. cbv beta.
  match goal with
  | |- context [bind (for_fold ?keys (0, []) ?body) _ ?w0] =>
      destruct (count_keys_run keys 0 [] w0) as (kbn & w1 & Hcount & Hdb1)
  end.
  erewrite bind_Return by exact Hcount. cbv beta iota.
  erewrite bind_Return by apply print_run. cbv beta.
  match goal with
  | |- context [bind (for_each kbn ?body) _ ?w0] =>
      destruct (print_counts_run kbn w0) as (w2 & Hprint & Hdb2)
  end.
  erewrite bind_Return by exact Hprint. cbv beta.
  cbn [db sent printed] in Hdb1, Hdb2. rewrite Hdb1 in Hdb2.
  clear Hcount Hprint Hdb1.
  cbn [db sent printed]. rewrite Z.add_0_l.
  destruct (map fst (map_to_list (db w))) as [|key keys] eqn:Hkeys.
  - assert (db w = ∅) as Hempty.
    { apply map_to_list_empty_iff. by destruct (map_to_list (db w)). }
    simpl. erewrite bind_Return by apply print_run. cbv beta.
    eexists. split; [reflexivity|]. simpl. by rewrite Hdb2.
  - rewrite <- Hkeys. clear key keys Hkeys.
    destruct (Z.eqb_spec (Z.of_nat (length (map fst (map_to_list (db w))))) 0)
      as [Hlen|_].
    + assert (db w = ∅) as Hempty.
      { apply map_to_list_empty_iff.
        destruct (map_to_list (db w)); [done|simpl in Hlen; lia]. }
      erewrite bind_Return by apply print_run. cbv beta.
      eexists. split; [reflexivity|]. simpl. by rewrite Hdb2.
    + erewrite bind_Return by apply print_run. cbv beta.
      erewrite bind_Return by reflexivity. cbv beta.
      match goal with
      | |- context [bind (for_fold ?keys 0 ?body) _ ?w0] =>
          destruct (delete_keys_run keys 0 w0) as (w3 & Hdelete & Hdb3)
      end.
      erewrite bind_Return by exact Hdelete. cbv beta. clear Hdelete.
      cbn [db sent printed] in Hdb3. rewrite Hdb2, delete_scanned_keys in Hdb3.
      clear Hdb2.
      do 2 (erewrite bind_Return by apply print_run; cbv beta).
      erewrite bind_Return by reflexivity. cbv beta.
      cbn [db sent printed]. rewrite Hdb3, map_to_list_empty. simpl.
      eexists. split; [reflexivity|]. simpl. exact Hdb3.
Qed.

Lemma clear_all_keys_empties_witness :
  let w := Cluster (<["hello" := RString "world"]> (<["tasks:queue" := RList ["a"]]> ∅))
             ∅ [] ∅ [] [] None in
  startup_failure w = None /\ db (snd (clear_all_keys w)) = ∅.
Proof.
  intros w. split; [reflexivity|].
  destruct (clear_all_keys_empties w eq_refl) as (_ & Hdb).
  exact Hdb.
Defined.

(** X18.  On a cluster that holds no key, [clear_all_keys] deletes
    nothing: it connects, scans once, reports that the cluster is
    already empty and closes the client; no DEL is sent and the second
    and third scans are never made. *)
Theorem clear_all_keys_nothing_to_delete (w : cluster) :
  startup_failure w = None ->
  db w = ∅ ->
  let run := clear_all_keys w in
  fst run = Return tt
  /\ wire (snd run) = (wire w ++ [CONNECT; SCAN "*"; CLOSE])%list
  /\ db (snd run) = ∅
  /\ last (console (snd run))
     = Some (nl ++ "✅ No keys to delete. Cluster is already empty!").
Proof.
  intros Hs Hdb run.
  assert (run
          = (Return tt,
             sent CLOSE
               (printed (nl ++ "✅ No keys to delete. Cluster is already empty!")
                  (printed ("  Total keys found: " ++ Py.str_int 0)
                     (sent (SCAN "*")
                        (printed (nl ++ "📊 Counting keys before deletion...")
                           (printed "✅ Connected successfully!"
                              (sent CONNECT
                                 (printed (nl ++ "📡 Connecting to Redis Cluster...")
                                    (printed (Py.repeat_str "=" 60)
                                       (printed "🗑️  Clearing All Keys from Redis Cluster"
                                          (printed (Py.repeat_str "=" 60) w)))))))))))) as ->.
  { subst run. unfold clear_all_keys.
    do 4 (erewrite bind_Return by apply print_run; cbv beta).
    erewrite bind_Return; cycle 1.
    { unfold try_except. erewrite bind_Return; cycle 1.
      { unfold RedisCluster. cbn [startup_failure sent printed]. rewrite Hs.
        reflexivity. }
      cbv beta. erewrite bind_Return by apply print_run. reflexivity. }
    cbv beta. cbn [negb]. erewrite bind_Return by apply print_run. cbv beta.
    erewrite bind_Return by reflexivity. cbv beta.
    cbn [db sent printed]. rewrite Hdb, map_to_list_empty.
    reflexivity. }
  cbn [fst snd wire console db sent printed].
  split; [done|]. split; [by rewrite <- !app_assoc|]. split; [done|].
  by rewrite last_snoc.
Qed.

Lemma clear_all_keys_nothing_to_delete_witness :
  let w := Cluster ∅ ∅ [] ∅ [] [] None in
  startup_failure w = None
  /\ db w = ∅
  /\ wire (snd (clear_all_keys w)) = [CONNECT; SCAN "*"; CLOSE].
Proof.
  intros w. split; [reflexivity|]. split; [reflexivity|].
  destruct (clear_all_keys_nothing_to_delete w eq_refl eq_refl) as (_ & Hwire & _).
  exact Hwire.
Defined.

(** ** The demonstrations that start from a clean key *)

Lemma rpush_each_run key (values : list string) : forall l w,
  list_at w key = Some l ->
  exists w',
    for_each values (fun task => rc.rpush key task ;; ret tt) w = (Return tt, w')
    /\ list_at w' key = Some (l ++ values)%list
    /\ (forall other, other <> key -> db w' !! other = db w !! other).
Proof.
  induction values as [|value values IH]; intros l w Hl.
  - exists w. by rewrite app_nil_r.
  - assert (exists w1,
              (rc.rpush key value ;; ret tt) w = (Return tt, w1)
              /\ db w1 = <[key := RList (l ++ [value])]> (db w)) as (w1 & Hstep & Hdb1).
    { unfold bind, rc.rpush, ret, list_at in *. simpl.
      destruct (db w !! key) as [[s|h|l'|scored]|]; try done.
      - injection Hl as ->. by eexists.
      - injection Hl as <-. by eexists. }
    cbn [for_each]. rewrite (bind_Return _ _ _ _ _ Hstep).
    destruct (IH (l ++ [value])%list w1) as (w' & Hrest & Hafter & Hother).
    { unfold list_at. by rewrite Hdb1, lookup_insert_eq. }
    exists w'. split; [done|]. split; [by rewrite Hafter, <- app_assoc|].
    intros other Hne. by rewrite Hother, Hdb1, lookup_insert_ne.
Qed.

(** X19.  Demo 4 of [demo.main] starts by deleting its key, so it can
    be run again and again: whatever ["tasks:queue"] held before, a list
    of earlier runs or a value of another type, the four tasks are read
    back, in the order they were pushed, and they are what the key holds
    afterwards; no other key is touched. *)
Theorem demo_list_operations_rerun (str_list : list string -> string) (w : cluster) :
  let tasks := ["send_email"; "process_payment"; "update_inventory"; "notify_user"] in
  let run := demo_list_operations str_list w in
  fst run = Return tasks
  /\ db (snd run) !! "tasks:queue" = Some (RList tasks)
  /\ (forall other, other <> "tasks:queue" -> db (snd run) !! other = db w !! other).
Proof.
  intros tasks run.
  assert (exists w', run = (Return tasks, w')
                     /\ db w' !! "tasks:queue" = Some (RList tasks)
                     /\ (forall other, other <> "tasks:queue" ->
                           db w' !! other = db w !! other))
    as (w' & -> & Hafter); [|done].
  subst run. unfold demo_list_operations.
  do 2 (erewrite bind_Return by apply print_run; cbv beta).
  assert (exists w1,
            rc.delete "tasks:queue"
              (printed (Py.repeat_str "-" 40)
                 (printed (nl ++ "🔹 Demo 4: List Operations") w))
            = (Return (match db w !! "tasks:queue" with Some _ => 1 | None => 0 end), w1)
            /\ db w1 = base.delete "tasks:queue" (db w)) as (w1 & Hdel & Hdb1).
  { unfold rc.delete. cbn [db sent printed].
    destruct (db w !! "tasks:queue") eqn:Hk; eexists; (split; [reflexivity|]).
    - done.
    - cbn [db sent printed]. by rewrite delete_id. }
  erewrite bind_Return by exact Hdel. cbv beta. clear Hdel.
  destruct (rpush_each_run "tasks:queue" tasks [] w1) as (w2 & Hpush & Hl2 & Hother).
  { unfold list_at. by rewrite Hdb1, lookup_delete_eq. }
  fold tasks. erewrite bind_Return by exact Hpush. cbv beta. clear Hpush.
  erewrite bind_Return by apply print_run. cbv beta.
  erewrite bind_Return; cycle 1.
  { apply (lrange_list_at "tasks:queue" 0 (-1) _ tasks). exact Hl2. }
  cbv beta. erewrite bind_Return by apply print_run. cbv beta.
  eexists. split; [reflexivity|]. cbn [db sent printed]. split.
  - unfold list_at in Hl2. simpl in Hl2.
    destruct (db w2 !! "tasks:queue") as [[s|h|l|scored]|]; try done. by injection Hl2 as ->.
  - intros other Hne. by rewrite Hother, Hdb1, lookup_delete_ne.
Qed.

(** [k] increments of an integer key. *)
Lemma incr_times key (k : nat) : forall n w,
  integer_at w key = Some n ->
  in_int64 n = true ->
  in_int64 (n + Z.of_nat k) = true ->
  exists answers w',
    call_times k (rc.incr key) w = (Return answers, w')
    /\ integer_at w' key = Some (n + Z.of_nat k)
    /\ (forall other, other <> key -> db w' !! other = db w !! other)
    /\ ((0 < k)%nat -> db w' !! key = Some (RString (Py.str_int (n + Z.of_nat k)))).
Proof.
  induction k as [|k IH]; intros n w Hn Hrange Hk.
  - exists [], w. split; [done|]. rewrite Z.add_0_r. split; [done|]. split; [done|]. lia.
  - apply in_int64_spec in Hrange, Hk.
    assert (in_int64 (n + 1) = true) as H1 by (apply in_int64_spec; lia).
    pose proof (incr_run key w n Hn H1) as Hrun.
    set (w1 := with_db (<[key := RString (Py.str_int (n + 1))]> (db w))
                 (sent (INCR key) w)) in *.
    assert (integer_at w1 key = Some (n + 1)) as Hn1.
    { unfold integer_at. subst w1. simpl. rewrite lookup_insert_eq.
      by apply PyFacts.string2ll_str_int. }
    destruct (IH (n + 1) w1 Hn1 H1) as (answers & w' & Hrest & Hafter & Hother & Hkey).
    { apply in_int64_spec. lia. }
    exists (n + 1 :: answers), w'.
    split; [by apply (call_times_step k _ w (n + 1) w1)|].
    replace (n + Z.of_nat (S k)) with (n + 1 + Z.of_nat k) by lia.
    split; [done|]. split.
    + intros other Hne. rewrite Hother by done. subst w1. simpl.
      by rewrite lookup_insert_ne.
    + intros _. destruct k as [|k]; [|apply Hkey; lia].
      simpl in Hrest. injection Hrest as _ <-. subst w1. simpl.
      by rewrite Z.add_0_r, lookup_insert_eq.
Qed.

(** X20.  Demo 8 of [demo.main] sets its counter before it counts, so
    the five INCR always end at five: whatever ["page:views:home"] held
    before, of whatever type, the value read back is ["5"], and no
    other key is touched. *)
Theorem demo_counter_counts_to_five (w : cluster) :
  fst (demo_counter w) = Return (Some "5")
  /\ db (snd (demo_counter w)) !! "page:views:home" = Some (RString "5")
  /\ (forall other, other <> "page:views:home" ->
        db (snd (demo_counter w)) !! other = db w !! other).
Proof.
  assert (exists w', demo_counter w = (Return (Some "5"), w')
                     /\ db w' !! "page:views:home" = Some (RString "5")
                     /\ (forall other, other <> "page:views:home" ->
                           db w' !! other = db w !! other))
    as (w' & -> & Hafter); [|done].
  unfold demo_counter.
  do 2 (erewrite bind_Return by apply print_run; cbv beta).
  erewrite bind_Return by reflexivity. cbv beta.
  match goal with
  | |- context [bind (call_times 5 _) _ ?w0] =>
      destruct (incr_times "page:views:home" 5 0 w0)
        as (answers & w1 & Hincr & _ & Hother & Hkey)
  end.
  { unfold integer_at. cbn [db sent printed with_db with_ttl].
    by rewrite lookup_insert_eq. }
  { reflexivity. }
  { reflexivity. }
  erewrite bind_Return by exact Hincr. cbv beta. clear Hincr.
  specialize (Hkey ltac:(lia)). change (Py.str_int (0 + Z.of_nat 5)) with "5" in Hkey.
  erewrite bind_Return; cycle 1.
  { unfold rc.get. cbn [db sent]. rewrite Hkey. reflexivity. }
  cbv beta. erewrite bind_Return by apply print_run. cbv beta.
  eexists. split; [reflexivity|]. cbn [db sent printed]. split; [done|].
  intros other Hne. rewrite Hother by done. cbn [db sent printed with_db with_ttl].
  by rewrite lookup_insert_ne.
Qed.

(** ** Reads *)

Lemma loads_each_wire json (json_loads : string -> option json) notifications :
  forall parsed w,
  snd (for_fold notifications parsed
         (fun n parsed => value <- loads json json_loads n ;;
                          ret (parsed ++ [value])%list) w) = w.
Proof.
  intros parsed w. rewrite loads_each.
  by destruct (mapM json_loads notifications).
Qed.

(** X21.  The reads never write.  [check_stock], [get_session],
    [get_notifications] and [get_daily_stats] leave every key and every
    expiry as they were, on every path: when they return, when the key
    holds a value of another type, and when [int], [float] or
    [json.loads] raises on what is stored. *)
Theorem reads_never_write (float json : Type) (float_of_int : Z -> float)
    (float_of_str : string -> option float) (json_loads : string -> option json)
    (key : string) (count : Z) (w : cluster) :
  (db (snd (check_stock key w)) = db w /\ ttl (snd (check_stock key w)) = ttl w)
  /\ (db (snd (get_session json json_loads key w)) = db w
      /\ ttl (snd (get_session json json_loads key w)) = ttl w)
  /\ (db (snd (get_notifications json json_loads key count w)) = db w
      /\ ttl (snd (get_notifications json json_loads key count w)) = ttl w)
  /\ (db (snd (get_daily_stats float float_of_int float_of_str key w)) = db w
      /\ ttl (snd (get_daily_stats float float_of_int float_of_str key w)) = ttl w).
Proof.
  split; [|split; [|split]].
  - by rewrite check_stock_wire.
  - unfold get_session, bind, rc.get, loads, ret, raise. simpl.
    destruct (db w !! ("session:" ++ key)) as [[s|h|l|scored]|]; try done.
    destruct (Py.truthy s); [|done]. by destruct (json_loads s).
  - unfold get_notifications. unfold bind at 1. unfold bind at 2.
    destruct (rc.lrange ("notifications:" ++ key) 0 (count - 1) w) as [[l|e] w1] eqn:Hl.
    + rewrite !loads_each_wire. unfold rc.lrange in Hl. simpl in Hl.
      destruct (db w !! ("notifications:" ++ key)) as [[s|h|l'|scored]|];
        by injection Hl as _ <-.
    + unfold rc.lrange in Hl. simpl in Hl.
      destruct (db w !! ("notifications:" ++ key)) as [[s|h|l'|scored]|];
        by injection Hl as _ <-.
  - unfold get_daily_stats.
    set (k1 := ("stats:" ++ key) ++ ":page_views").
    set (k2 := ("stats:" ++ key) ++ ":orders").
    set (k3 := ("stats:" ++ key) ++ ":revenue").
    assert (forall A B (m : M A) (k : A -> M B) w0,
              db (snd (m w0)) = db w0 -> ttl (snd (m w0)) = ttl w0 ->
              (forall a w1, db (snd (k a w1)) = db w1 /\ ttl (snd (k a w1)) = ttl w1) ->
              db (snd (bind m k w0)) = db w0 /\ ttl (snd (bind m k w0)) = ttl w0)
      as Hbind.
    { intros A B m k w0 Hd Ht Hk. unfold bind.
      destruct (m w0) as [[a|e] w1]; simpl in *; [|done].
      destruct (Hk a w1) as [-> ->]. done. }
    apply Hbind; [by rewrite get_int_wire..|]. intros a w1.
    apply Hbind; [by rewrite get_int_wire..|]. intros b w2.
    apply Hbind; [by rewrite get_float_wire..|]. intros c w3. done.
Qed.

(** ** The order of the topology reply *)

Lemma get_node_for_key_run key w :
  fst (get_node_for_key key w)
  = Return (default (None, None, keyHashSlot key)
              (get_node_for_key_loop (topology w) (keyHashSlot key))).
Proof.
  unfold get_node_for_key, bind, rc.cluster_keyslot, rc.cluster_nodes. simpl.
  by destruct (get_node_for_key_loop (topology w) (keyHashSlot key)).
Qed.

(** X22.  [get_node_for_key] returns from inside its loop at the first
    master whose first range holds the slot, so its answer could depend
    on the order in which the reply of [cluster_nodes] is iterated.  It
    does not when the masters whose first ranges overlap have the same
    address, as they do when the ranges are disjoint: two replies with
    the same entries in any order give the same answer. *)
Theorem get_node_for_key_any_order (key : string) (w w' : cluster) :
  Permutation (topology w') (topology w) ->
  (forall id1 ni1 id2 ni2 start1 stop1 start2 stop2 slot,
     In (id1, ni1) (topology w) -> In (id2, ni2) (topology w) ->
     ni_master ni1 = None -> ni_master ni2 = None ->
     head (ni_slots ni1) = Some (start1, stop1) ->
     head (ni_slots ni2) = Some (start2, stop2) ->
     start1 <= slot <= stop1 -> start2 <= slot <= stop2 ->
     ni_host ni1 = ni_host ni2 /\ ni_port ni1 = ni_port ni2) ->
  fst (get_node_for_key key w') = fst (get_node_for_key key w).
Proof.
  intros Hperm Hsame. rewrite !get_node_for_key_run. do 2 f_equal.
  set (slot := keyHashSlot key).
  destruct (get_node_for_key_loop (topology w) slot) as [found|] eqn:Hw.
  - destruct (get_node_for_key_loop (topology w') slot) as [found'|] eqn:Hw'.
    + apply get_node_for_key_loop_found in Hw
        as (id1 & ni1 & a1 & b1 & Hin1 & Hm1 & Hh1 & Hr1 & ->).
      apply get_node_for_key_loop_found in Hw'
        as (id2 & ni2 & a2 & b2 & Hin2 & Hm2 & Hh2 & Hr2 & ->).
      apply (Permutation_in _ Hperm) in Hin2.
      destruct (Hsame id2 ni2 id1 ni1 a2 b2 a1 b1 slot) as [-> ->]; done.
    + apply get_node_for_key_loop_found in Hw
        as (id1 & ni1 & a1 & b1 & Hin1 & Hm1 & Hh1 & Hr1 & ->).
      exfalso.
      apply (proj1 (get_node_for_key_loop_none _ _) Hw' id1 ni1 a1 b1); try done.
      by apply (Permutation_in _ (Permutation_sym Hperm)).
  - destruct (get_node_for_key_loop (topology w') slot) as [found'|] eqn:Hw'; [|done].
    apply get_node_for_key_loop_found in Hw'
      as (id2 & ni2 & a2 & b2 & Hin2 & Hm2 & Hh2 & Hr2 & ->).
    exfalso.
    apply (proj1 (get_node_for_key_loop_none _ _) Hw id2 ni2 a2 b2); try done.
    by apply (Permutation_in _ Hperm).
Qed.

Lemma get_node_for_key_any_order_witness :
  let node1 := NodeInfo None [(0, 5460)] (Some "172.28.0.2") (Some 6379) in
  let node3 := NodeInfo None [(10923, 16383)] (Some "172.28.0.4") (Some 6379) in
  let replica := NodeInfo (Some "172.28.0.4:6379") [] (Some "172.28.0.7") (Some 6379) in
  let w := Cluster ∅ ∅ [("172.28.0.2:6379", node1); ("172.28.0.4:6379", node3);
                        ("172.28.0.7:6379", replica)] ∅ [] [] None in
  let w' := Cluster ∅ ∅ [("172.28.0.7:6379", replica); ("172.28.0.4:6379", node3);
                         ("172.28.0.2:6379", node1)] ∅ [] [] None in
  Permutation (topology w') (topology w)
  /\ fst (get_node_for_key "foo" w') = fst (get_node_for_key "foo" w).
Proof.
  intros node1 node3 replica w w'.
  assert (Permutation (topology w') (topology w)) as Hperm.
  { simpl. apply (Permutation_rev [_; _; _]). }
  split; [exact Hperm|].
  apply (get_node_for_key_any_order "foo" w w' Hperm).
  intros id1 ni1 id2 ni2 a1 b1 a2 b2 slot Hin1 Hin2 Hm1 Hm2 Hh1 Hh2 Hr1 Hr2.
  simpl in Hin1, Hin2.
  destruct Hin1 as [[= <- <-]|[[= <- <-]|[[= <- <-]|[]]]];
    destruct Hin2 as [[= <- <-]|[[= <- <-]|[[= <- <-]|[]]]];
    simpl in *; try done;
    injection Hh1 as <- <-; injection Hh2 as <- <-; lia.
Defined.

(** ** Counting the keys of each master *)

Lemma dict_get_set_eq {V} k (v dflt : V) d : dict_get k dflt (dict_set k v d) = v.
Proof.
  induction d as [|[k' v'] d IH]; simpl.
  - by rewrite String.eqb_refl.
  - destruct (String.eqb_spec k k') as [->|Hne]; simpl.
    + by rewrite String.eqb_refl.
    + destruct (String.eqb_spec k k'); [done|]. exact IH.
Qed.

Lemma dict_get_set_ne {V} k k' (v dflt : V) d :
  k' <> k -> dict_get k' dflt (dict_set k v d) = dict_get k' dflt d.
Proof.
  intros Hne. induction d as [|[k0 v0] d IH]; simpl.
  - by destruct (String.eqb_spec k' k).
  - destruct (String.eqb_spec k k0) as [->|Hk]; simpl.
    + by destruct (String.eqb_spec k' k0).
    + destruct (String.eqb_spec k' k0); [done|]. exact IH.
Qed.

Lemma dict_set_count k d :
  foldr Z.add 0 (map snd (dict_set k (dict_get k 0 d + 1) d))
  = foldr Z.add 0 (map snd d) + 1.
Proof.
  induction d as [|[k' v'] d IH]; simpl; [done|].
  destruct (String.eqb_spec k k') as [->|Hne]; simpl; [lia|].
  rewrite IH. lia.
Qed.

(** X23.  The counting loop of [clear_all_keys] files every key under
    one master.  For any list of scanned keys the loop returns; the
    total is the number of keys; the count kept for each of the three
    labels is the number of keys whose slot lies in the range of that
    master; and the counts of the dictionary add up to the total. *)
Theorem clear_all_keys_counts_every_key (keys : list string) (w : cluster) :
  exists keys_by_node,
    fst (for_fold keys (0, [])
           (fun key '(total_keys, keys_by_node) =>
              slot <- rc.cluster_keyslot key ;;
              let node :=
                if slot <=? 5460 then "Master 1"
                else if slot <=? 10922 then "Master 2"
                else "Master 3" in
              ret (total_keys + 1,
                   dict_set node (dict_get node 0 keys_by_node + 1) keys_by_node)) w)
    = Return (Z.of_nat (length keys), keys_by_node)
    /\ foldr Z.add 0 (map snd keys_by_node) = Z.of_nat (length keys)
    /\ dict_get "Master 1" 0 keys_by_node
       = Z.of_nat (length (List.filter (fun key => keyHashSlot key <=? 5460) keys))
    /\ dict_get "Master 2" 0 keys_by_node
       = Z.of_nat (length (List.filter
                             (fun key => negb (keyHashSlot key <=? 5460)
                                         && (keyHashSlot key <=? 10922)) keys))
    /\ dict_get "Master 3" 0 keys_by_node
       = Z.of_nat (length (List.filter
                             (fun key => negb (keyHashSlot key <=? 10922)) keys)).
Proof.
  assert (forall keys total_keys keys_by_node w,
            exists keys_by_node' w',
              for_fold keys (total_keys, keys_by_node)
                (fun key '(total_keys, keys_by_node) =>
                   slot <- rc.cluster_keyslot key ;;
                   let node :=
                     if slot <=? 5460 then "Master 1"
                     else if slot <=? 10922 then "Master 2"
                     else "Master 3" in
                   ret (total_keys + 1,
                        dict_set node (dict_get node 0 keys_by_node + 1) keys_by_node)) w
              = (Return (total_keys + Z.of_nat (length keys), keys_by_node'), w')
              /\ foldr Z.add 0 (map snd keys_by_node')
                 = foldr Z.add 0 (map snd keys_by_node) + Z.of_nat (length keys)
              /\ dict_get "Master 1" 0 keys_by_node'
                 = dict_get "Master 1" 0 keys_by_node
                   + Z.of_nat (length (List.filter
                                         (fun key => keyHashSlot key <=? 5460) keys))
              /\ dict_get "Master 2" 0 keys_by_node'
                 = dict_get "Master 2" 0 keys_by_node
                   + Z.of_nat (length (List.filter
                                         (fun key => negb (keyHashSlot key <=? 5460)
                                                     && (keyHashSlot key <=? 10922))
                                         keys))
              /\ dict_get "Master 3" 0 keys_by_node'
                 = dict_get "Master 3" 0 keys_by_node
                   + Z.of_nat (length (List.filter
                                         (fun key => negb (keyHashSlot key <=? 10922))
                                         keys))) as Hloop.
  { clear keys w. induction keys as [|key keys IH]; intros total_keys keys_by_node w.
    - exists keys_by_node, w. simpl. unfold ret. rewrite !Z.add_0_r. done.
    - cbn [for_fold]. unfold bind at 1. unfold bind at 1.
      rewrite cluster_keyslot_run. unfold ret at 1. cbv zeta.
      edestruct IH as (kbn & w' & -> & Hsum & H1 & H2 & H3).
      exists kbn, w'. rewrite Hsum, H1, H2, H3, dict_set_count. cbn [length List.filter].
      destruct (Z.leb_spec (keyHashSlot key) 5460) as [Ha|Ha].
      + destruct (Z.leb_spec (keyHashSlot key) 10922) as [_|]; [|lia].
        cbn [negb andb length].
        rewrite dict_get_set_eq, !dict_get_set_ne by discriminate.
        split; [do 3 f_equal; lia|]. repeat split; lia.
      + destruct (Z.leb_spec (keyHashSlot key) 10922) as [Hb|Hb];
          cbn [negb andb length];
          rewrite dict_get_set_eq, !dict_get_set_ne by discriminate;
          (split; [do 3 f_equal; lia|]); repeat split; lia. }
  destruct (Hloop keys 0 [] w) as (kbn & w' & Hrun & Hsum & H1 & H2 & H3).
  exists kbn. rewrite Hrun. simpl in *. rewrite Z.add_0_l in *. done.
Qed.

(** ** Products grouped by master *)





